(** * Podcast-Maker: the loudness-normalisation and assembly pipeline

    A shallow embedding of [src/app.py] (the ffmpeg helpers,
    [process_episode] and the two handlers of the window that decide
    something, [validate_files] and [on_export]) and the properties of
    its natural-language specification.

    The program drives an external tool and the file system, so the
    embedding threads an explicit [World] (the set of existing paths and
    a log of what the program did) through a state-and-exception monad.
    Everything the program cannot decide itself -- what [ffmpeg] answers,
    where [shutil.which] finds it, what [json.loads] and [float] make of a
    text -- is a field of the environment record [Env]; the theorems
    quantify over it.  Paths follow [posixpath]. *)

From Stdlib Require Import ZArith String Ascii List Lia.
From Stdlib Require Import Floats.SpecFloat.
From stdpp Require Import base strings list pretty.

Set Warnings "-register-all".
Local Open Scope string_scope.
Local Open Scope Z_scope.
Local Open Scope list_scope.

(* ================================================================== *)
(** * Texts *)

Module Str.

(** The line feed of the source's ["\n"]. *)
Definition nl : string := String "010"%char EmptyString.

(** [sep.join(parts)]. *)
Fixpoint join (sep : string) (parts : list string) : string :=
  match parts with
  | [] => ""
  | [p] => p
  | p :: rest => p +:+ sep +:+ join sep rest
  end.

(** ["".join(parts)]. *)
Definition concat (parts : list string) : string :=
  foldr String.append "" parts.

(** [s.startswith(p)]. *)
Fixpoint startswith (p s : string) : bool :=
  match p, s with
  | EmptyString, _ => true
  | String a p', String b s' => if Ascii.eqb a b then startswith p' s' else false
  | String _ _, EmptyString => false
  end.

(** [s.endswith(c)] for a single character. *)
Fixpoint endswith_char (c : ascii) (s : string) : bool :=
  match s with
  | EmptyString => false
  | String a EmptyString => Ascii.eqb a c
  | String _ s' => endswith_char c s'
  end.

(** [p in s]: [p] occurs in [s] as a contiguous run. *)
Fixpoint contains (p s : string) : bool :=
  startswith p s ||
  match s with
  | EmptyString => false
  | String _ s' => contains p s'
  end.

(** [c in s] for a single character. *)
Fixpoint has_char (c : ascii) (s : string) : bool :=
  match s with
  | EmptyString => false
  | String a s' => Ascii.eqb a c || has_char c s'
  end.

(** [str.lower] on one character.  Only [A]..[Z] change; every byte of a
    multi-byte character is left as it is, which decides a comparison
    with an ASCII text the way Python's Unicode [lower] does whenever
    that text has no [k] (the one ASCII letter that a non-ASCII
    character lowers to). *)
Definition lower_char (c : ascii) : ascii :=
  let n := nat_of_ascii c in
  if (Nat.leb 65 n && Nat.leb n 90)%bool then ascii_of_nat (n + 32) else c.

Fixpoint lower (s : string) : string :=
  match s with
  | EmptyString => EmptyString
  | String c s' => String (lower_char c) (lower s')
  end.

Definition eqb (a b : string) : bool := String.eqb a b.

(** [x in l] for a list of texts. *)
Definition mem (x : string) (l : list string) : bool :=
  existsb (String.eqb x) l.

End Str.

(* ================================================================== *)
(** * Floats

    A Python [float] is an IEEE-754 binary64, here a [spec_float] of the
    standard library with precision 53 and maximal exponent 1024. *)

Module Float.

Definition float : Type := spec_float.

Definition prec : Z := 53.
Definition emax : Z := 1024.

(** The binary64 nearest to [m * 2^e] (a float literal of the source). *)
Definition of_scaled (m e : Z) : float := binary_normalize prec emax m e false.

Definition is_finite (x : float) : bool :=
  match x with
  | S754_zero _ | S754_finite _ _ _ => true
  | S754_infinity _ | S754_nan => false
  end.

(** The value of a float rounded to [d] decimals: the sign bit and the
    integer nearest to [|x| * 10^d], ties to even -- the correctly
    rounded conversion of Python's [format(x, ".<d>f")] and
    [round(x, d)], both of which keep the sign of a zero result. *)
Inductive rounded : Type :=
| RNan
| RInf (neg : bool)
| RFix (neg : bool) (scaled : N).

(** [num / den] rounded to the nearest integer, ties to even. *)
Definition div_half_even (num den : N) : N :=
  let q := (num / den)%N in
  let r := (num mod den)%N in
  match (2 * r ?= den)%N with
  | Lt => q
  | Gt => (q + 1)%N
  | Eq => if N.even q then q else (q + 1)%N
  end.

Definition round_to (d : nat) (x : float) : rounded :=
  match x with
  | S754_nan => RNan
  | S754_infinity s => RInf s
  | S754_zero s => RFix s 0
  | S754_finite s m e =>
      let num := (N.pos m * 10 ^ N.of_nat d)%N in
      match e with
      | Z0 => RFix s num
      | Zpos p => RFix s (num * 2 ^ N.pos p)%N
      | Zneg p => RFix s (div_half_even num (2 ^ N.pos p))
      end
  end.

Definition digit_char (n : N) : ascii := pretty_N_char n.

(** Exactly [d] decimal digits of [n], most significant first. *)
Fixpoint digits_fixed (d : nat) (n : N) : string :=
  match d with
  | O => ""
  | S d' => digits_fixed d' (n / 10)%N +:+ String (digit_char (n mod 10)%N) ""
  end.

Definition render (d : nat) (r : rounded) : string :=
  match r with
  | RNan => "nan"
  | RInf neg => if neg then "-inf" else "inf"
  | RFix neg n =>
      let p := (10 ^ N.of_nat d)%N in
      (if neg then "-" else "") +:+ pretty (n / p)%N +:+
      match d with
      | O => ""
      | S _ => "." +:+ digits_fixed d (n mod p)%N
      end
  end.

(** [f"{x:.<d>f}"]. *)
Definition format_f (d : nat) (x : float) : string := render d (round_to d x).

End Float.

Export Float(float).

(* ================================================================== *)
(** * Python values, exceptions and results *)

(** The objects [json.loads] can return. A [dict] keeps its keys in the
    order of insertion, so it is an association list with distinct keys. *)
Inductive pyval : Type :=
| PyNone
| PyBool (b : bool)
| PyInt (z : Z)
| PyFloat (f : float)
| PyStr (s : string)
| PyList (l : list pyval)
| PyDict (kv : list (string * pyval)).

(** An exception: its class and its message ([str(e)]). *)
Record exn : Type := Exn { exn_class : string; exn_msg : string }.

Definition RuntimeError (msg : string) : exn := Exn "RuntimeError" msg.
Definition KeyError (key : string) : exn := Exn "KeyError" key.
Definition ValueError (msg : string) : exn := Exn "ValueError" msg.
Definition TypeError (msg : string) : exn := Exn "TypeError" msg.
Definition OverflowError (msg : string) : exn := Exn "OverflowError" msg.
Definition AttributeError (msg : string) : exn := Exn "AttributeError" msg.

Inductive result (A : Type) : Type :=
| Ok (a : A)
| Raise (e : exn).
Arguments Ok {A} a.
Arguments Raise {A} e.

(* ================================================================== *)
(** * The world the program runs in *)

(** What the program did, in order.  [EvRun] is a process started by
    [run_cmd], with what it answered and the paths that existed when it
    ended; [EvStatus] a text handed to the progress callback; [EvMeasure],
    [EvNormalize] and [EvConcat] record the calls of the three ffmpeg
    helpers with the arguments they received; [EvMkdtemp] and [EvRmtree]
    the life of the temporary directory. *)
Inductive Event : Type :=
| EvStatus (msg : string)
| EvRun (cmd : list string) (answer : result (Z * string * string))
        (fs_after : list string)
| EvMeasure (ffmpeg_path infile : string)
| EvNormalize (ffmpeg_path infile outfile_wav : string)
              (target_i true_peak lra : float) (sample_rate channels : Z)
| EvConcat (ffmpeg_path : string) (input_files : list string)
           (output_path : string) (mp3_quality : Z)
| EvMkdtemp (td : string)
| EvRmtree (td : string).

Record World : Type := mkWorld {
  fs : list string;        (** the paths that exist *)
  trace : list Event       (** oldest event first *)
}.

(** What lies outside the program. *)
Record Env : Type := mkEnv {
  os_name : string;                        (** [os.name] *)
  sys_meipass : option string;             (** [sys._MEIPASS], when bundled *)
  abspath_dot : string;                    (** [os.path.abspath(".")] *)
  shutil_which : string -> World -> option string;
  (** [Popen(cmd).communicate()]: the exit status, stdout and stderr, or
      the exception of a process that could not be started, and the paths
      that exist afterwards. *)
  popen : list string -> World -> result (Z * string * string) * list string;
  (** The directory [tempfile.TemporaryDirectory(prefix=...)] creates. *)
  mkdtemp : string -> World -> result string;
  json_loads : string -> result pyval;     (** [json.loads] *)
  float_of_str : string -> option float;   (** [float(s)] of a text *)
  (** [repr(v)]: a text in its quotes; of a float or a container this is
      [str(v)] as well. *)
  repr_of : pyval -> string
}.

(** The optional progress callback: it sees the world and may raise. *)
Definition callback : Type := string -> World -> option exn.

(* ================================================================== *)
(** * The state-and-exception monad *)

Definition M (A : Type) : Type := World -> result A * World.

Definition ret {A} (a : A) : M A := fun w => (Ok a, w).
Definition raise {A} (e : exn) : M A := fun w => (Raise e, w).
Definition bind {A B} (c : M A) (k : A -> M B) : M B :=
  fun w =>
    match c w with
    | (Ok a, w') => k a w'
    | (Raise e, w') => (Raise e, w')
    end.
Definition lift {A} (r : result A) : M A := fun w => (r, w).
Definition log (ev : Event) : M unit :=
  fun w => (Ok tt, mkWorld (fs w) (trace w ++ [ev])).

Declare Scope py_scope.
Delimit Scope py_scope with py.
Notation "x <- c ;; k" := (bind c (fun x => k))
  (at level 100, c at next level, right associativity) : py_scope.
Notation "c ;;; k" := (bind c (fun _ => k))
  (at level 100, right associativity) : py_scope.
Local Open Scope py_scope.

(* ================================================================== *)
(** * Library functions the source calls *)

Module os_path.

(** [posixpath.join(a, b)]. *)
Definition join (a b : string) : string :=
  if Str.startswith "/" b then b
  else if Str.eqb a "" || Str.endswith_char "/" a then a +:+ b
  else a +:+ "/" +:+ b.

(** [os.path.exists(p)]. *)
Definition exists_ (p : string) : M bool :=
  fun w => (Ok (Str.mem p (fs w)), w).

(** [p] is the directory [d] or lies below it. *)
Definition under (d p : string) : bool :=
  Str.eqb p d || Str.startswith (join d "") p.

End os_path.

(** [type(v).__name__]. *)
Definition type_name (v : pyval) : string :=
  match v with
  | PyNone => "NoneType"
  | PyBool _ => "bool"
  | PyInt _ => "int"
  | PyFloat _ => "float"
  | PyStr _ => "str"
  | PyList _ => "list"
  | PyDict _ => "dict"
  end.

(** [str(v)]. *)
Definition py_str (E : Env) (v : pyval) : string :=
  match v with
  | PyStr s => s
  | PyNone => "None"
  | PyBool b => if b then "True" else "False"
  | PyInt z => pretty z
  | PyFloat S754_nan => "nan"
  | PyFloat (S754_infinity s) => if s then "-inf" else "inf"
  | _ => repr_of E v
  end.

(** [float(v)]. *)
Definition py_float (E : Env) (v : pyval) : result float :=
  match v with
  | PyFloat f => Ok f
  | PyBool b => Ok (Float.of_scaled (if b then 1 else 0) 0)
  | PyInt z =>
      match Float.of_scaled z 0 with
      | S754_infinity _ => Raise (OverflowError "int too large to convert to float")
      | f => Ok f
      end
  | PyStr s =>
      match float_of_str E s with
      | Some f => Ok f
      | None =>
          Raise (ValueError ("could not convert string to float: " +:+
                             repr_of E (PyStr s)))
      end
  | _ =>
      Raise (TypeError ("float() argument must be a string or a real number, " +:+
                        "not '" +:+ type_name v +:+ "'"))
  end.

(** [d[key]] of an insertion-ordered [dict]. *)
Fixpoint dict_lookup {V} (d : list (string * V)) (key : string) : option V :=
  match d with
  | [] => None
  | (k, v) :: d' => if Str.eqb k key then Some v else dict_lookup d' key
  end.

(** [d[key] = v]: the value of an existing key is replaced where it
    stands, a new key goes to the end. *)
Fixpoint dict_setitem {V} (d : list (string * V)) (key : string) (v : V)
    : list (string * V) :=
  match d with
  | [] => [(key, v)]
  | (k, v') :: d' =>
      if Str.eqb k key then (k, v) :: d' else (k, v') :: dict_setitem d' key v
  end.

Definition dict_getitem {V} (d : list (string * V)) (key : string) : M V :=
  match dict_lookup d key with
  | Some v => ret v
  | None => raise (KeyError key)
  end.

(** [j.get(key, None)]. *)
Definition py_get (j : pyval) (key : string) : result pyval :=
  match j with
  | PyDict kv =>
      match dict_lookup kv key with
      | Some v => Ok v
      | None => Ok PyNone
      end
  | _ =>
      Raise (AttributeError ("'" +:+ type_name j +:+
                             "' object has no attribute 'get'"))
  end.

(** [re.findall(r"\{[\s\S]*?\}", s)]: the non-overlapping matches from
    left to right.  A match starts at the first [{] not inside an earlier
    match and, the quantifier being lazy, ends at the first [}] after it;
    with no [}] left there is no further match.  [cur] is the text of the
    match being read, when inside one. *)
Fixpoint findall_scan (cur : option string) (s : string) : list string :=
  match s with
  | EmptyString => []
  | String c s' =>
      match cur with
      | None =>
          if Ascii.eqb c "{" then findall_scan (Some "{") s'
          else findall_scan None s'
      | Some acc =>
          if Ascii.eqb c "}" then (acc +:+ "}") :: findall_scan None s'
          else findall_scan (Some (acc +:+ String c "")) s'
      end
  end.

Definition findall_braces (s : string) : list string := findall_scan None s.

(** [m[-1]] of a list. *)
Definition last_item {A} (m : list A) : option A := last m.

(* ================================================================== *)
(** * The program *)

(** ** Config *)

Definition EPISODE_FILES : list string :=
  ["intro.mp3"; "vorab.mp3"; "kapitel.mp3"; "outro.mp3";
   "jingle_vorne.mp3"; "jingle_hinten.mp3"].

Definition CONCAT_ORDER : list string :=
  ["jingle_vorne"; "intro"; "jingle_hinten"; "vorab"; "kapitel";
   "jingle_vorne"; "outro"; "jingle_hinten"].

(** The defaults of [normalize_to_target_i] and [concatenate_audio]. *)
Definition default_true_peak : float := Float.of_scaled (-3) (-1).   (* -1.5 *)
Definition default_lra : float := Float.of_scaled 11 0.              (* 11.0 *)
Definition default_sample_rate : Z := 48000.
Definition default_channels : Z := 2.
Definition default_mp3_quality : Z := 2.

Section Program.

Variable E : Env.

(** ** ffmpeg helpers *)

Definition _resource_path (relative : string) : string :=
  let base := match sys_meipass E with
              | Some p => p
              | None => abspath_dot E
              end in
  os_path.join base relative.

Definition _which_or_bundled (name : string) : M (option string) :=
  let candidate := _resource_path (os_path.join "bin" name) in
  found <- os_path.exists_ candidate ;;
  if found then ret (Some candidate)
  else fun w => (Ok (shutil_which E name w), w).

Definition run_cmd (cmd : list string) : M (Z * string * string) :=
  fun w =>
    let '(r, fs') := popen E cmd w in
    (r, mkWorld fs' (trace w ++ [EvRun cmd r fs'])).

Definition measure_cmd (ffmpeg_path infile : string) : list string :=
  [ffmpeg_path; "-hide_banner"; "-nostdin";
   "-i"; infile;
   "-af"; "loudnorm=I=-16:TP=-1.5:LRA=11:print_format=json";
   "-f"; "null"; "-"].

Definition analysis_failed_msg (infile err : string) : string :=
  "ffmpeg loudness analysis failed for " +:+ infile +:+ ":" +:+ Str.nl +:+ err.
Definition no_json_msg (infile err : string) : string :=
  "Could not parse loudnorm JSON for " +:+ infile +:+ "." +:+ Str.nl +:+
  "ffmpeg stderr:" +:+ Str.nl +:+ err.
Definition invalid_loudness_msg (infile : string) : string :=
  "Invalid loudness (input_i) for " +:+ infile +:+ ".".

Definition is_None (v : pyval) : bool :=
  match v with PyNone => true | _ => false end.

Definition measure_integrated_loudness (ffmpeg_path infile : string) : M float :=
  log (EvMeasure ffmpeg_path infile) ;;;
  r <- run_cmd (measure_cmd ffmpeg_path infile) ;;
  let '(rc, out, err) := r in
  if negb (rc =? 0) then raise (RuntimeError (analysis_failed_msg infile err))
  else
    let m := findall_braces err in
    match last_item m with
    | None => raise (RuntimeError (no_json_msg infile err))
    | Some block =>
        j <- lift (json_loads E block) ;;
        input_i <- lift (py_get j "input_i") ;;
        if is_None input_i || Str.eqb (Str.lower (py_str E input_i)) "nan"
        then raise (RuntimeError (invalid_loudness_msg infile))
        else lift (py_float E input_i)
    end.

Definition loudnorm_filter (target_i true_peak lra : float) : string :=
  "loudnorm=I=" +:+ Float.format_f 2 target_i +:+
  ":TP=" +:+ Float.format_f 1 true_peak +:+
  ":LRA=" +:+ Float.format_f 0 lra.

Definition normalize_cmd (ffmpeg_path infile outfile_wav : string)
    (target_i true_peak lra : float) (sample_rate channels : Z) : list string :=
  let af := loudnorm_filter target_i true_peak lra in
  [ffmpeg_path; "-hide_banner"; "-nostdin"; "-y";
   "-i"; infile;
   "-vn";
   "-af"; af;
   "-ar"; pretty sample_rate;
   "-ac"; pretty channels;
   outfile_wav].

Definition normalize_failed_msg (infile err : string) : string :=
  "ffmpeg normalize failed for " +:+ infile +:+ ":" +:+ Str.nl +:+ err.

Definition normalize_to_target_i (ffmpeg_path infile outfile_wav : string)
    (target_i true_peak lra : float) (sample_rate channels : Z) : M unit :=
  log (EvNormalize ffmpeg_path infile outfile_wav target_i true_peak lra
                   sample_rate channels) ;;;
  r <- run_cmd (normalize_cmd ffmpeg_path infile outfile_wav
                              target_i true_peak lra sample_rate channels) ;;
  let '(rc, out, err) := r in
  if negb (rc =? 0) then raise (RuntimeError (normalize_failed_msg infile err))
  else ret tt.

Definition concat_cmd (ffmpeg_path : string) (input_files : list string)
    (output_path : string) (mp3_quality : Z) : list string :=
  let n := length input_files in
  let filter_inputs :=
    Str.concat (map (fun i : nat => "[" +:+ pretty i +:+ ":a]") (seq 0 n)) in
  let filter_complex :=
    filter_inputs +:+ "concat=n=" +:+ pretty n +:+ ":v=0:a=1[out]" in
  [ffmpeg_path; "-hide_banner"; "-nostdin"; "-y"]
  ++ flat_map (fun f => ["-i"; f]) input_files
  ++ ["-filter_complex"; filter_complex;
      "-map"; "[out]";
      "-c:a"; "libmp3lame";
      "-q:a"; pretty mp3_quality;
      output_path].

Definition concat_failed_msg (err : string) : string :=
  "ffmpeg concatenation failed:" +:+ Str.nl +:+ err.

Definition concatenate_audio (ffmpeg_path : string) (input_files : list string)
    (output_path : string) (mp3_quality : Z) : M unit :=
  log (EvConcat ffmpeg_path input_files output_path mp3_quality) ;;;
  r <- run_cmd (concat_cmd ffmpeg_path input_files output_path mp3_quality) ;;
  let '(rc, out, err) := r in
  if negb (rc =? 0) then raise (RuntimeError (concat_failed_msg err))
  else ret tt.

(** ** The pipeline *)

(** [if status_callback: status_callback(msg)]. *)
Definition status (status_callback : option callback) (msg : string) : M unit :=
  match status_callback with
  | None => ret tt
  | Some cb =>
      fun w =>
        let w1 := mkWorld (fs w) (trace w ++ [EvStatus msg]) in
        match cb msg w with
        | None => (Ok tt, w1)
        | Some e => (Raise e, w1)
        end
  end.

(** [shutil.rmtree(td)], the cleanup of a [TemporaryDirectory]. *)
Definition rmtree (td : string) (w : World) : World :=
  mkWorld (List.filter (fun p => negb (os_path.under td p)) (fs w))
          (trace w ++ [EvRmtree td]).

(** [with tempfile.TemporaryDirectory(prefix=prefix) as td: body]: the
    directory is removed when the block is left, by its end, by a
    [return] or by an exception. *)
Definition with_TemporaryDirectory {A} (prefix : string)
    (body : string -> M A) : M A :=
  fun w =>
    match mkdtemp E prefix w with
    | Raise e => (Raise e, w)
    | Ok td =>
        let w1 := mkWorld (td :: fs w) (trace w ++ [EvMkdtemp td]) in
        let '(r, w2) := body td w1 in
        (r, rmtree td w2)
    end.

Definition tool_not_found_msg : string :=
  "ffmpeg nicht gefunden." +:+ Str.nl +:+
  "Installiere ffmpeg oder bundle es mit der .exe.".

Definition missing_files_msg (missing : list string) : string :=
  "Fehlende Dateien:" +:+ Str.nl +:+
  Str.join Str.nl (map (fun m => "  - " +:+ m) missing).

(** The loop over [files.items()] that fills [missing]. *)
Fixpoint collect_missing (items : list (string * string))
    (missing : list string) : M (list string) :=
  match items with
  | [] => ret missing
  | (name, path) :: rest =>
      found <- (if Str.eqb path "" then ret false else os_path.exists_ path) ;;
      collect_missing rest
        (if found then missing else missing ++ [name +:+ ".mp3"])
  end.

(** The loop over [unique_files.items()] that fills [normalized]. *)
Fixpoint normalize_all (status_callback : option callback)
    (ffmpeg td : string) (baseline_i : float)
    (items : list (string * string))
    (normalized : list (string * string)) : M (list (string * string)) :=
  match items with
  | [] => ret normalized
  | (name, path) :: rest =>
      status status_callback ("Normalisiere " +:+ name +:+ "…") ;;;
      let outwav := os_path.join td (name +:+ "_norm.wav") in
      normalize_to_target_i ffmpeg path outwav baseline_i
        default_true_peak default_lra default_sample_rate default_channels ;;;
      normalize_all status_callback ffmpeg td baseline_i rest
        (dict_setitem normalized name outwav)
  end.

(** [[normalized[name] for name in order]]. *)
Fixpoint resolve_order (normalized : list (string * string))
    (order : list string) : M (list string) :=
  match order with
  | [] => ret []
  | name :: rest =>
      f <- match dict_lookup normalized name with
           | Some f => ret f
           | None => raise (KeyError name)
           end ;;
      fs' <- resolve_order normalized rest ;;
      ret (f :: fs')
  end.

Definition process_episode (episode_folder : string) (chapter_number : Z)
    (output_folder : string) (status_callback : option callback) : M string :=
  ffmpeg <- _which_or_bundled
              (if Str.eqb (os_name E) "nt" then "ffmpeg.exe" else "ffmpeg") ;;
  match ffmpeg with
  | None | Some EmptyString => raise (RuntimeError tool_not_found_msg)
  | Some ffmpeg =>
      (* Build file paths *)
      let files :=
        [("intro", os_path.join episode_folder "intro.mp3");
         ("vorab", os_path.join episode_folder "vorab.mp3");
         ("kapitel", os_path.join episode_folder "kapitel.mp3");
         ("outro", os_path.join episode_folder "outro.mp3");
         ("jingle_vorne", os_path.join episode_folder "jingle_vorne.mp3");
         ("jingle_hinten", os_path.join episode_folder "jingle_hinten.mp3")] in
      (* Validate all files exist *)
      missing <- collect_missing files [] ;;
      match missing with
      | _ :: _ => raise (RuntimeError (missing_files_msg missing))
      | [] =>
          status status_callback "Messe Baseline-Lautstärke (jingle_vorne)…" ;;;
          (* Get baseline loudness from jingle_vorne *)
          jingle_vorne <- dict_getitem files "jingle_vorne" ;;
          baseline_i <- measure_integrated_loudness ffmpeg jingle_vorne ;;
          with_TemporaryDirectory "podcast_" (fun td =>
            (* Normalize all unique files *)
            f_intro <- dict_getitem files "intro" ;;
            f_vorab <- dict_getitem files "vorab" ;;
            f_kapitel <- dict_getitem files "kapitel" ;;
            f_outro <- dict_getitem files "outro" ;;
            f_jingle_vorne <- dict_getitem files "jingle_vorne" ;;
            f_jingle_hinten <- dict_getitem files "jingle_hinten" ;;
            let unique_files :=
              [("intro", f_intro);
               ("vorab", f_vorab);
               ("kapitel", f_kapitel);
               ("outro", f_outro);
               ("jingle_vorne", f_jingle_vorne);
               ("jingle_hinten", f_jingle_hinten)] in
            normalized <- normalize_all status_callback ffmpeg td baseline_i
                            unique_files [] ;;
            (* Build concatenation order *)
            concat_files <- resolve_order normalized CONCAT_ORDER ;;
            (* Output path *)
            let output_path :=
              os_path.join output_folder
                ("Kapitel " +:+ pretty chapter_number +:+ ".mp3") in
            status status_callback "Füge Audio zusammen…" ;;;
            concatenate_audio ffmpeg concat_files output_path
              default_mp3_quality ;;;
            ret output_path)
      end
  end.

End Program.

(* ================================================================== *)
(** * A scripted environment

    A stand-in for the external world with canned answers, used to run the
    pipeline on concrete inputs.  Its [json.loads] agrees with Python's on
    objects whose keys and values are plain texts without escapes -- the
    shape ffmpeg's [loudnorm] prints -- and rejects every other text; its
    [float] agrees with Python's on plain decimal texts of at most fifteen
    digits and on [inf] and [nan]. *)

Module Double.

(** The double quote. *)
Definition dquote : ascii := "034"%char.
Definition quoted (s : string) : string :=
  String dquote s +:+ String dquote EmptyString.

(** *** Reading a flat JSON object *)

Inductive jstate : Type :=
| JStart                         (* before the opening brace *)
| JOpen                          (* after it: a key or the closing brace *)
| JKey (acc : string)            (* inside a key *)
| JColon (key : string)          (* after a key *)
| JValue (key : string)          (* after the colon *)
| JText (key acc : string)       (* inside a value *)
| JNext                          (* after a value: a comma or the end *)
| JComma                         (* after a comma: a key *)
| JEnd.                          (* after the closing brace *)

Definition is_ws (c : ascii) : bool :=
  let n := nat_of_ascii c in
  Nat.eqb n 32 || Nat.eqb n 9 || Nat.eqb n 10 || Nat.eqb n 13.

Definition plain_char (c : ascii) : bool :=
  let n := nat_of_ascii c in
  Nat.leb 32 n && negb (Nat.eqb n 34) && negb (Nat.eqb n 92).

Fixpoint loads_go (st : jstate) (acc : list (string * pyval)) (s : string)
    : option (list (string * pyval)) :=
  match s with
  | EmptyString => match st with JEnd => Some acc | _ => None end
  | String c s' =>
      match st with
      | JStart =>
          if is_ws c then loads_go JStart acc s'
          else if Ascii.eqb c "{" then loads_go JOpen acc s' else None
      | JOpen =>
          if is_ws c then loads_go JOpen acc s'
          else if Ascii.eqb c dquote then loads_go (JKey "") acc s'
          else if Ascii.eqb c "}" then loads_go JEnd acc s' else None
      | JKey k =>
          if Ascii.eqb c dquote then loads_go (JColon k) acc s'
          else if plain_char c then loads_go (JKey (k +:+ String c "")) acc s'
          else None
      | JColon k =>
          if is_ws c then loads_go (JColon k) acc s'
          else if Ascii.eqb c ":" then loads_go (JValue k) acc s' else None
      | JValue k =>
          if is_ws c then loads_go (JValue k) acc s'
          else if Ascii.eqb c dquote then loads_go (JText k "") acc s' else None
      | JText k v =>
          if Ascii.eqb c dquote then loads_go JNext (dict_setitem acc k (PyStr v)) s'
          else if plain_char c then loads_go (JText k (v +:+ String c "")) acc s'
          else None
      | JNext =>
          if is_ws c then loads_go JNext acc s'
          else if Ascii.eqb c "," then loads_go JComma acc s'
          else if Ascii.eqb c "}" then loads_go JEnd acc s' else None
      | JComma =>
          if is_ws c then loads_go JComma acc s'
          else if Ascii.eqb c dquote then loads_go (JKey "") acc s' else None
      | JEnd => if is_ws c then loads_go JEnd acc s' else None
      end
  end.

Definition loads (s : string) : result pyval :=
  match loads_go JStart [] s with
  | Some kv => Ok (PyDict kv)
  | None => Raise (Exn "JSONDecodeError" "Expecting value")
  end.

(** *** Reading a decimal text *)

Definition digit_of (c : ascii) : option Z :=
  let n := nat_of_ascii c in
  if Nat.leb 48 n && Nat.leb n 57 then Some (Z.of_nat (n - 48)) else None.

(** The digits of [s] as a number, with the count of digits after the
    point: [seen] is [None] before the point. *)
Fixpoint decimal_go (s : string) (m : Z) (seen : option nat) (count : nat)
    : option (Z * nat) :=
  match s with
  | EmptyString =>
      if Nat.eqb count 0 then None
      else Some (m, match seen with Some k => k | None => O end)
  | String c s' =>
      if Ascii.eqb c "." then
        match seen with
        | None => decimal_go s' m (Some O) count
        | Some _ => None
        end
      else
        match digit_of c with
        | Some d =>
            decimal_go s' (10 * m + d)
              (match seen with Some k => Some (S k) | None => None end)
              (S count)
        | None => None
        end
  end.

Definition unsigned_float (s : string) : option float :=
  let l := Str.lower s in
  if Str.eqb l "nan" then Some S754_nan
  else if Str.eqb l "inf" || Str.eqb l "infinity" then Some (S754_infinity false)
  else
    match decimal_go s 0 None O with
    | Some (m, k) =>
        if (String.length s <=? 16)%nat then
          Some (SFdiv Float.prec Float.emax
                  (Float.of_scaled m 0) (Float.of_scaled (10 ^ Z.of_nat k) 0))
        else None
    | None => None
    end.

Definition float_of (s : string) : option float :=
  match s with
  | String "-" s' => option_map (SFopp) (unsigned_float s')
  | String "+" s' => unsigned_float s'
  | _ => unsigned_float s
  end.

(** *** The external tool *)

Record Script : Type := mkScript {
  sc_which : option string;                       (* [shutil.which] *)
  sc_analysis : result (Z * string * string);     (* the analysis run *)
  sc_normalize : string -> result (Z * string * string);  (* by input file *)
  sc_concat : result (Z * string * string);       (* the concatenation *)
  sc_partial : bool    (* a failing concatenation leaves its output file *)
}.

Definition last_arg (cmd : list string) : string := List.last cmd "".

Definition exit_ok (r : result (Z * string * string)) : bool :=
  match r with
  | Ok (rc, _, _) => rc =? 0
  | Raise _ => false
  end.

(** The analysis writes nothing.  A normalization writes its output file
    when it exits with status 0; so does the concatenation, which with
    [sc_partial] has also created that file by the time it fails. *)
Definition tool (sc : Script) (cmd : list string) (w : World)
    : result (Z * string * string) * list string :=
  if Str.eqb (nth 3 cmd "") "-i" then (sc_analysis sc, fs w)
  else if Str.eqb (nth 6 cmd "") "-vn" then
    let r := sc_normalize sc (nth 5 cmd "") in
    (r, if exit_ok r then last_arg cmd :: fs w else fs w)
  else
    let r := sc_concat sc in
    (r, if exit_ok r || sc_partial sc then last_arg cmd :: fs w else fs w).

Definition workspace : string := "/tmp/podcast_k3x9q2ab".

(** [repr] of the values the scripted runs meet: a text of printable ASCII
    with no double quote and no backslash stands in single quotes, and in
    double quotes when it holds a single quote. *)
Definition repr (v : pyval) : string :=
  match v with
  | PyStr s => if Str.has_char "'" s then quoted s else "'" +:+ s +:+ "'"
  | _ => "<object>"
  end.

Definition env (sc : Script) : Env := {|
  os_name := "posix";
  sys_meipass := None;
  abspath_dot := "/home/anna";
  shutil_which := fun _ _ => sc_which sc;
  popen := tool sc;
  mkdtemp := fun _ _ => Ok workspace;
  json_loads := loads;
  float_of_str := float_of;
  repr_of := repr
|}.

(** An episode folder with all six clips. *)
Definition episode : list string :=
  ["/ep"; "/ep/intro.mp3"; "/ep/vorab.mp3"; "/ep/kapitel.mp3";
   "/ep/outro.mp3"; "/ep/jingle_vorne.mp3"; "/ep/jingle_hinten.mp3"].

Definition world0 (files : list string) : World := mkWorld files [].

(** The block a [loudnorm] analysis prints, and its diagnostic stream. *)
Definition block_of (input_i : string) : string :=
  "{" +:+ Str.nl +:+
  "  " +:+ quoted "input_i" +:+ " : " +:+ quoted input_i +:+ "," +:+ Str.nl +:+
  "  " +:+ quoted "input_tp" +:+ " : " +:+ quoted "-7.96" +:+ "," +:+ Str.nl +:+
  "  " +:+ quoted "target_offset" +:+ " : " +:+ quoted "0.04" +:+ Str.nl +:+
  "}".

Definition stderr_of (input_i : string) : string :=
  "[Parsed_loudnorm_0 @ 0x5581]" +:+ Str.nl +:+ block_of input_i +:+ Str.nl.

(** A tool that is found and always succeeds, measuring [-23.54]. *)
Definition good : Script := {|
  sc_which := Some "/usr/bin/ffmpeg";
  sc_analysis := Ok (0, "", stderr_of "-23.54");
  sc_normalize := fun _ => Ok (0, "", "");
  sc_concat := Ok (0, "", "");
  sc_partial := false
|}.

(** No tool anywhere. *)
Definition no_tool : Script := {|
  sc_which := None;
  sc_analysis := Ok (0, "", stderr_of "-23.54");
  sc_normalize := fun _ => Ok (0, "", "");
  sc_concat := Ok (0, "", "");
  sc_partial := false
|}.

(** A silent jingle: the analysis reports [NaN]. *)
Definition silent : Script := {|
  sc_which := Some "/usr/bin/ffmpeg";
  sc_analysis := Ok (0, "", stderr_of "NaN");
  sc_normalize := fun _ => Ok (0, "", "");
  sc_concat := Ok (0, "", "");
  sc_partial := false
|}.

(** Two blocks in the diagnostic stream. *)
Definition two_blocks : Script := {|
  sc_which := Some "/usr/bin/ffmpeg";
  sc_analysis := Ok (0, "", stderr_of "-10.00" +:+ stderr_of "-23.54");
  sc_normalize := fun _ => Ok (0, "", "");
  sc_concat := Ok (0, "", "");
  sc_partial := false
|}.

(** The concatenation fails; with [partial] it has begun to write. *)
Definition concat_fails (partial : bool) : Script := {|
  sc_which := Some "/usr/bin/ffmpeg";
  sc_analysis := Ok (0, "", stderr_of "-23.54");
  sc_normalize := fun _ => Ok (0, "", "");
  sc_concat := Ok (1, "", "Invalid data found");
  sc_partial := partial
|}.

(** The third normalization fails. *)
Definition normalize_fails : Script := {|
  sc_which := Some "/usr/bin/ffmpeg";
  sc_analysis := Ok (0, "", stderr_of "-23.54");
  sc_normalize := fun infile =>
    if Str.eqb infile "/ep/kapitel.mp3" then Ok (1, "", "Invalid data found")
    else Ok (0, "", "");
  sc_concat := Ok (0, "", "");
  sc_partial := false
|}.

(** An episode folder without [outro] and [jingle_hinten]. *)
Definition incomplete : list string :=
  ["/ep"; "/ep/intro.mp3"; "/ep/vorab.mp3"; "/ep/kapitel.mp3";
   "/ep/jingle_vorne.mp3"].

(** The float [-23.54]. *)
Definition minus_23_54 : float := S754_finite true 6625920951768842 (-48).

End Double.

(* ================================================================== *)
(** * Reading a run off the log *)

(** The calls of the three helpers recorded in a log. *)
Definition measure_calls (t : list Event) : list (string * string) :=
  flat_map (fun ev => match ev with
                      | EvMeasure f i => [(f, i)]
                      | _ => []
                      end) t.

(** A call of the normalizer: input, output and target loudness. *)
Definition normalize_calls (t : list Event) : list (string * string * float) :=
  flat_map (fun ev => match ev with
                      | EvNormalize _ i o target _ _ _ _ => [(i, o, target)]
                      | _ => []
                      end) t.

(** A call of the concatenator: the ordered inputs and the output. *)
Definition concat_calls (t : list Event) : list (list string * string) :=
  flat_map (fun ev => match ev with
                      | EvConcat _ ins o _ => [(ins, o)]
                      | _ => []
                      end) t.

(** The commands handed to [run_cmd]. *)
Definition commands (t : list Event) : list (list string) :=
  flat_map (fun ev => match ev with
                      | EvRun cmd _ _ => [cmd]
                      | _ => []
                      end) t.

(** The analysis command is told apart by its filter argument. *)
Definition analysis_filter : string :=
  "loudnorm=I=-16:TP=-1.5:LRA=11:print_format=json".

Definition is_analysis_cmd (cmd : list string) : bool :=
  Str.eqb (nth 6 cmd "") analysis_filter.

(** The events a run added to the log. *)
Definition events_since (w w' : World) : list Event :=
  drop (List.length (trace w)) (trace w').

(** ** The error kinds of the specification

    The source raises [RuntimeError] throughout; the kind of a failure is
    read off the text its message starts with. *)
Inductive ErrorKind : Type :=
| MissingFilesError
| ToolNotFoundError
| AnalysisError
| NormalizationError
| ConcatenationError
| ParseError.

Definition kind_of_msg (msg : string) : option ErrorKind :=
  if Str.startswith "Fehlende Dateien:" msg then Some MissingFilesError
  else if Str.startswith "ffmpeg nicht gefunden." msg then Some ToolNotFoundError
  else if Str.startswith "ffmpeg loudness analysis failed for " msg
       then Some AnalysisError
  else if Str.startswith "ffmpeg normalize failed for " msg
       then Some NormalizationError
  else if Str.startswith "ffmpeg concatenation failed:" msg
       then Some ConcatenationError
  else if Str.startswith "Could not parse loudnorm JSON for " msg
          || Str.startswith "Invalid loudness (input_i) for " msg
       then Some ParseError
  else None.

Definition kind_of (e : exn) : option ErrorKind :=
  if Str.eqb (exn_class e) "RuntimeError" then kind_of_msg (exn_msg e) else None.

(** What each helper makes of the answer of its process. *)
Definition exit_check (msg : string -> string)
    (answer : result (Z * string * string)) : result unit :=
  match answer with
  | Raise e => Raise e
  | Ok (rc, _, err) => if rc =? 0 then Ok tt else Raise (RuntimeError (msg err))
  end.

(** Lines 74-78 of the source: from the last block to the loudness. *)
Definition read_block (E : Env) (infile block : string) : result float :=
  match json_loads E block with
  | Raise e => Raise e
  | Ok j =>
      match py_get j "input_i" with
      | Raise e => Raise e
      | Ok input_i =>
          if is_None input_i || Str.eqb (Str.lower (py_str E input_i)) "nan"
          then Raise (RuntimeError (invalid_loudness_msg infile))
          else py_float E input_i
      end
  end.

Definition read_stream (E : Env) (infile : string)
    (answer : result (Z * string * string)) : result float :=
  match answer with
  | Raise e => Raise e
  | Ok (rc, _, err) =>
      if rc =? 0 then
        match last_item (findall_braces err) with
        | None => Raise (RuntimeError (no_json_msg infile err))
        | Some block => read_block E infile block
        end
      else Raise (RuntimeError (analysis_failed_msg infile err))
  end.

(** The world once [ev] is logged, and once [cmd] has run. *)
Definition logged (w : World) (ev : Event) : World :=
  mkWorld (fs w) (trace w ++ [ev]).

Definition after_run (E : Env) (cmd : list string) (w : World) : World :=
  snd (run_cmd E cmd w).

(** ** The stages of [process_episode] *)

(** The name the pipeline looks the tool up under. *)
Definition tool_name (E : Env) : string :=
  if Str.eqb (os_name E) "nt" then "ffmpeg.exe" else "ffmpeg".

(** What [_which_or_bundled] answers in a world. *)
Definition resolve_tool (E : Env) (name : string) (w : World) : option string :=
  let candidate := _resource_path E (os_path.join "bin" name) in
  if Str.mem candidate (fs w) then Some candidate
  else shutil_which E name w.

(** The Clip Set of an episode folder: role and path, in the order of the
    source's [files]. *)
Definition clip_set (episode_folder : string) : list (string * string) :=
  [("intro", os_path.join episode_folder "intro.mp3");
   ("vorab", os_path.join episode_folder "vorab.mp3");
   ("kapitel", os_path.join episode_folder "kapitel.mp3");
   ("outro", os_path.join episode_folder "outro.mp3");
   ("jingle_vorne", os_path.join episode_folder "jingle_vorne.mp3");
   ("jingle_hinten", os_path.join episode_folder "jingle_hinten.mp3")].

(** A clip is missing when its path is empty or does not exist. *)
Definition is_missing (w : World) (item : string * string) : bool :=
  Str.eqb (snd item) "" || negb (Str.mem (snd item) (fs w)).

(** The entries the validation collects: every missing role, in order. *)
Definition missing_in (w : World) (items : list (string * string)) : list string :=
  map (fun item => fst item +:+ ".mp3") (List.filter (is_missing w) items).

(** The normalized file of a role in the workspace [td]. *)
Definition norm_path (td name : string) : string :=
  os_path.join td (name +:+ "_norm.wav").

Definition output_path_of (output_folder : string) (chapter_number : Z) : string :=
  os_path.join output_folder ("Kapitel " +:+ pretty chapter_number +:+ ".mp3").

Definition baseline_msg : string := "Messe Baseline-Lautstärke (jingle_vorne)…".
Definition concat_msg : string := "Füge Audio zusammen…".

(** The block of the [with] statement, for a workspace [td]. *)
Definition workspace_block (E : Env) (status_callback : option callback)
    (ffmpeg : string) (files : list (string * string)) (baseline_i : float)
    (output_folder : string) (chapter_number : Z) (td : string) : M string :=
  f_intro <- dict_getitem files "intro" ;;
  f_vorab <- dict_getitem files "vorab" ;;
  f_kapitel <- dict_getitem files "kapitel" ;;
  f_outro <- dict_getitem files "outro" ;;
  f_jingle_vorne <- dict_getitem files "jingle_vorne" ;;
  f_jingle_hinten <- dict_getitem files "jingle_hinten" ;;
  let unique_files :=
    [("intro", f_intro);
     ("vorab", f_vorab);
     ("kapitel", f_kapitel);
     ("outro", f_outro);
     ("jingle_vorne", f_jingle_vorne);
     ("jingle_hinten", f_jingle_hinten)] in
  normalized <- normalize_all E status_callback ffmpeg td baseline_i
                  unique_files [] ;;
  concat_files <- resolve_order normalized CONCAT_ORDER ;;
  let output_path :=
    os_path.join output_folder
      ("Kapitel " +:+ pretty chapter_number +:+ ".mp3") in
  status status_callback "Füge Audio zusammen…" ;;;
  concatenate_audio E ffmpeg concat_files output_path default_mp3_quality ;;;
  ret output_path.

(** ** The exit paths of the pipeline *)

(** The events one progress notification adds. *)
Definition status_events (cb : option callback) (msg : string) : list Event :=
  match cb with
  | None => []
  | Some _ => [EvStatus msg]
  end.

(** An exception the program did not raise itself: it came out of the
    callback, the process launcher, the temporary directory or one of
    [json.loads], [dict.get] and [float]. *)
Definition foreign (E : Env) (cb : option callback) (e : exn) : Prop :=
  (exists f msg w, cb = Some f /\ f msg w = Some e) \/
  (exists cmd w, fst (popen E cmd w) = Raise e) \/
  (exists p w, mkdtemp E p w = Raise e) \/
  (exists s, json_loads E s = Raise e) \/
  (exists j k, py_get j k = Raise e) \/
  (exists v, py_float E v = Raise e).

(** The events of the normalize fan-out for a tool and a target. *)
Definition norm_event (ffmpeg : string) (b : float) (ev : Event) : Prop :=
  match ev with
  | EvStatus _ => True
  | EvNormalize f _ _ t tp lra sr ch =>
      f = ffmpeg /\ t = b /\ tp = default_true_peak /\ lra = default_lra /\
      sr = default_sample_rate /\ ch = default_channels
  | EvRun cmd _ _ =>
      exists i o, cmd = normalize_cmd ffmpeg i o b default_true_peak default_lra
                          default_sample_rate default_channels
  | _ => False
  end.

(** The [normalized] dict after the loop over [items]. *)
Definition normalized_after (td : string) (items : list (string * string))
    (nm : list (string * string)) : list (string * string) :=
  foldl (fun m item => dict_setitem m (fst item) (norm_path td (fst item)))
        nm items.

(** The normalize calls the loop over [items] makes. *)
Definition calls_for (td : string) (b : float) (items : list (string * string))
    : list (string * string * float) :=
  map (fun item => (snd item, norm_path td (fst item), b)) items.

(** How the block of the [with] statement can end. *)
Inductive block_run (E : Env) (cb : option callback) (ffmpeg folder : string)
    (b : float) (out : string) (ch : Z) (td : string) (w : World)
    : result string -> World -> Prop :=
| block_normalize_failed (evs : list Event) (e : exn) (w' : World) :
    trace w' = trace w ++ evs ->
    Forall (norm_event ffmpeg b) evs ->
    (foreign E cb e \/
     exists i err, e = RuntimeError (normalize_failed_msg i err)) ->
    block_run E cb ffmpeg folder b out ch td w (Raise e) w'
| block_callback_raised (evs : list Event) (e : exn) (w' : World) :
    trace w' = trace w ++ evs ++ status_events cb concat_msg ->
    Forall (norm_event ffmpeg b) evs ->
    normalize_calls evs = calls_for td b (clip_set folder) ->
    foreign E cb e ->
    block_run E cb ffmpeg folder b out ch td w (Raise e) w'
| block_concatenated (evs : list Event)
    (answer : result (Z * string * string)) (fs_c : list string)
    (r : result string) (w' : World) :
    trace w' = trace w ++ evs ++ status_events cb concat_msg ++
      [EvConcat ffmpeg (map (norm_path td) CONCAT_ORDER)
                (output_path_of out ch) default_mp3_quality;
       EvRun (concat_cmd ffmpeg (map (norm_path td) CONCAT_ORDER)
                         (output_path_of out ch) default_mp3_quality)
             answer fs_c] ->
    fs w' = fs_c ->
    (exists wc,
       popen E (concat_cmd ffmpeg (map (norm_path td) CONCAT_ORDER)
                           (output_path_of out ch) default_mp3_quality) wc
       = (answer, fs_c)) ->
    Forall (norm_event ffmpeg b) evs ->
    normalize_calls evs = calls_for td b (clip_set folder) ->
    r = match exit_check concat_failed_msg answer with
        | Ok _ => Ok (output_path_of out ch)
        | Raise e => Raise e
        end ->
    block_run E cb ffmpeg folder b out ch td w r w'.

(** The clip whose loudness is the baseline. *)
Definition baseline_clip (episode_folder : string) : string :=
  os_path.join episode_folder "jingle_vorne.mp3".

(** How a run of the pipeline can end. *)
Inductive pipeline_run (E : Env) (cb : option callback) (folder : string)
    (ch : Z) (out : string) (w : World) : result string -> World -> Prop :=
| run_tool_not_found :
    match resolve_tool E (tool_name E) w with
    | None | Some EmptyString => True
    | Some _ => False
    end ->
    pipeline_run E cb folder ch out w (Raise (RuntimeError tool_not_found_msg)) w
| run_missing_files (ffmpeg : string) :
    resolve_tool E (tool_name E) w = Some ffmpeg -> ffmpeg <> "" ->
    missing_in w (clip_set folder) <> [] ->
    pipeline_run E cb folder ch out w
      (Raise (RuntimeError (missing_files_msg (missing_in w (clip_set folder))))) w
| run_callback_raised (ffmpeg : string) (e : exn) (w' : World) :
    resolve_tool E (tool_name E) w = Some ffmpeg -> ffmpeg <> "" ->
    missing_in w (clip_set folder) = [] ->
    trace w' = trace w ++ status_events cb baseline_msg ->
    fs w' = fs w ->
    foreign E cb e ->
    pipeline_run E cb folder ch out w (Raise e) w'
| run_measure_failed (ffmpeg : string)
    (answer : result (Z * string * string)) (fs_a : list string)
    (e : exn) (w' : World) :
    resolve_tool E (tool_name E) w = Some ffmpeg -> ffmpeg <> "" ->
    missing_in w (clip_set folder) = [] ->
    trace w' = trace w ++ status_events cb baseline_msg ++
      [EvMeasure ffmpeg (baseline_clip folder); EvRun (measure_cmd ffmpeg (baseline_clip folder)) answer fs_a] ->
    fs w' = fs_a ->
    (exists wm, popen E (measure_cmd ffmpeg (baseline_clip folder)) wm
                = (answer, fs_a)) ->
    read_stream E (baseline_clip folder) answer = Raise e ->
    pipeline_run E cb folder ch out w (Raise e) w'
| run_mkdtemp_failed (ffmpeg : string)
    (answer : result (Z * string * string)) (fs_a : list string)
    (b : float) (e : exn) (w' : World) :
    resolve_tool E (tool_name E) w = Some ffmpeg -> ffmpeg <> "" ->
    missing_in w (clip_set folder) = [] ->
    trace w' = trace w ++ status_events cb baseline_msg ++
      [EvMeasure ffmpeg (baseline_clip folder); EvRun (measure_cmd ffmpeg (baseline_clip folder)) answer fs_a] ->
    fs w' = fs_a ->
    (exists wm, popen E (measure_cmd ffmpeg (baseline_clip folder)) wm
                = (answer, fs_a)) ->
    read_stream E (baseline_clip folder) answer = Ok b ->
    mkdtemp E "podcast_" w' = Raise e ->
    pipeline_run E cb folder ch out w (Raise e) w'
| run_workspace (ffmpeg : string)
    (answer : result (Z * string * string)) (fs_a : list string)
    (b : float) (td : string) (w2 w3 : World)
    (r : result string) (w' : World) :
    resolve_tool E (tool_name E) w = Some ffmpeg -> ffmpeg <> "" ->
    missing_in w (clip_set folder) = [] ->
    trace w2 = trace w ++ status_events cb baseline_msg ++
      [EvMeasure ffmpeg (baseline_clip folder); EvRun (measure_cmd ffmpeg (baseline_clip folder)) answer fs_a] ->
    fs w2 = fs_a ->
    (exists wm, popen E (measure_cmd ffmpeg (baseline_clip folder)) wm
                = (answer, fs_a)) ->
    read_stream E (baseline_clip folder) answer = Ok b ->
    (exists w1, trace w1 = trace w ++ status_events cb baseline_msg /\
                measure_integrated_loudness E ffmpeg (baseline_clip folder) w1 = (Ok b, w2)) ->
    mkdtemp E "podcast_" w2 = Ok td ->
    block_run E cb ffmpeg folder b out ch td
      (mkWorld (td :: fs w2) (trace w2 ++ [EvMkdtemp td])) r w3 ->
    w' = rmtree td w3 ->
    pipeline_run E cb folder ch out w r w'.

(** A diagnostic stream the analyzer reports as unreadable: the pattern has
    no match in it, or [json.loads] reads its last match as an object
    whose [input_i] is missing ([null] included) or is the text [nan] in
    any letter case.  A last match that [json.loads] rejects is another
    matter: there the exception of [json.loads] is the outcome. *)
Definition unreadable (E : Env) (err : string) : Prop :=
  findall_braces err = [] \/
  exists blocks b kv,
    findall_braces err = blocks ++ [b] /\
    json_loads E b = Ok (PyDict kv) /\
    (dict_lookup kv "input_i" = None \/
     dict_lookup kv "input_i" = Some PyNone \/
     exists s, dict_lookup kv "input_i" = Some (PyStr s) /\ Str.lower s = "nan").

(** ** Fixed-point texts *)

Definition is_digit (c : ascii) : bool :=
  let n := nat_of_ascii c in (Nat.leb 48 n && Nat.leb n 57)%bool.

Fixpoint all_digits (s : string) : bool :=
  match s with
  | EmptyString => true
  | String c s' => is_digit c && all_digits s'
  end.

(** [s] is a decimal numeral with exactly [d] digits after the point (and
    no point when [d] is zero): an optional minus sign, at least one digit,
    and then the point and [d] digits. *)
Definition fixed_point (d : nat) (s : string) : Prop :=
  exists sign int frac,
    s = sign +:+ int +:+ match d with
                         | O => ""
                         | S _ => "." +:+ frac
                         end /\
    (sign = "" \/ sign = "-") /\
    int <> "" /\ all_digits int = true /\
    String.length frac = d /\ all_digits frac = true.

(** The runs of the scripted tool in which the concatenation fails. *)
Definition failing_concat (partial : bool) (files : list string)
    : result string * World :=
  process_episode (Double.env (Double.concat_fails partial))
    "/ep" 7 "/out" None (Double.world0 files).

(** The paths that existed when the [n]-th event, a process, ended. *)
Definition fs_after_event (t : list Event) (n : nat) : list string :=
  match nth_error t n with
  | Some (EvRun _ _ g) => g
  | _ => []
  end.

(* ================================================================== *)
(** * JSON objects in a diagnostic stream *)

(** The texts a text begins with, and its contiguous pieces. *)
Fixpoint prefixes (s : string) : list string :=
  "" :: match s with
        | EmptyString => []
        | String c s' => map (String c) (prefixes s')
        end.

Fixpoint substrings (s : string) : list string :=
  prefixes s ++ match s with
                | EmptyString => []
                | String _ s' => substrings s'
                end.

(** A JSON object literal of a stream: a piece of the stream that
    [json.loads] reads as an object. *)
Definition json_object_in (E : Env) (err obj : string)
    (kv : list (string * pyval)) : Prop :=
  (exists pre post, err = pre +:+ obj +:+ post) /\
  json_loads E obj = Ok (PyDict kv).

(** Whether every JSON object literal of [err] passes [test]. *)
Definition objects_pass (E : Env) (test : list (string * pyval) -> bool)
    (err : string) : bool :=
  forallb (fun obj => match json_loads E obj with
                      | Ok (PyDict kv) => test kv
                      | _ => true
                      end) (substrings err).

(** Whether the [input_i] of an object is the text [s]. *)
Definition input_i_is (s : string) (kv : list (string * pyval)) : bool :=
  match dict_lookup kv "input_i" with
  | Some (PyStr s') => Str.eqb s' s
  | _ => false
  end.

(** A tool whose analysis prints [err] and exits with status 0. *)
Definition analysis_prints (err : string) : Double.Script := {|
  Double.sc_which := Some "/usr/bin/ffmpeg";
  Double.sc_analysis := Ok (0, "", err);
  Double.sc_normalize := fun _ => Ok (0, "", "");
  Double.sc_concat := Ok (0, "", "");
  Double.sc_partial := false
|}.

(** The block of an analysis, on one line. *)
Definition short_block (input_i : string) : string :=
  "{" +:+ Double.quoted "input_i" +:+ " : " +:+ Double.quoted input_i +:+ "}".

(** A stream in which the tool has echoed the path of its input, a folder
    name with an opening brace in it, before the block. *)
Definition stray_brace_stream : string :=
  "Input #0, mp3, from '/{ep/jingle_vorne.mp3':" +:+ Str.nl +:+
  short_block "-23.54".

(** A stream with a pair of braces in the echoed path and no block. *)
Definition no_object_stream : string :=
  "Input #0, mp3, from '/ep{1}/jingle_vorne.mp3':" +:+ Str.nl.

(** The value of a rounded float as a number: a count of units of the last
    decimal, where the sign of a zero plays no part. *)
Definition rounded_number (r : Float.rounded) : option Z :=
  match r with
  | Float.RFix neg n => Some (if neg then - Z.of_N n else Z.of_N n)
  | _ => None
  end.

(* ================================================================== *)
(** * More of the program *)

(** ** The arguments of the concatenation command *)

(** The files an argument list names with [-i], up to the first argument
    pair that is not an input. *)
Fixpoint inputs_of (args : list string) : list string :=
  match args with
  | flag :: f :: rest =>
      if Str.eqb flag "-i" then f :: inputs_of rest else []
  | _ => []
  end.

(** The label of the audio stream of the [i]-th input in a filter graph. *)
Definition stream_label (i : nat) : string := "[" +:+ pretty i +:+ ":a]".

(** The six roles, in the order of the source's [files]. *)
Definition roles : list string :=
  ["intro"; "vorab"; "kapitel"; "outro"; "jingle_vorne"; "jingle_hinten"].

(** ** The log of the normalize loop *)

(** The text of the notification before a clip is normalized. *)
Definition normalize_msg (name : string) : string :=
  "Normalisiere " +:+ name +:+ "…".

(** The command of the normalization of one clip. *)
Definition clip_cmd (ffmpeg td : string) (b : float)
    (item : string * string) : list string :=
  normalize_cmd ffmpeg (snd item) (norm_path td (fst item)) b
    default_true_peak default_lra default_sample_rate default_channels.

(** The events of one turn of the loop that reaches its process. *)
Definition turn_events (cb : option callback) (ffmpeg td : string) (b : float)
    (item : string * string) (answer : result (Z * string * string))
    (fs_n : list string) : list Event :=
  status_events cb (normalize_msg (fst item)) ++
  [EvNormalize ffmpeg (snd item) (norm_path td (fst item)) b
               default_true_peak default_lra
               default_sample_rate default_channels;
   EvRun (clip_cmd ffmpeg td b item) answer fs_n].

(** How the loop over the clips can go: the events it logs and the
    exception that stopped it, if any.  A turn whose process exits with
    status 0 is followed by the next turn; a process that fails, or a
    callback that raises, ends the loop. *)
Inductive loop_run (cb : option callback) (ffmpeg td : string) (b : float)
    : list (string * string) -> list Event -> option exn -> Prop :=
| loop_done :
    loop_run cb ffmpeg td b [] [] None
| loop_turn (item : string * string) (rest : list (string * string))
    (out err : string) (fs_n : list string) (evs : list Event)
    (stop : option exn) :
    loop_run cb ffmpeg td b rest evs stop ->
    loop_run cb ffmpeg td b (item :: rest)
      (turn_events cb ffmpeg td b item (Ok (0, out, err)) fs_n ++ evs) stop
| loop_process_failed (item : string * string) (rest : list (string * string))
    (answer : result (Z * string * string)) (fs_n : list string) (e : exn) :
    exit_check (normalize_failed_msg (snd item)) answer = Raise e ->
    loop_run cb ffmpeg td b (item :: rest)
      (turn_events cb ffmpeg td b item answer fs_n) (Some e)
| loop_callback_raised (item : string * string) (rest : list (string * string))
    (f : callback) (w : World) (e : exn) :
    cb = Some f -> f (normalize_msg (fst item)) w = Some e ->
    loop_run cb ffmpeg td b (item :: rest)
      [EvStatus (normalize_msg (fst item))] (Some e).

(** The events of the concatenation step. *)
Definition concat_events (cb : option callback) (ffmpeg td out : string)
    (ch : Z) (answer : result (Z * string * string)) (fs_c : list string)
    : list Event :=
  status_events cb concat_msg ++
  [EvConcat ffmpeg (map (norm_path td) CONCAT_ORDER)
            (output_path_of out ch) default_mp3_quality;
   EvRun (concat_cmd ffmpeg (map (norm_path td) CONCAT_ORDER)
                     (output_path_of out ch) default_mp3_quality)
         answer fs_c].

(** How the block of the [with] statement can go, after the loop. *)
Inductive block_end (cb : option callback) (ffmpeg td out : string) (ch : Z)
    : option exn -> list Event -> result string -> Prop :=
| end_loop_stopped (e : exn) :
    block_end cb ffmpeg td out ch (Some e) [] (Raise e)
| end_callback_raised (f : callback) (w : World) (e : exn) :
    cb = Some f -> f concat_msg w = Some e ->
    block_end cb ffmpeg td out ch None [EvStatus concat_msg] (Raise e)
| end_concat_failed (answer : result (Z * string * string))
    (fs_c : list string) (e : exn) :
    exit_check concat_failed_msg answer = Raise e ->
    block_end cb ffmpeg td out ch None
      (concat_events cb ffmpeg td out ch answer fs_c) (Raise e)
| end_returned (out_c err_c : string) (fs_c : list string) :
    block_end cb ffmpeg td out ch None
      (concat_events cb ffmpeg td out ch (Ok (0, out_c, err_c)) fs_c)
      (Ok (output_path_of out ch)).

(** The events of the analysis step. *)
Definition analysis_events (cb : option callback) (ffmpeg folder : string)
    (answer : result (Z * string * string)) (fs_a : list string)
    : list Event :=
  status_events cb baseline_msg ++
  [EvMeasure ffmpeg (baseline_clip folder);
   EvRun (measure_cmd ffmpeg (baseline_clip folder)) answer fs_a].

(** The log of a whole run: a run that ends before the workspace exists,
    or one that enters the [with] block and leaves it through the
    cleanup. *)
Inductive run_log (E : Env) (cb : option callback) (folder : string) (ch : Z)
    (out : string) (w : World) : result string -> list Event -> Prop :=
| log_tool_not_found :
    match resolve_tool E (tool_name E) w with
    | None | Some EmptyString => True
    | Some _ => False
    end ->
    run_log E cb folder ch out w (Raise (RuntimeError tool_not_found_msg)) []
| log_missing_files (ffmpeg : string) :
    resolve_tool E (tool_name E) w = Some ffmpeg ->
    missing_in w (clip_set folder) <> [] ->
    run_log E cb folder ch out w
      (Raise (RuntimeError (missing_files_msg (missing_in w (clip_set folder)))))
      []
| log_callback_raised (ffmpeg : string) (f : callback) (e : exn) :
    resolve_tool E (tool_name E) w = Some ffmpeg ->
    cb = Some f -> f baseline_msg w = Some e ->
    run_log E cb folder ch out w (Raise e) [EvStatus baseline_msg]
| log_analysis_failed (ffmpeg : string)
    (answer : result (Z * string * string)) (fs_a : list string) (e : exn) :
    resolve_tool E (tool_name E) w = Some ffmpeg ->
    read_stream E (baseline_clip folder) answer = Raise e ->
    run_log E cb folder ch out w (Raise e)
      (analysis_events cb ffmpeg folder answer fs_a)
| log_mkdtemp_failed (ffmpeg out_a err_a : string) (fs_a : list string)
    (b : float) (w2 : World) (e : exn) :
    resolve_tool E (tool_name E) w = Some ffmpeg ->
    read_stream E (baseline_clip folder) (Ok (0, out_a, err_a)) = Ok b ->
    mkdtemp E "podcast_" w2 = Raise e ->
    run_log E cb folder ch out w (Raise e)
      (analysis_events cb ffmpeg folder (Ok (0, out_a, err_a)) fs_a)
| log_workspace (ffmpeg out_a err_a : string) (fs_a : list string)
    (b : float) (td : string) (evs : list Event) (stop : option exn)
    (post : list Event) (r : result string) :
    resolve_tool E (tool_name E) w = Some ffmpeg ->
    read_stream E (baseline_clip folder) (Ok (0, out_a, err_a)) = Ok b ->
    loop_run cb ffmpeg td b (clip_set folder) evs stop ->
    block_end cb ffmpeg td out ch stop post r ->
    run_log E cb folder ch out w r
      (analysis_events cb ffmpeg folder (Ok (0, out_a, err_a)) fs_a ++
       [EvMkdtemp td] ++ evs ++ post ++ [EvRmtree td]).

(** The texts handed to the progress callback. *)
Definition statuses (t : list Event) : list string :=
  flat_map (fun ev => match ev with
                      | EvStatus msg => [msg]
                      | _ => []
                      end) t.

(** The answers of the processes of a log. *)
Definition answers (t : list Event) : list (result (Z * string * string)) :=
  flat_map (fun ev => match ev with
                      | EvRun _ answer _ => [answer]
                      | _ => []
                      end) t.

(** ** Further scripted runs *)

Module Cases.

(** The analysis exits with status 1. *)
Definition analysis_fails : Double.Script := {|
  Double.sc_which := Some "/usr/bin/ffmpeg";
  Double.sc_analysis := Ok (1, "", "jingle_vorne.mp3: Invalid data found");
  Double.sc_normalize := fun _ => Ok (0, "", "");
  Double.sc_concat := Ok (0, "", "");
  Double.sc_partial := false
|}.

(** A callback that lets every notification pass. *)
Definition quiet : callback := fun _ _ => None.

(** A callback that gives up at once. *)
Definition cancelled : exn := Exn "Cancelled" "stop".
Definition cancel : callback := fun _ _ => Some cancelled.

(** An episode folder next to a bundled tool. *)
Definition bundled : list string := "/home/anna/bin/ffmpeg" :: Double.episode.

End Cases.

(** The bundled file [_which_or_bundled] looks for first. *)
Definition bundled_tool (E : Env) (name : string) : string :=
  _resource_path E (os_path.join "bin" name).

(** The runs of the scripted tool in which a step other than the
    concatenation fails. *)
Definition failing_normalize : result string * World :=
  process_episode (Double.env Double.normalize_fails)
    "/ep" 7 "/out" None (Double.world0 Double.episode).

Definition failing_analysis : result string * World :=
  process_episode (Double.env Cases.analysis_fails)
    "/ep" 7 "/out" None (Double.world0 Double.episode).

(** The notifications of a run that goes through every step. *)
Definition all_notifications : list string :=
  [baseline_msg;
   normalize_msg "intro"; normalize_msg "vorab"; normalize_msg "kapitel";
   normalize_msg "outro"; normalize_msg "jingle_vorne";
   normalize_msg "jingle_hinten";
   concat_msg].

(** A silent jingle as ffmpeg reports it: [input_i] is [-inf]. *)
Definition digital_silence : Double.Script := {|
  Double.sc_which := Some "/usr/bin/ffmpeg";
  Double.sc_analysis := Ok (0, "", Double.stderr_of "-inf");
  Double.sc_normalize := fun _ => Ok (0, "", "");
  Double.sc_concat := Ok (0, "", "");
  Double.sc_partial := false
|}.

(** How a float that is not finite prints with [.2f]. *)
Definition nonfinite_text (f : float) : string :=
  match f with
  | S754_infinity true => "-inf"
  | S754_infinity false => "inf"
  | _ => "nan"
  end.

(** An external tool that removes no path. *)
Definition tool_keeps_files (E : Env) : Prop :=
  forall cmd w p, In p (fs w) -> In p (snd (popen E cmd w)).

(* ================================================================== *)
(** * The window *)

(** What a handler of [MainWindow] does to the widgets, in order: the text
    and style sheet of [file_status], the text of [status], the state of
    [export_btn], and the message boxes it shows. *)
Inductive GuiAction : Type :=
| SetFileStatus (text style : string)
| SetStatus (msg : string)
| SetExportEnabled (enabled : bool)
| Critical (title text : string)
| Information (title text : string).

(** [MainWindow.set_status] as the progress callback: it sets the text of
    the label and never raises. *)
Definition set_status : callback := fun _ _ => None.

Section Window.

Variable E : Env.
(** [str.strip], [os.path.isdir] and [isinstance(e, Exception)]. *)
Variable strip : string -> string.
Variable isdir : string -> World -> bool.
Variable is_Exception : exn -> bool.

(** The loop of [validate_files] over [EPISODE_FILES]. *)
Fixpoint sort_files (folder : string) (names : list string)
    (found missing : list string) (w : World) : list string * list string :=
  match names with
  | [] => (found, missing)
  | fname :: rest =>
      let path := os_path.join folder fname in
      if Str.mem path (fs w)
      then sort_files folder rest (found ++ ["✓ " +:+ fname]) missing w
      else sort_files folder rest found (missing ++ ["✗ " +:+ fname]) w
  end.

Definition validate_files (episode_folder_edit : string) (w : World)
    : GuiAction :=
  let folder := strip episode_folder_edit in
  if Str.eqb folder "" || negb (isdir folder w)
  then SetFileStatus "" "color: #666;"
  else
    let '(found, missing) := sort_files folder EPISODE_FILES [] [] w in
    match missing with
    | _ :: _ =>
        SetFileStatus ("Fehlende Dateien: " +:+ Str.join ", " missing)
                      "color: #c00;"
    | [] =>
        SetFileStatus ("Alle Dateien gefunden: " +:+ Str.join ", " found)
                      "color: #0a0;"
    end.

(** The loop of [on_export] over [EPISODE_FILES]. *)
Fixpoint export_missing (folder : string) (names : list string)
    (missing : list string) (w : World) : list string :=
  match names with
  | [] => missing
  | fname :: rest =>
      export_missing folder rest
        (if Str.mem (os_path.join folder fname) (fs w) then missing
         else missing ++ [fname]) w
  end.

Definition export_missing_msg (missing : list string) : string :=
  "Fehlende Dateien im Episode-Ordner:" +:+ Str.nl +:+
  Str.join Str.nl (map (fun m => "  - " +:+ m) missing).

(** [MainWindow.on_export]: what it does to the widgets, the exception it
    lets through, if any, and the world it leaves. *)
Definition on_export (episode_folder_edit output_folder_edit : string)
    (chapter_spin : Z) (w : World)
    : list GuiAction * result unit * World :=
  let episode_folder := strip episode_folder_edit in
  let output_folder := strip output_folder_edit in
  let chapter := chapter_spin in
  (* Validate episode folder *)
  if Str.eqb episode_folder "" || negb (isdir episode_folder w)
  then ([Critical "Fehler" "Bitte wähle einen gültigen Episode-Ordner."],
        Ok tt, w)
  else
    (* Check episode files *)
    match export_missing episode_folder EPISODE_FILES [] w with
    | (_ :: _) as missing =>
        ([Critical "Fehler" (export_missing_msg missing)], Ok tt, w)
    | [] =>
        (* Default output folder to episode folder *)
        let output_folder :=
          if Str.eqb output_folder "" then episode_folder else output_folder in
        let '(r, w') :=
          process_episode E episode_folder chapter output_folder
                          (Some set_status) w in
        let during := map SetStatus (statuses (events_since w w')) in
        match r with
        | Ok output_path =>
            ([SetExportEnabled false] ++ during ++
             [SetStatus ("Fertig: " +:+ output_path);
              Information "Erfolg"
                ("Export erstellt:" +:+ Str.nl +:+ output_path);
              SetExportEnabled true],
             Ok tt, w')
        | Raise e =>
            if is_Exception e then
              ([SetExportEnabled false] ++ during ++
               [Critical "Fehler" (exn_msg e);
                SetStatus ("Fehler: " +:+ exn_msg e);
                SetExportEnabled true],
               Ok tt, w')
            else
              ([SetExportEnabled false] ++ during ++ [SetExportEnabled true],
               Raise e, w')
        end
    end.

End Window.

(** The state of the export button after the actions of a handler. *)
Definition export_enabled_after (before : bool) (acts : list GuiAction) : bool :=
  fold_left (fun st a => match a with
                         | SetExportEnabled b => b
                         | _ => st
                         end) acts before.

(** The message boxes among the actions of a handler. *)
Definition dialogs (acts : list GuiAction) : list GuiAction :=
  List.filter (fun a => match a with
                        | Critical _ _ | Information _ _ => true
                        | _ => false
                        end) acts.

(** The text the status label shows after the actions of a handler. *)
Definition status_after (before : string) (acts : list GuiAction) : string :=
  fold_left (fun st a => match a with
                         | SetStatus msg => msg
                         | _ => st
                         end) acts before.

(** The library functions of the window in the scripted runs: texts have
    no blanks around them, a directory is a path that exists, and every
    exception is an [Exception]. *)
Module Desk.

Definition strip (s : string) : string := s.
Definition isdir (p : string) (w : World) : bool := Str.mem p (fs w).
Definition is_Exception (e : exn) : bool := true.

End Desk.

(** ** Runs in which something cannot be started *)

Module Faults.

(** The tool is found but cannot be executed. *)
Definition denied : exn :=
  Exn "PermissionError" "[Errno 13] Permission denied: '/usr/bin/ffmpeg'".

Definition no_exec : Double.Script := {|
  Double.sc_which := Some "/usr/bin/ffmpeg";
  Double.sc_analysis := Raise denied;
  Double.sc_normalize := fun _ => Ok (0, "", "");
  Double.sc_concat := Ok (0, "", "");
  Double.sc_partial := false
|}.

(** No temporary directory can be created. *)
Definition disk_full : exn := Exn "OSError" "[Errno 28] No space left on device".

Definition no_tmp : Env := {|
  os_name := "posix";
  sys_meipass := None;
  abspath_dot := "/home/anna";
  shutil_which := fun _ _ => Some "/usr/bin/ffmpeg";
  popen := Double.tool Double.good;
  mkdtemp := fun _ _ => Raise disk_full;
  json_loads := Double.loads;
  float_of_str := Double.float_of;
  repr_of := Double.repr
|}.

End Faults.

Definition failing_launch : result string * World :=
  process_episode (Double.env Faults.no_exec)
    "/ep" 7 "/out" None (Double.world0 Double.episode).

Definition failing_mkdtemp : result string * World :=
  process_episode Faults.no_tmp
    "/ep" 7 "/out" None (Double.world0 Double.episode).

(* ================================================================== *)
(** * Basic facts *)

Lemma mem_In (x : string) (l : list string) : Str.mem x l = true <-> In x l.
Proof.
  unfold Str.mem. rewrite existsb_exists. split.
  - intros (y & Hin & Heq). apply String.eqb_eq in Heq. subst. exact Hin.
  - intros Hin. exists x. split; [exact Hin|apply String.eqb_refl].
Qed.

Lemma mem_false (x : string) (l : list string) : Str.mem x l = false <-> ~ In x l.
Proof.
  rewrite <- mem_In. destruct (Str.mem x l); split; congruence.
Qed.

Lemma events_since_app (w w' : World) (evs : list Event) :
  trace w' = trace w ++ evs -> events_since w w' = evs.
Proof.
  intros H. unfold events_since. rewrite H.
  rewrite drop_app_length. reflexivity.
Qed.


Lemma startswith_prefix (p q s : string) :
  Str.startswith q p = true -> Str.startswith q (p +:+ s) = true.
Proof.
  revert p. induction q as [|c q IH]; intros p H; [reflexivity|].
  destruct p as [|a p]; simpl in *; [discriminate|].
  destruct (Ascii.eqb c a); [auto | discriminate].
Qed.

Lemma contains_app_r (p a s : string) :
  Str.contains p s = true -> Str.contains p (a +:+ s) = true.
Proof.
  intros H. induction a as [|c a IH]; [exact H|].
  simpl. rewrite IH. apply orb_true_r.
Qed.

Lemma startswith_refl (p : string) : Str.startswith p p = true.
Proof.
  induction p as [|c p IH]; simpl; [reflexivity|].
  rewrite Ascii.eqb_refl. exact IH.
Qed.

Lemma contains_refl (p : string) : Str.contains p p = true.
Proof.
  destruct p as [|c p]; [reflexivity|].
  cbn [Str.contains]. rewrite startswith_refl. reflexivity.
Qed.

Section HelperFacts.

Variable E : Env.

Lemma run_cmd_eq (cmd : list string) (w : World) :
  run_cmd E cmd w =
    (fst (popen E cmd w),
     mkWorld (snd (popen E cmd w))
             (trace w ++ [EvRun cmd (fst (popen E cmd w)) (snd (popen E cmd w))])).
Proof. unfold run_cmd. destruct (popen E cmd w); reflexivity. Qed.

Lemma trace_after_run (cmd : list string) (w : World) :
  trace (after_run E cmd w) =
    trace w ++ [EvRun cmd (fst (popen E cmd w)) (snd (popen E cmd w))].
Proof. unfold after_run. rewrite run_cmd_eq. reflexivity. Qed.

Lemma fs_after_run (cmd : list string) (w : World) :
  fs (after_run E cmd w) = snd (popen E cmd w).
Proof. unfold after_run. rewrite run_cmd_eq. reflexivity. Qed.

Lemma measure_eq (ffmpeg infile : string) (w : World) :
  let w1 := logged w (EvMeasure ffmpeg infile) in
  let cmd := measure_cmd ffmpeg infile in
  measure_integrated_loudness E ffmpeg infile w =
    (read_stream E infile (fst (popen E cmd w1)), after_run E cmd w1).
Proof.
  cbv zeta. unfold measure_integrated_loudness, after_run, bind, log, logged.
  rewrite run_cmd_eq. cbn [fst snd].
  destruct (fst (popen E _ _)) as [[[rc out] err]|e]; cbn [read_stream]; [|reflexivity].
  destruct (rc =? 0); cbn [negb]; [|reflexivity].
  destruct (last_item (findall_braces err)); [|reflexivity].
  unfold read_block, lift.
  destruct (json_loads E s); [|reflexivity].
  destruct (py_get a "input_i"); [|reflexivity].
  destruct (is_None a0 || Str.eqb (Str.lower (py_str E a0)) "nan"); reflexivity.
Qed.

Lemma normalize_eq (ffmpeg infile outfile : string) (t tp lra : float)
    (sr ch : Z) (w : World) :
  let w1 := logged w (EvNormalize ffmpeg infile outfile t tp lra sr ch) in
  let cmd := normalize_cmd ffmpeg infile outfile t tp lra sr ch in
  normalize_to_target_i E ffmpeg infile outfile t tp lra sr ch w =
    (exit_check (normalize_failed_msg infile) (fst (popen E cmd w1)),
     after_run E cmd w1).
Proof.
  cbv zeta. unfold normalize_to_target_i, after_run, bind, log, logged.
  rewrite run_cmd_eq. cbn [fst snd].
  destruct (fst (popen E _ _)) as [[[rc out] err]|e]; cbn [exit_check]; [|reflexivity].
  destruct (rc =? 0); reflexivity.
Qed.

Lemma concatenate_eq (ffmpeg : string) (ins : list string) (outp : string)
    (q : Z) (w : World) :
  let w1 := logged w (EvConcat ffmpeg ins outp q) in
  let cmd := concat_cmd ffmpeg ins outp q in
  concatenate_audio E ffmpeg ins outp q w =
    (exit_check concat_failed_msg (fst (popen E cmd w1)), after_run E cmd w1).
Proof.
  cbv zeta. unfold concatenate_audio, after_run, bind, log, logged.
  rewrite run_cmd_eq. cbn [fst snd].
  destruct (fst (popen E _ _)) as [[[rc out] err]|e]; cbn [exit_check]; [|reflexivity].
  destruct (rc =? 0); reflexivity.
Qed.

End HelperFacts.

Section Stages.

Variable E : Env.

Lemma which_eq (name : string) (w : World) :
  _which_or_bundled E name w = (Ok (resolve_tool E name w), w).
Proof.
  unfold _which_or_bundled, resolve_tool, bind, os_path.exists_, ret.
  destruct (Str.mem _ _); reflexivity.
Qed.

Lemma collect_missing_eq (w : World) (items : list (string * string))
    (acc : list string) :
  collect_missing items acc w = (Ok (acc ++ missing_in w items), w).
Proof.
  revert acc. induction items as [|[name path] rest IH]; intros acc.
  - unfold missing_in. cbn. rewrite app_nil_r. reflexivity.
  - cbn [collect_missing]. unfold bind.
    unfold missing_in. cbn [List.filter]. unfold is_missing at 1. cbn [snd fst].
    destruct (Str.eqb path "") eqn:He; cbn [orb].
    + unfold ret. rewrite IH. cbn [map fst]. rewrite <- app_assoc. reflexivity.
    + unfold os_path.exists_. destruct (Str.mem path (fs w)); cbn [negb].
      * apply IH.
      * rewrite IH. cbn [map fst]. rewrite <- app_assoc. reflexivity.
Qed.

Lemma process_episode_eq (folder : string) (ch : Z) (out : string)
    (cb : option callback) (w : World) :
  process_episode E folder ch out cb w =
    match resolve_tool E (tool_name E) w with
    | None | Some EmptyString => (Raise (RuntimeError tool_not_found_msg), w)
    | Some ffmpeg =>
        match missing_in w (clip_set folder) with
        | (_ :: _) as missing =>
            (Raise (RuntimeError (missing_files_msg missing)), w)
        | [] =>
            match status cb baseline_msg w with
            | (Raise e, w1) => (Raise e, w1)
            | (Ok _, w1) =>
                match measure_integrated_loudness E ffmpeg
                        (os_path.join folder "jingle_vorne.mp3") w1 with
                | (Raise e, w2) => (Raise e, w2)
                | (Ok baseline_i, w2) =>
                    with_TemporaryDirectory E "podcast_"
                      (workspace_block E cb ffmpeg (clip_set folder)
                                       baseline_i out ch)
                      w2
                end
            end
        end
    end.
Proof.
  unfold process_episode, bind at 1. rewrite which_eq. fold (tool_name E).
  destruct (resolve_tool E (tool_name E) w) as [[|c ff]|]; try reflexivity.
  unfold bind at 1. rewrite collect_missing_eq. cbn [app].
  fold (clip_set folder).
  destruct (missing_in w (clip_set folder)); [|reflexivity].
  unfold bind at 1. destruct (status cb _ w) as [[[]|e] w1]; [|reflexivity].
  unfold bind at 1. unfold dict_getitem at 1.
  cbn [clip_set dict_lookup Str.eqb String.eqb Ascii.eqb Bool.eqb].
  unfold ret at 1. unfold bind at 1.
  destruct (measure_integrated_loudness _ _ _ _) as [[b|e] w2]; reflexivity.
Qed.

Lemma status_inv (cb : option callback) (msg : string) (w w1 : World)
    (r : result unit) :
  status cb msg w = (r, w1) ->
  fs w1 = fs w /\ trace w1 = trace w ++ status_events cb msg /\
  match r with
  | Ok _ => True
  | Raise e => exists f, cb = Some f /\ f msg w = Some e
  end.
Proof.
  unfold status, status_events. destruct cb as [f|].
  - destruct (f msg w) as [e|] eqn:Hf; intros [= <- <-]; cbn; eauto.
  - intros [= <- <-]. cbn. rewrite app_nil_r. auto.
Qed.

Lemma exit_check_raise (msg : string -> string)
    (answer : result (Z * string * string)) (e : exn) :
  exit_check msg answer = Raise e ->
  answer = Raise e \/
  exists rc out err, answer = Ok (rc, out, err) /\ rc <> 0 /\
                     e = RuntimeError (msg err).
Proof.
  destruct answer as [[[rc out] err]|e']; cbn.
  - destruct (rc =? 0) eqn:Hrc; [discriminate|].
    intros [= <-]. right. exists rc, out, err.
    apply Z.eqb_neq in Hrc. auto.
  - intros [= <-]. auto.
Qed.

Lemma exit_check_ok (msg : string -> string)
    (answer : result (Z * string * string)) (u : unit) :
  exit_check msg answer = Ok u ->
  exists out err, answer = Ok (0, out, err).
Proof.
  destruct answer as [[[rc out] err]|e']; cbn; [|discriminate].
  destruct (rc =? 0) eqn:Hrc; [|discriminate].
  apply Z.eqb_eq in Hrc. subst. eauto.
Qed.

Lemma normalize_all_inv (cb : option callback) (ffmpeg td : string)
    (b : float) (items : list (string * string)) :
  forall (nm : list (string * string)) (w : World)
         (r : result (list (string * string))) (w' : World),
  normalize_all E cb ffmpeg td b items nm w = (r, w') ->
  exists evs,
    trace w' = trace w ++ evs /\
    Forall (norm_event ffmpeg b) evs /\
    match r with
    | Ok nm' =>
        nm' = normalized_after td items nm /\
        normalize_calls evs = calls_for td b items
    | Raise e =>
        foreign E cb e \/
        exists i err, e = RuntimeError (normalize_failed_msg i err)
    end.
Proof.
  induction items as [|[name path] rest IH]; intros nm w r w' H.
  - cbn in H. injection H as <- <-. exists []. rewrite app_nil_r.
    repeat split; constructor.
  - cbn [normalize_all] in H. unfold bind at 1 in H.
    destruct (status cb _ w) as [[[]|e] w1] eqn:Hs;
      apply status_inv in Hs as (Hfs & Htr & Hr).
    + unfold bind at 1 in H. rewrite normalize_eq in H.
      set (ev := EvNormalize _ _ _ _ _ _ _ _) in H.
      set (cmd := normalize_cmd _ _ _ _ _ _ _ _) in H.
      destruct (exit_check _ _) as [[]|e] eqn:Hx.
      * apply IH in H as (evs & Htr' & Hall & Hres).
        rewrite trace_after_run in Htr'. cbn [logged trace] in Htr'.
        exists (status_events cb ("Normalisiere " +:+ name +:+ "…") ++
                [ev; EvRun cmd (fst (popen E cmd (logged w1 ev)))
                               (snd (popen E cmd (logged w1 ev)))] ++ evs).
        split; [rewrite Htr', Htr; rewrite <- !app_assoc; reflexivity|].
        split.
        { apply Forall_app; split; [destruct cb; repeat constructor|].
          constructor; [cbn; tauto|]. constructor; [cbn; eauto|]. exact Hall. }
        destruct r as [nm'|e]; [|exact Hres].
        destruct Hres as [-> Hcalls]. split; [reflexivity|].
        unfold normalize_calls in *. rewrite flat_map_app.
        assert (Hst : forall m, flat_map (fun ev0 => match ev0 with
                  | EvNormalize _ i o target _ _ _ _ => [(i, o, target)]
                  | _ => [] end) (status_events cb m) = []).
        { destruct cb; reflexivity. }
        rewrite Hst. cbn. rewrite Hcalls. reflexivity.
      * injection H as <- <-.
        exists (status_events cb ("Normalisiere " +:+ name +:+ "…") ++
                [ev; EvRun cmd (fst (popen E cmd (logged w1 ev)))
                               (snd (popen E cmd (logged w1 ev)))]).
        rewrite trace_after_run. cbn [logged trace].
        split; [rewrite Htr; rewrite <- !app_assoc; reflexivity|].
        split.
        { apply Forall_app; split; [destruct cb; repeat constructor|].
          constructor; [cbn; tauto|]. constructor; [cbn; eauto|]. constructor. }
        apply exit_check_raise in Hx as [Hx|(rc & o & err & _ & _ & ->)].
        -- left. right. left. eauto.
        -- right. eauto.
    + injection H as <- <-. destruct Hr as (f & -> & Hf).
      exists [EvStatus ("Normalisiere " +:+ name +:+ "…")].
      split; [exact Htr|]. split; [repeat constructor|].
      left. left. eauto.
Qed.

End Stages.

Section Runs.

Variable E : Env.

Lemma resolve_order_eq (td : string) (folder : string) (w : World) :
  resolve_order (normalized_after td (clip_set folder) []) CONCAT_ORDER w =
    (Ok (map (norm_path td) CONCAT_ORDER), w).
Proof.
  reflexivity.
Qed.

Lemma workspace_block_inv (cb : option callback) (ffmpeg folder : string)
    (b : float) (out : string) (ch : Z) (td : string) (w : World)
    (r : result string) (w' : World) :
  workspace_block E cb ffmpeg (clip_set folder) b out ch td w = (r, w') ->
  block_run E cb ffmpeg folder b out ch td w r w'.
Proof.
  unfold workspace_block. unfold bind at 1 2 3 4 5 6. unfold dict_getitem.
  cbn [clip_set dict_lookup Str.eqb String.eqb Ascii.eqb Bool.eqb].
  unfold ret at 1 2 3 4 5 6. fold (clip_set folder).
  unfold bind at 1.
  destruct (normalize_all _ _ _ _ _ _ _ _) as [[nm|e] w1] eqn:Hn;
    apply normalize_all_inv in Hn as (evs & Htr & Hall & Hres).
  2:{ intros [= <- <-]. eapply block_normalize_failed; eauto. }
  destruct Hres as [-> Hcalls].
  unfold bind at 1. rewrite resolve_order_eq.
  unfold bind at 1.
  destruct (status cb _ w1) as [[[]|e] w2] eqn:Hs;
    apply status_inv in Hs as (Hfs & Htr2 & Hr).
  2:{ intros [= <- <-]. eapply block_callback_raised; eauto.
      - rewrite Htr2, Htr, <- app_assoc. reflexivity.
      - destruct Hr as (f & -> & Hf). left. eauto. }
  unfold bind at 1. rewrite concatenate_eq.
  fold (output_path_of out ch).
  set (ev := EvConcat _ _ _ _). set (cmd := concat_cmd _ _ _ _).
  intros H.
  eapply block_concatenated with (evs := evs)
    (answer := fst (popen E cmd (logged w2 ev)))
    (fs_c := snd (popen E cmd (logged w2 ev))); eauto.
  - assert (Hw : w' = after_run E cmd (logged w2 ev)).
    { destruct (exit_check _ _) as [[]|?]; injection H as <- <-; reflexivity. }
    rewrite Hw, trace_after_run. cbn [logged trace].
    rewrite Htr2, Htr. rewrite <- !app_assoc. reflexivity.
  - destruct (exit_check _ _) as [[]|?]; injection H as <- <-;
      rewrite fs_after_run; reflexivity.
  - exists (logged w2 ev). fold cmd. apply surjective_pairing.
  - destruct (exit_check _ _) as [[]|?]; injection H as <- <-; reflexivity.
Qed.

Lemma read_stream_raise (cb : option callback) (infile : string)
    (answer : result (Z * string * string)) (e : exn) :
  read_stream E infile answer = Raise e ->
  answer = Raise e \/
  (exists s, json_loads E s = Raise e) \/
  (exists j k, py_get j k = Raise e) \/
  (exists v, py_float E v = Raise e) \/
  (exists rc out err, answer = Ok (rc, out, err) /\ rc <> 0 /\
      e = RuntimeError (analysis_failed_msg infile err)) \/
  (exists out err, answer = Ok (0, out, err) /\
      findall_braces err = [] /\
      e = RuntimeError (no_json_msg infile err)) \/
  e = RuntimeError (invalid_loudness_msg infile).
Proof.
  unfold read_stream. destruct answer as [[[rc out] err]|e'].
  2:{ intros [= <-]. auto. }
  destruct (rc =? 0) eqn:Hrc.
  2:{ intros [= <-]. apply Z.eqb_neq in Hrc. do 4 right. left. eauto 10. }
  apply Z.eqb_eq in Hrc. subst rc.
  unfold last_item. destruct (last (findall_braces err)) as [blk|] eqn:Hl.
  2:{ intros [= <-]. do 5 right. left. exists out, err.
      apply last_None in Hl. auto. }
  unfold read_block.
  destruct (json_loads E blk) as [j|e1] eqn:Hj.
  2:{ intros [= <-]. right. left. eauto. }
  destruct (py_get j "input_i") as [v|e1] eqn:Hg.
  2:{ intros [= <-]. right. right. left. eauto. }
  destruct (is_None v || _).
  - intros [= <-]. do 6 right. reflexivity.
  - intros Hf. right. right. right. left. eauto.
Qed.

Lemma process_episode_run (cb : option callback) (folder : string) (ch : Z)
    (out : string) (w : World) (r : result string) (w' : World) :
  process_episode E folder ch out cb w = (r, w') ->
  pipeline_run E cb folder ch out w r w'.
Proof.
  rewrite process_episode_eq.
  destruct (resolve_tool E (tool_name E) w) as [ffmpeg|] eqn:Htool.
  2:{ intros [= <- <-]. apply run_tool_not_found. rewrite Htool. exact I. }
  destruct ffmpeg as [|c ff].
  { intros [= <- <-]. apply run_tool_not_found. rewrite Htool. exact I. }
  set (ffmpeg := String c ff) in *.
  assert (Hne : ffmpeg <> "") by discriminate.
  destruct (missing_in w (clip_set folder)) as [|m ms] eqn:Hmiss.
  2:{ intros [= <- <-]. rewrite <- Hmiss.
      eapply run_missing_files; eauto. rewrite Hmiss. discriminate. }
  destruct (status cb baseline_msg w) as [[[]|e] w1] eqn:Hs;
    pose proof Hs as Hs'; apply status_inv in Hs' as (Hfs & Htr & Hr).
  2:{ intros [= <- <-]. destruct Hr as (f & -> & Hf).
      eapply run_callback_raised; eauto. left. eauto. }
  destruct (measure_integrated_loudness _ _ _ _) as [rm w2] eqn:Hm.
  pose proof Hm as Hm'. rewrite measure_eq in Hm'.
  set (jv := os_path.join folder "jingle_vorne.mp3") in *.
  set (ev := EvMeasure ffmpeg jv) in *.
  set (cmd := measure_cmd ffmpeg jv) in *.
  injection Hm' as Hrm Hw2.
  assert (Htr2 : trace w2 = trace w ++ status_events cb baseline_msg ++
            [ev; EvRun cmd (fst (popen E cmd (logged w1 ev)))
                           (snd (popen E cmd (logged w1 ev)))]).
  { rewrite <- Hw2, trace_after_run. cbn [logged trace].
    rewrite Htr, <- !app_assoc. reflexivity. }
  assert (Hfs2 : fs w2 = snd (popen E cmd (logged w1 ev))).
  { rewrite <- Hw2. apply fs_after_run. }
  assert (Hpop : exists wm, popen E cmd wm =
            (fst (popen E cmd (logged w1 ev)), snd (popen E cmd (logged w1 ev)))).
  { exists (logged w1 ev). apply surjective_pairing. }
  destruct rm as [b|e].
  2:{ intros [= <- <-]. eapply run_measure_failed; eauto. }
  unfold with_TemporaryDirectory.
  destruct (mkdtemp E "podcast_" w2) as [td|e] eqn:Htd.
  2:{ intros [= <- <-]. eapply run_mkdtemp_failed; eauto. }
  destruct (workspace_block _ _ _ _ _ _ _ _ _) as [rb w3] eqn:Hb.
  intros [= <- <-].
  apply workspace_block_inv in Hb.
  eapply run_workspace; eauto.
Qed.

End Runs.

(** ** What the stages leave in the log *)

Lemma status_events_silent (cb : option callback) (msg : string) :
  measure_calls (status_events cb msg) = [] /\
  normalize_calls (status_events cb msg) = [] /\
  concat_calls (status_events cb msg) = [] /\
  commands (status_events cb msg) = [].
Proof. destruct cb; repeat split; reflexivity. Qed.

Lemma norm_events_calls (ffmpeg : string) (b : float) (evs : list Event) :
  Forall (norm_event ffmpeg b) evs ->
  measure_calls evs = [] /\ concat_calls evs = [] /\
  List.filter is_analysis_cmd (commands evs) = [] /\
  (forall td, ~ In (EvMkdtemp td) evs) /\
  Forall (fun c => snd c = b) (normalize_calls evs).
Proof.
  induction 1 as [|ev evs Hev _ IH].
  - repeat split; try reflexivity; [intros td []|constructor].
  - destruct IH as (Hm & Hc & Ha & Hd & Ht).
    destruct ev; cbn in Hev; try contradiction.
    + repeat split; try assumption.
      intros td [Heq|Hin]; [discriminate|eapply Hd; eauto].
    + destruct Hev as (i & o & ->).
      repeat split; try assumption.
      intros td [Heq|Hin]; [discriminate|eapply Hd; eauto].
    + destruct Hev as (_ & -> & _).
      repeat split; try assumption.
      * intros td [Heq|Hin]; [discriminate|eapply Hd; eauto].
      * cbn. constructor; [reflexivity|exact Ht].
Qed.

Section Success.

Variable E : Env.

(** A run that returns went through every stage. *)
Lemma process_episode_ok_inv (cb : option callback) (folder : string)
    (ch : Z) (out : string) (w : World) (p : string) (w' : World) :
  process_episode E folder ch out cb w = (Ok p, w') ->
  let jv := os_path.join folder "jingle_vorne.mp3" in
  exists ffmpeg answer fs_a b td evs out_c err_c fs_c,
    events_since w w' =
      status_events cb baseline_msg ++
      [EvMeasure ffmpeg jv; EvRun (measure_cmd ffmpeg jv) answer fs_a;
       EvMkdtemp td] ++ evs ++ status_events cb concat_msg ++
      [EvConcat ffmpeg (map (norm_path td) CONCAT_ORDER)
                (output_path_of out ch) default_mp3_quality;
       EvRun (concat_cmd ffmpeg (map (norm_path td) CONCAT_ORDER)
                         (output_path_of out ch) default_mp3_quality)
             (Ok (0, out_c, err_c)) fs_c;
       EvRmtree td] /\
    Forall (norm_event ffmpeg b) evs /\
    normalize_calls evs = calls_for td b (clip_set folder) /\
    p = output_path_of out ch /\
    fs w' = List.filter (fun q => negb (os_path.under td q)) fs_c /\
    (exists w1 w2, measure_integrated_loudness E ffmpeg jv w1 = (Ok b, w2) /\
                   mkdtemp E "podcast_" w2 = Ok td) /\
    (exists wc,
       popen E (concat_cmd ffmpeg (map (norm_path td) CONCAT_ORDER)
                           (output_path_of out ch) default_mp3_quality) wc
       = (Ok (0, out_c, err_c), fs_c)).
Proof.
  intros H jv. apply process_episode_run in H.
  inversion H as [ | | | | |
    ffmpeg answer fs_a b td w2 w3 rr ww Htool Hne Hmiss Htr2 Hfs2 Hpop Hread
    Hmeas Htd Hblock Hw']; subst.
  inversion Hblock as [ | |
    evs ans fs_c rr ww Htr3 Hfs3 Hpopen Hall Hcalls Hr]; subst.
  destruct (exit_check concat_failed_msg ans) as [[]|e] eqn:Hx; [|discriminate].
  apply exit_check_ok in Hx as (out_c & err_c & ->).
  injection Hr as ->.
  destruct Hmeas as (w1 & _ & Hmeas).
  exists ffmpeg, answer, (fs w2), b, td, evs, out_c, err_c, (fs w3).
  split.
  { apply events_since_app. unfold rmtree. cbn [trace].
    rewrite Htr3. cbn [trace]. rewrite Htr2.
    rewrite <- !app_assoc. reflexivity. }
  repeat split; eauto.
Qed.

End Success.

(* ================================================================== *)
(** * Tactics *)

(** Closes an equation between closed terms by evaluating both sides. *)
Ltac by_vm := vm_compute; reflexivity.

(** Splits a membership in a concatenation into its cases. *)
Ltac split_in H :=
  repeat match type of H with
         | In _ (_ :: _) => destruct H as [H|H]
         | In _ (_ ++ _) => apply in_app_or in H as [H|H]
         | In _ [] => destruct H
         end.


(* ================================================================== *)
(** * The brace scan *)

Lemma append_cons (c : ascii) (s t : string) :
  String c s +:+ t = String c (s +:+ t).
Proof. reflexivity. Qed.

Lemma append_nil_r (s : string) : s +:+ "" = s.
Proof.
  induction s as [|c s IH]; [reflexivity|].
  rewrite append_cons, IH. reflexivity.
Qed.

Lemma append_assoc (a b c : string) : (a +:+ b) +:+ c = a +:+ (b +:+ c).
Proof.
  induction a as [|x a IH]; [reflexivity|].
  rewrite !append_cons, IH. reflexivity.
Qed.

Lemma length_append (a b : string) :
  String.length (a +:+ b) = (String.length a + String.length b)%nat.
Proof.
  induction a as [|x a IH]; [reflexivity|].
  rewrite append_cons. cbn [String.length]. rewrite IH. reflexivity.
Qed.

(** Texts with a common head or tail. *)
Lemma append_inj_suffix (a b s t : string) :
  String.length s = String.length t ->
  a +:+ s = b +:+ t -> a = b /\ s = t.
Proof.
  intros Hl. revert b. induction a as [|c a IH]; intros [|d b] H.
  - split; [reflexivity|exact H].
  - exfalso. apply (f_equal String.length) in H.
    rewrite length_append in H. change (String.length "") with 0%nat in H.
    rewrite length_append in H. cbn [String.length] in H. lia.
  - exfalso. apply (f_equal String.length) in H.
    rewrite !length_append in H. change (String.length "") with 0%nat in H.
    cbn [String.length] in H. lia.
  - rewrite !append_cons in H. injection H as -> H.
    destruct (IH _ H) as [-> ->]. split; reflexivity.
Qed.

Lemma append_inj_prefix (a x y : string) : a +:+ x = a +:+ y -> x = y.
Proof.
  induction a as [|c a IH]; intros H; [exact H|].
  rewrite !append_cons in H. injection H as H. apply IH, H.
Qed.

(** Outside a block, text without an opening brace is skipped. *)
Lemma findall_skip (pre s : string) :
  Str.has_char "{" pre = false ->
  findall_scan None (pre +:+ s) = findall_scan None s.
Proof.
  induction pre as [|c pre IH]; intros H; [reflexivity|].
  cbn in H. apply orb_false_iff in H as [Hc Hpre].
  rewrite append_cons. cbn [findall_scan]. rewrite Hc. auto.
Qed.

(** Inside a block, the first closing brace ends it. *)
Lemma findall_close (acc body rest : string) :
  Str.has_char "}" body = false ->
  findall_scan (Some acc) (body +:+ String "}" rest) =
    (acc +:+ body +:+ "}") :: findall_scan None rest.
Proof.
  revert acc. induction body as [|c body IH]; intros acc H.
  - reflexivity.
  - cbn in H. apply orb_false_iff in H as [Hc Hbody].
    rewrite append_cons. cbn [findall_scan]. rewrite Hc, IH by exact Hbody.
    rewrite append_assoc. reflexivity.
Qed.

Lemma findall_block (body rest : string) :
  Str.has_char "}" body = false ->
  findall_braces ("{" +:+ body +:+ String "}" rest) =
    ("{" +:+ body +:+ "}") :: findall_braces rest.
Proof. intros H. unfold findall_braces. cbn. apply findall_close, H. Qed.

Lemma findall_inside_step (s acc : string) :
  findall_scan (Some acc) s = [] \/
  exists body rest,
    s = body +:+ String "}" rest /\ Str.has_char "}" body = false /\
    findall_scan (Some acc) s = (acc +:+ body +:+ "}") :: findall_scan None rest.
Proof.
  revert acc. induction s as [|c s IH]; intros acc; [left; reflexivity|].
  cbn [findall_scan]. destruct (Ascii.eqb c "}") eqn:Hc.
  - right. exists "", s. apply Ascii.eqb_eq in Hc. subst c.
    repeat split.
  - destruct (IH (acc +:+ String c "")) as [Hnil|(body & rest & -> & Hb & Heq)].
    + left. exact Hnil.
    + right. exists (String c body), rest. repeat split.
      * cbn. rewrite Hc, Hb. reflexivity.
      * rewrite Heq, append_assoc. reflexivity.
Qed.

Lemma findall_step (s : string) :
  findall_braces s = [] \/
  exists pre body rest,
    s = pre +:+ "{" +:+ body +:+ String "}" rest /\
    Str.has_char "{" pre = false /\ Str.has_char "}" body = false /\
    findall_braces s = ("{" +:+ body +:+ "}") :: findall_braces rest.
Proof.
  unfold findall_braces.
  induction s as [|c s IH]; [left; reflexivity|].
  cbn [findall_scan]. destruct (Ascii.eqb c "{") eqn:Hc.
  - apply Ascii.eqb_eq in Hc. subst c.
    destruct (findall_inside_step s "{") as [Hnil|(body & rest & -> & Hb & Heq)].
    + left. exact Hnil.
    + right. exists "", body, rest. repeat split; assumption.
  - destruct IH as [Hnil|(pre & body & rest & -> & Hp & Hb & Heq)].
    + left. exact Hnil.
    + right. exists (String c pre), body, rest. repeat split; try assumption.
      cbn. rewrite Hc, Hp. reflexivity.
Qed.

(** Where the last match sits: it is a piece [{body}] of the text with no
    closing brace inside, the matches before it are those of the text
    before it, and the text after it holds no match. *)
Lemma findall_last (s : string) (blocks : list string) (b : string) :
  findall_braces s = blocks ++ [b] ->
  exists pre body post,
    s = pre +:+ b +:+ post /\
    b = "{" +:+ body +:+ "}" /\ Str.has_char "}" body = false /\
    findall_braces pre = blocks /\ findall_braces post = [].
Proof.
  remember (String.length s) as n eqn:Hn.
  revert s blocks b Hn.
  induction n as [n IH] using lt_wf_ind. intros s blocks b Hn H.
  destruct (findall_step s) as [Hnil|(pre & body & rest & Hs & Hp & Hb & Heq)].
  { rewrite Hnil in H. destruct blocks; discriminate. }
  rewrite Heq in H. destruct blocks as [|b0 blocks].
  - injection H as Hb0 Hrest. exists pre, body, rest. subst b.
    repeat split; try assumption.
    + rewrite Hs. rewrite !append_assoc. reflexivity.
    + rewrite <- (append_nil_r pre). unfold findall_braces.
      rewrite findall_skip by assumption. reflexivity.
  - injection H as Hb0 Hrest.
    assert (Hlen : (String.length rest < n)%nat).
    { subst n s. rewrite !length_append. cbn. lia. }
    destruct (IH _ Hlen rest blocks b eq_refl Hrest)
      as (pre' & body' & post' & Hr & Hb' & Hnb & Hpre' & Hpost').
    exists (pre +:+ "{" +:+ body +:+ String "}" pre'), body', post'.
    repeat split; try assumption.
    + rewrite Hs, Hr. rewrite !append_assoc. cbn. reflexivity.
    + unfold findall_braces. rewrite findall_skip by assumption.
      fold (findall_braces ("{" +:+ body +:+ String "}" pre')).
      rewrite findall_block by assumption. rewrite Hpre', Hb0. reflexivity.
Qed.

(* ================================================================== *)
(** * C1: one measurement, six identical targets *)

(** C1.  In every run that returns, the loudness analyzer is called exactly
    once, on [jingle_vorne] (the role the specification calls
    [jingle_lead]), and exactly one analysis process is started; the
    normalizer is called six times, once per role and [jingle_vorne]
    included, and the target loudness it receives each time is the very
    value [b] that the measurement returned. *)
Theorem C1_single_baseline_for_all_targets (E : Env) (cb : option callback)
    (folder : string) (ch : Z) (out : string) (w : World)
    (p : string) (w' : World) :
  process_episode E folder ch out cb w = (Ok p, w') ->
  let jv := os_path.join folder "jingle_vorne.mp3" in
  let new := events_since w w' in
  exists (ffmpeg : string) (b : float) (td : string),
    measure_calls new = [(ffmpeg, jv)] /\
    List.filter is_analysis_cmd (commands new) = [measure_cmd ffmpeg jv] /\
    (exists w1 w2, measure_integrated_loudness E ffmpeg jv w1 = (Ok b, w2)) /\
    normalize_calls new =
      [(os_path.join folder "intro.mp3", norm_path td "intro", b);
       (os_path.join folder "vorab.mp3", norm_path td "vorab", b);
       (os_path.join folder "kapitel.mp3", norm_path td "kapitel", b);
       (os_path.join folder "outro.mp3", norm_path td "outro", b);
       (jv, norm_path td "jingle_vorne", b);
       (os_path.join folder "jingle_hinten.mp3", norm_path td "jingle_hinten", b)] /\
    map snd (normalize_calls new) = replicate 6 b.
Proof.
  intros H jv new.
  apply process_episode_ok_inv in H
    as (ffmpeg & answer & fs_a & b & td & evs & out_c & err_c & fs_c &
        Hnew & Hall & Hcalls & _ & _ & (w1 & w2 & Hmeas & _) & _).
  fold jv in Hnew, Hmeas. fold new in Hnew.
  destruct (norm_events_calls _ _ _ Hall) as (Hm & _ & Ha & _ & _).
  destruct (status_events_silent cb baseline_msg) as (Hs1 & Hs2 & _ & Hs4).
  destruct (status_events_silent cb concat_msg) as (Ht1 & Ht2 & _ & Ht4).
  assert (Hn : normalize_calls new = calls_for td b (clip_set folder)).
  { rewrite Hnew. unfold normalize_calls in *.
    rewrite !flat_map_app, Hs2, Ht2, Hcalls. cbn [flat_map app].
    rewrite app_nil_r. reflexivity. }
  exists ffmpeg, b, td. repeat split.
  - rewrite Hnew. unfold measure_calls in *.
    rewrite !flat_map_app, Hs1, Ht1, Hm. reflexivity.
  - rewrite Hnew. unfold commands in *.
    rewrite !flat_map_app, Hs4, Ht4. cbn [app].
    rewrite !List.filter_app, Ha. reflexivity.
  - eauto.
  - exact Hn.
  - rewrite Hn. reflexivity.
Qed.

(** A run of the scripted tool measuring [-23.54]. *)
Lemma C1_witness :
  let w0 := Double.world0 Double.episode in
  let run := process_episode (Double.env Double.good) "/ep" 7 "/out" None w0 in
  exists (ffmpeg : string) (b : float) (td : string),
    measure_calls (events_since w0 (snd run)) = [(ffmpeg, "/ep/jingle_vorne.mp3")] /\
    List.filter is_analysis_cmd (commands (events_since w0 (snd run)))
      = [measure_cmd ffmpeg "/ep/jingle_vorne.mp3"] /\
    (exists w1 w2,
        measure_integrated_loudness (Double.env Double.good) ffmpeg
          "/ep/jingle_vorne.mp3" w1 = (Ok b, w2)) /\
    normalize_calls (events_since w0 (snd run)) =
      [("/ep/intro.mp3", norm_path td "intro", b);
       ("/ep/vorab.mp3", norm_path td "vorab", b);
       ("/ep/kapitel.mp3", norm_path td "kapitel", b);
       ("/ep/outro.mp3", norm_path td "outro", b);
       ("/ep/jingle_vorne.mp3", norm_path td "jingle_vorne", b);
       ("/ep/jingle_hinten.mp3", norm_path td "jingle_hinten", b)] /\
    map snd (normalize_calls (events_since w0 (snd run))) = replicate 6 b.
Proof.
  intros w0 run.
  apply (C1_single_baseline_for_all_targets (Double.env Double.good) None
           "/ep" 7 "/out" w0 "/out/Kapitel 7.mp3" (snd run)).
  by_vm.
Defined.

(* ================================================================== *)
(** * C2: the assembly order *)

(** C2.  In every run that returns, the concatenator is called once, with
    eight inputs in the order jingle_vorne, intro, jingle_hinten, vorab,
    kapitel, jingle_vorne, outro, jingle_hinten (the specification's
    [jingle_lead] and [jingle_trail] are the source's [jingle_vorne] and
    [jingle_hinten]).  The first and sixth entries are one path, the output
    of the single normalize call for [jingle_vorne]; the third and eighth
    are one path, the output of the single normalize call for
    [jingle_hinten]: a repeated role is normalized once. *)
Theorem C2_assembly_order (E : Env) (cb : option callback)
    (folder : string) (ch : Z) (out : string) (w : World)
    (p : string) (w' : World) :
  process_episode E folder ch out cb w = (Ok p, w') ->
  let new := events_since w w' in
  exists (td : string) (ins : list string),
    let lead := norm_path td "jingle_vorne" in
    let trail := norm_path td "jingle_hinten" in
    concat_calls new = [(ins, output_path_of out ch)] /\
    ins = [lead; norm_path td "intro"; trail; norm_path td "vorab";
           norm_path td "kapitel"; lead; norm_path td "outro"; trail] /\
    List.length ins = 8%nat /\
    nth 0 ins "" = lead /\ nth 5 ins "" = lead /\
    nth 2 ins "" = trail /\ nth 7 ins "" = trail /\
    map (fun c => (fst (fst c), snd (fst c))) (normalize_calls new) =
      [(os_path.join folder "intro.mp3", norm_path td "intro");
       (os_path.join folder "vorab.mp3", norm_path td "vorab");
       (os_path.join folder "kapitel.mp3", norm_path td "kapitel");
       (os_path.join folder "outro.mp3", norm_path td "outro");
       (os_path.join folder "jingle_vorne.mp3", lead);
       (os_path.join folder "jingle_hinten.mp3", trail)].
Proof.
  intros H new.
  apply process_episode_ok_inv in H
    as (ffmpeg & answer & fs_a & b & td & evs & out_c & err_c & fs_c &
        Hnew & Hall & Hcalls & _).
  fold new in Hnew.
  destruct (norm_events_calls _ _ _ Hall) as (_ & Hc & _).
  destruct (status_events_silent cb baseline_msg) as (_ & Hs2 & Hs3 & _).
  destruct (status_events_silent cb concat_msg) as (_ & Ht2 & Ht3 & _).
  exists td, (map (norm_path td) CONCAT_ORDER).
  cbv zeta. split; [|repeat split].
  - rewrite Hnew. unfold concat_calls in *.
    rewrite !flat_map_app, Hs3, Ht3, Hc. reflexivity.
  - rewrite Hnew. unfold normalize_calls in *.
    rewrite !flat_map_app, Hs2, Ht2, Hcalls. cbn [flat_map app].
    rewrite app_nil_r. reflexivity.
Qed.

(** The run of the scripted tool: the eight inputs of its concatenation. *)
Lemma C2_witness :
  let w0 := Double.world0 Double.episode in
  let run := process_episode (Double.env Double.good) "/ep" 7 "/out" None w0 in
  let new := events_since w0 (snd run) in
  exists (td : string) (ins : list string),
    let lead := norm_path td "jingle_vorne" in
    let trail := norm_path td "jingle_hinten" in
    concat_calls new = [(ins, output_path_of "/out" 7)] /\
    ins = [lead; norm_path td "intro"; trail; norm_path td "vorab";
           norm_path td "kapitel"; lead; norm_path td "outro"; trail] /\
    List.length ins = 8%nat /\
    nth 0 ins "" = lead /\ nth 5 ins "" = lead /\
    nth 2 ins "" = trail /\ nth 7 ins "" = trail /\
    map (fun c => (fst (fst c), snd (fst c))) (normalize_calls new) =
      [(os_path.join "/ep" "intro.mp3", norm_path td "intro");
       (os_path.join "/ep" "vorab.mp3", norm_path td "vorab");
       (os_path.join "/ep" "kapitel.mp3", norm_path td "kapitel");
       (os_path.join "/ep" "outro.mp3", norm_path td "outro");
       (os_path.join "/ep" "jingle_vorne.mp3", lead);
       (os_path.join "/ep" "jingle_hinten.mp3", trail)].
Proof.
  intros w0 run.
  apply (C2_assembly_order (Double.env Double.good) None "/ep" 7 "/out" w0
           "/out/Kapitel 7.mp3" (snd run)).
  by_vm.
Defined.

(* ================================================================== *)
(** * C3: the last block decides *)

Lemma prefixes_spec (a b : string) : In a (prefixes (a +:+ b)).
Proof.
  induction a as [|c a IH].
  - destruct b; left; reflexivity.
  - rewrite append_cons. cbn [prefixes]. right.
    apply in_map. exact IH.
Qed.

Lemma substrings_spec (pre obj post : string) :
  In obj (substrings (pre +:+ obj +:+ post)).
Proof.
  induction pre as [|c pre IH].
  - change ("" +:+ obj +:+ post) with (obj +:+ post).
    destruct (obj +:+ post) eqn:Heq; cbn [substrings]; apply in_or_app; left;
      rewrite <- Heq; apply prefixes_spec.
  - rewrite append_cons. cbn [substrings]. apply in_or_app. right. exact IH.
Qed.

Lemma objects_pass_spec (E : Env) (test : list (string * pyval) -> bool)
    (err obj : string) (kv : list (string * pyval)) :
  objects_pass E test err = true ->
  json_object_in E err obj kv -> test kv = true.
Proof.
  unfold objects_pass. rewrite forallb_forall.
  intros Hall [(pre & post & ->) Hj].
  specialize (Hall obj (substrings_spec pre obj post)).
  rewrite Hj in Hall. exact Hall.
Qed.

(** C3, as the code has it.  The analyzer does not look for JSON object
    literals: it looks for the matches of its pattern, each running from
    an opening brace to the first closing brace after it.  When the
    analysis process exits with status 0 and the pattern has a match, the
    last match -- the piece of the stream after which no further match
    follows, whatever the earlier matches [blocks] are -- is what
    [json.loads] receives.  If [json.loads] rejects it, its exception is
    the result; if it reads an object whose [input_i] is present and not
    the text [nan], the result is [float(input_i)]: the float when
    [float] reads one, and an exception of the class [float] raises
    otherwise. *)
Theorem C3_last_block_is_parsed (E : Env) (ffmpeg infile : string) (w : World)
    (out err : string) (fs_a : list string)
    (blocks : list string) (b : string) :
  popen E (measure_cmd ffmpeg infile) (logged w (EvMeasure ffmpeg infile))
    = (Ok (0, out, err), fs_a) ->
  findall_braces err = blocks ++ [b] ->
  (exists pre body post,
      err = pre +:+ b +:+ post /\
      b = "{" +:+ body +:+ "}" /\ Str.has_char "}" body = false /\
      findall_braces pre = blocks /\ findall_braces post = []) /\
  (forall e, json_loads E b = Raise e ->
             fst (measure_integrated_loudness E ffmpeg infile w) = Raise e) /\
  forall (j input_i : pyval),
    json_loads E b = Ok j ->
    py_get j "input_i" = Ok input_i ->
    input_i <> PyNone ->
    Str.lower (py_str E input_i) <> "nan" ->
    (forall f, py_float E input_i = Ok f ->
               fst (measure_integrated_loudness E ffmpeg infile w) = Ok f) /\
    (forall e, py_float E input_i = Raise e ->
               exists e',
                 fst (measure_integrated_loudness E ffmpeg infile w) = Raise e' /\
                 exn_class e' = exn_class e).
Proof.
  intros Hrun Hblocks.
  assert (Hm : fst (measure_integrated_loudness E ffmpeg infile w)
               = read_block E infile b).
  { rewrite measure_eq. cbn [fst]. rewrite Hrun. cbn [fst read_stream Z.eqb].
    rewrite Hblocks. unfold last_item. rewrite last_snoc. reflexivity. }
  split; [apply findall_last, Hblocks|]. split.
  { intros e Hj. rewrite Hm. unfold read_block. rewrite Hj. reflexivity. }
  intros j v Hj Hg Hnone Hnan.
  assert (Hf : fst (measure_integrated_loudness E ffmpeg infile w)
               = py_float E v).
  { rewrite Hm. unfold read_block. rewrite Hj, Hg.
    assert (Hn : is_None v = false) by (destruct v; cbn; congruence).
    rewrite Hn. cbn [orb].
    destruct (Str.eqb _ "nan") eqn:Heq; [|reflexivity].
    apply String.eqb_eq in Heq. contradiction. }
  split.
  - intros f Hv. rewrite Hf. exact Hv.
  - intros e Hv. exists e. rewrite Hf. split; [exact Hv|reflexivity].
Qed.

(** A stream with two blocks: the loudness is that of the second. *)
Lemma C3_witness :
  fst (measure_integrated_loudness (Double.env Double.two_blocks)
         "/usr/bin/ffmpeg" "/ep/jingle_vorne.mp3"
         (Double.world0 Double.episode))
  = Ok Double.minus_23_54.
Proof.
  destruct (C3_last_block_is_parsed (Double.env Double.two_blocks)
              "/usr/bin/ffmpeg" "/ep/jingle_vorne.mp3"
              (Double.world0 Double.episode) ""
              (Double.stderr_of "-10.00" +:+ Double.stderr_of "-23.54")
              Double.episode
              [Double.block_of "-10.00"] (Double.block_of "-23.54")
              ltac:(by_vm) ltac:(by_vm))
    as (_ & _ & H).
  destruct (H (PyDict [("input_i", PyStr "-23.54"); ("input_tp", PyStr "-7.96");
                       ("target_offset", PyStr "0.04")])
              (PyStr "-23.54")) as [Hok _].
  - by_vm.
  - by_vm.
  - discriminate.
  - apply (proj1 (String.eqb_neq _ _)). by_vm.
  - apply Hok. by_vm.
Defined.

(** C3 as written fails.  A stream can hold a JSON object literal, and
    only objects whose [input_i] is the text [-23.54], and still give no
    loudness: the tool echoes the path of its input, and when a folder
    name has an opening brace in it the only match of the pattern runs
    from that brace to the closing brace of the object.  [json.loads]
    rejects it and the analyzer raises [JSONDecodeError]. *)
Lemma C3_counterexample :
  let E := Double.env (analysis_prints stray_brace_stream) in
  let obj := short_block "-23.54" in
  json_object_in E stray_brace_stream obj [("input_i", PyStr "-23.54")] /\
  (forall obj' kv, json_object_in E stray_brace_stream obj' kv ->
                   dict_lookup kv "input_i" = Some (PyStr "-23.54")) /\
  Str.lower "-23.54" <> "nan" /\
  py_float E (PyStr "-23.54") = Ok Double.minus_23_54 /\
  findall_braces stray_brace_stream
    = ["{ep/jingle_vorne.mp3':" +:+ Str.nl +:+ obj] /\
  exists msg,
    fst (measure_integrated_loudness E "/usr/bin/ffmpeg"
           "/{ep/jingle_vorne.mp3" (Double.world0 []))
    = Raise (Exn "JSONDecodeError" msg).
Proof.
  intros E obj. subst E obj.
  split.
  { split; [|by_vm].
    exists ("Input #0, mp3, from '/{ep/jingle_vorne.mp3':" +:+ Str.nl), "".
    by_vm. }
  split.
  { intros obj' kv Hobj.
    assert (Hall : objects_pass
                     (Double.env (analysis_prints stray_brace_stream))
                     (input_i_is "-23.54") stray_brace_stream = true)
      by by_vm.
    pose proof (objects_pass_spec _ _ _ _ _ Hall Hobj) as Ht.
    clear Hall Hobj. unfold input_i_is in Ht.
    destruct (dict_lookup kv "input_i") as [[| | | |s| |]|];
      try discriminate Ht.
    apply String.eqb_eq in Ht. subst s. reflexivity. }
  split; [apply (proj1 (String.eqb_neq _ _)); by_vm|].
  split; [by_vm|]. split; [by_vm|].
  exists "Expecting value". by_vm.
Qed.

(* ================================================================== *)
(** * C4: an unreadable baseline stops the run *)

Lemma kind_of_RuntimeError (msg : string) :
  kind_of (RuntimeError msg) = kind_of_msg msg.
Proof. reflexivity. Qed.

Lemma unreadable_read_stream (E : Env) (infile out err : string) :
  unreadable E err ->
  exists msg,
    read_stream E infile (Ok (0, out, err)) = Raise (RuntimeError msg) /\
    kind_of_msg msg = Some ParseError.
Proof.
  intros [Hnil|(blocks & b & kv & Hb & Hj & Hi)]; cbn [read_stream Z.eqb].
  - rewrite Hnil. cbn. eexists. split; reflexivity.
  - rewrite Hb. unfold last_item. rewrite last_snoc. unfold read_block.
    rewrite Hj. cbn [py_get].
    exists (invalid_loudness_msg infile). split; [|reflexivity].
    destruct Hi as [->|[->|(s & -> & Hs)]]; try reflexivity.
    cbn [is_None py_str orb]. rewrite Hs. reflexivity.
Qed.

Lemma In_status_events (cb : option callback) (msg : string) (ev : Event) :
  In ev (status_events cb msg) -> ev = EvStatus msg.
Proof. destruct cb; cbn; intros []; [auto|contradiction]. Qed.

Lemma norm_event_not_analysis (ffmpeg : string) (b : float) (evs : list Event)
    (f i : string) (a : result (Z * string * string)) (g : list string) :
  Forall (norm_event ffmpeg b) evs ->
  ~ In (EvRun (measure_cmd f i) a g) evs.
Proof.
  intros Hall Hin. rewrite Forall_forall in Hall.
  apply list_elem_of_In, Hall in Hin. cbn in Hin.
  destruct Hin as (i' & o' & Heq). discriminate Heq.
Qed.

(** A baseline that cannot be read ends the run at once. *)
Lemma baseline_failure_stops_run (E : Env) (cb : option callback)
    (folder : string) (ch : Z) (out : string) (w : World)
    (r : result string) (w' : World)
    (ffmpeg infile out_a err : string) (fs_a : list string) (e : exn) :
  process_episode E folder ch out cb w = (r, w') ->
  In (EvRun (measure_cmd ffmpeg infile) (Ok (0, out_a, err)) fs_a)
     (events_since w w') ->
  read_stream E infile (Ok (0, out_a, err)) = Raise e ->
  r = Raise e /\
  normalize_calls (events_since w w') = [] /\
  commands (events_since w w') = [measure_cmd ffmpeg infile].
Proof.
  intros H Hin Hbad. apply process_episode_run in H.
  destruct (status_events_silent cb baseline_msg) as (_ & Hs2 & _ & Hs4).
  inversion H as
    [ Htool
    | ffm Htool Hne Hmiss
    | ffm e0 ww Htool Hne Hmiss Htr Hfs Hfor
    | ffm answer fs1 e0 ww Htool Hne Hmiss Htr Hfs Hpop Hread
    | ffm answer fs1 b e0 ww Htool Hne Hmiss Htr Hfs Hpop Hread Htd
    | ffm answer fs1 b td w2 w3 rr ww Htool Hne Hmiss Htr Hfs Hpop Hread
        Hmeas Htd Hblock Hw' ]; subst.
  - unfold events_since in Hin. rewrite drop_all in Hin. destruct Hin.
  - unfold events_since in Hin. rewrite drop_all in Hin. destruct Hin.
  - rewrite (events_since_app _ _ _ Htr) in Hin.
    apply In_status_events in Hin. discriminate.
  - rewrite (events_since_app _ _ _ Htr) in *.
    apply in_app_or in Hin as [Hin|[Hin|[Hin|[]]]];
      [apply In_status_events in Hin; discriminate|discriminate|].
    injection Hin as ? ? ? ?; subst.
    rewrite Hbad in Hread. injection Hread as <-.
    repeat split.
    + unfold normalize_calls. rewrite flat_map_app.
      fold (normalize_calls (status_events cb baseline_msg)).
      rewrite Hs2. reflexivity.
    + unfold commands. rewrite flat_map_app.
      fold (commands (status_events cb baseline_msg)).
      rewrite Hs4. reflexivity.
  - rewrite (events_since_app _ _ _ Htr) in *.
    apply in_app_or in Hin as [Hin|[Hin|[Hin|[]]]];
      [apply In_status_events in Hin; discriminate|discriminate|].
    injection Hin as ? ? ? ?; subst.
    rewrite Hbad in Hread. discriminate.
  - exfalso.
    assert (Hnew : exists rest,
      events_since w (rmtree td w3) =
        status_events cb baseline_msg ++
        [EvMeasure ffm (baseline_clip folder);
         EvRun (measure_cmd ffm (baseline_clip folder)) answer (fs w2)] ++ rest /\
      ~ In (EvRun (measure_cmd ffmpeg infile) (Ok (0, out_a, err)) fs_a) rest).
    { inversion Hblock as
        [ evs e0 ww Htr3 Hall Hfail
        | evs e0 ww Htr3 Hall Hcalls Hfor
        | evs ans fs_c rr ww Htr3 Hfs3 Hpopen Hall Hcalls Hr ]; subst;
      eexists; (split;
        [ apply events_since_app; unfold rmtree; cbn [trace];
          rewrite Htr3; cbn [trace]; rewrite Htr;
          rewrite <- !app_assoc; cbn [app]; reflexivity | ]);
      intros Hin'; split_in Hin';
      try discriminate Hin';
      try (apply In_status_events in Hin'; discriminate Hin');
      try (eapply norm_event_not_analysis; eassumption). }
    destruct Hnew as (rest & Hnew & Hrest). rewrite Hnew in Hin.
    apply in_app_or in Hin as [Hin|[Hin|[Hin|Hin]]];
      [apply In_status_events in Hin; discriminate|discriminate| |contradiction].
    injection Hin as ? ? ? ?; subst.
    rewrite Hbad in Hread. discriminate.
Qed.

(** C4, as the code has it.  Take a run whose analysis process exits with
    status 0.  When the pattern has no match in the diagnostic stream, or
    [json.loads] reads the last match as an object that has no [input_i]
    or has the text [nan] for it in any letter case, the run fails with
    the error the specification calls [ParseError] -- a [RuntimeError]
    with one of the two parse messages.  When [json.loads] rejects the
    last match, the run fails with the exception of [json.loads] itself,
    which is no [ParseError].  Either way the normalizer is never called:
    the analysis is the only process the run starts. *)
Theorem C4_unreadable_baseline_fails (E : Env) (cb : option callback)
    (folder : string) (ch : Z) (out : string) (w : World)
    (r : result string) (w' : World)
    (ffmpeg infile out_a err : string) (fs_a : list string) :
  process_episode E folder ch out cb w = (r, w') ->
  In (EvRun (measure_cmd ffmpeg infile) (Ok (0, out_a, err)) fs_a)
     (events_since w w') ->
  (unreadable E err ->
   exists msg,
     r = Raise (RuntimeError msg) /\
     kind_of (RuntimeError msg) = Some ParseError /\
     normalize_calls (events_since w w') = [] /\
     commands (events_since w w') = [measure_cmd ffmpeg infile]) /\
  (forall blocks b e,
     findall_braces err = blocks ++ [b] ->
     json_loads E b = Raise e ->
     r = Raise e /\
     normalize_calls (events_since w w') = [] /\
     commands (events_since w w') = [measure_cmd ffmpeg infile]).
Proof.
  intros H Hin. split.
  - intros Hbad.
    destruct (unreadable_read_stream E infile out_a err Hbad)
      as (msg & Hr & Hk).
    destruct (baseline_failure_stops_run _ _ _ _ _ _ _ _ _ _ _ _ _ _ H Hin Hr)
      as (-> & Hn & Hc).
    exists msg. auto.
  - intros blocks b e Hblocks Hj.
    apply (baseline_failure_stops_run _ _ _ _ _ _ _ _ _ _ _ _ _ _ H Hin).
    cbn [read_stream Z.eqb]. rewrite Hblocks. unfold last_item.
    rewrite last_snoc. unfold read_block. rewrite Hj. reflexivity.
Qed.

(** A silent jingle: the analysis prints [NaN] for [input_i]. *)
Lemma C4_witness :
  let w0 := Double.world0 Double.episode in
  let run := process_episode (Double.env Double.silent) "/ep" 7 "/out" None w0 in
  exists msg,
    fst run = Raise (RuntimeError msg) /\
    kind_of (RuntimeError msg) = Some ParseError /\
    normalize_calls (events_since w0 (snd run)) = [] /\
    commands (events_since w0 (snd run))
      = [measure_cmd "/usr/bin/ffmpeg" "/ep/jingle_vorne.mp3"].
Proof.
  intros w0 run.
  apply (C4_unreadable_baseline_fails (Double.env Double.silent) None
           "/ep" 7 "/out" w0 (fst run) (snd run)
           "/usr/bin/ffmpeg" "/ep/jingle_vorne.mp3" ""
           (Double.stderr_of "NaN") Double.episode).
  - apply surjective_pairing.
  - apply (nth_error_In _ 1). by_vm.
  - right. eexists [], _, _. split; [vm_compute; reflexivity|].
    split; [vm_compute; reflexivity|].
    right. right. eexists. split; vm_compute; reflexivity.
Defined.

(** C4 as written fails in its first part.  The analysis of the scripted
    tool exits with status 0 and prints a stream in which no JSON object
    is found: no piece of it is one.  The echoed path has a pair of
    braces, though, so the pattern has a match; [json.loads] rejects it,
    and the run fails with [JSONDecodeError], which is no [ParseError]. *)
Lemma C4_counterexample :
  let E := Double.env (analysis_prints no_object_stream) in
  let w0 := Double.world0 Double.episode in
  let run := process_episode E "/ep" 7 "/out" None w0 in
  (forall obj kv, ~ json_object_in E no_object_stream obj kv) /\
  commands (events_since w0 (snd run))
    = [measure_cmd "/usr/bin/ffmpeg" "/ep/jingle_vorne.mp3"] /\
  answers (events_since w0 (snd run)) = [Ok (0, "", no_object_stream)] /\
  (exists msg, fst run = Raise (Exn "JSONDecodeError" msg)) /\
  (forall e, fst run = Raise e -> kind_of e <> Some ParseError).
Proof.
  intros E w0 run. subst E w0 run.
  assert (Hrun : fst (process_episode
                        (Double.env (analysis_prints no_object_stream))
                        "/ep" 7 "/out" None (Double.world0 Double.episode))
                 = Raise (Exn "JSONDecodeError" "Expecting value")) by by_vm.
  split.
  { intros obj kv Hobj.
    assert (Hall : objects_pass (Double.env (analysis_prints no_object_stream))
                     (fun _ => false) no_object_stream = true) by by_vm.
    pose proof (objects_pass_spec _ _ _ _ _ Hall Hobj) as Ht.
    discriminate Ht. }
  split; [by_vm|]. split; [by_vm|].
  split; [exists "Expecting value"; exact Hrun|].
  intros e He. rewrite Hrun in He. injection He as <-. discriminate.
Qed.

(* ================================================================== *)
(** * C5: every missing clip is reported *)

Lemma startswith_app_l (p a s : string) :
  Str.startswith p a = true -> Str.startswith p (a +:+ s) = true.
Proof.
  revert a. induction p as [|c p IH]; intros a H; [reflexivity|].
  destruct a as [|x a]; [discriminate|].
  rewrite append_cons. cbn in *.
  destruct (Ascii.eqb c x); [auto|discriminate].
Qed.

Lemma contains_app_l (p a s : string) :
  Str.contains p a = true -> Str.contains p (a +:+ s) = true.
Proof.
  induction a as [|x a IH]; intros H.
  - destruct p; [destruct s; reflexivity|discriminate].
  - rewrite append_cons. cbn [Str.contains] in *.
    apply orb_true_iff in H as [H|H].
    + rewrite <- append_cons. rewrite (startswith_app_l _ _ _ H). reflexivity.
    + rewrite (IH H). apply orb_true_r.
Qed.

Lemma contains_join (sep : string) (parts : list string) (x : string) :
  In x parts -> Str.contains x (Str.join sep parts) = true.
Proof.
  induction parts as [|p rest IH]; intros Hin; [destruct Hin|].
  destruct rest as [|q rest].
  - destruct Hin as [->|[]]. apply contains_refl.
  - change (Str.join sep (p :: q :: rest))
      with (p +:+ sep +:+ Str.join sep (q :: rest)).
    destruct Hin as [->|Hin].
    + apply contains_app_l, contains_refl.
    + do 2 apply contains_app_r. apply IH, Hin.
Qed.

Lemma missing_in_spec (w : World) (items : list (string * string))
    (role path : string) :
  In (role, path) items -> ~ In path (fs w) ->
  In (role +:+ ".mp3") (missing_in w items).
Proof.
  intros Hin Hno. unfold missing_in.
  apply (in_map (fun item => fst item +:+ ".mp3") _ (role, path)).
  apply filter_In. split; [exact Hin|].
  unfold is_missing. cbn [snd]. rewrite (proj2 (mem_false _ _) Hno).
  apply orb_true_r.
Qed.

Lemma which_fst (E : Env) (name : string) (w : World) :
  fst (_which_or_bundled E name w) = Ok (resolve_tool E name w).
Proof. rewrite which_eq. reflexivity. Qed.

(** The two outcomes of the first two stages. *)
Lemma process_episode_no_tool (E : Env) (cb : option callback)
    (folder : string) (ch : Z) (out : string) (w : World) :
  fst (_which_or_bundled E (tool_name E) w) = Ok None \/
  fst (_which_or_bundled E (tool_name E) w) = Ok (Some "") ->
  process_episode E folder ch out cb w
    = (Raise (RuntimeError tool_not_found_msg), w).
Proof.
  rewrite which_fst, process_episode_eq.
  intros [H|H]; injection H as ->; reflexivity.
Qed.

Lemma process_episode_missing (E : Env) (cb : option callback)
    (folder : string) (ch : Z) (out : string) (w : World) (ffmpeg : string) :
  fst (_which_or_bundled E (tool_name E) w) = Ok (Some ffmpeg) ->
  ffmpeg <> "" ->
  missing_in w (clip_set folder) <> [] ->
  process_episode E folder ch out cb w
    = (Raise (RuntimeError (missing_files_msg (missing_in w (clip_set folder)))), w).
Proof.
  rewrite which_fst, process_episode_eq. intros H Hne Hmiss.
  injection H as ->. destruct ffmpeg; [contradiction|].
  destruct (missing_in w (clip_set folder)); [contradiction|reflexivity].
Qed.

(** C5, as the code has it.  When the external tool resolves and one or
    more of the six clip paths do not exist, the run fails, before anything
    else is done, with the error the specification calls
    [MissingFilesError]: a [RuntimeError] whose message lists, one per line
    and in the order of the clip set, [<role>.mp3] for every missing role.
    All six paths are looked at; the entries are collected before the
    error is raised. *)
Theorem C5_all_missing_roles_listed (E : Env) (cb : option callback)
    (folder : string) (ch : Z) (out : string) (w : World) (ffmpeg : string) :
  fst (_which_or_bundled E (tool_name E) w) = Ok (Some ffmpeg) ->
  ffmpeg <> "" ->
  (exists role path, In (role, path) (clip_set folder) /\ ~ In path (fs w)) ->
  let missing := missing_in w (clip_set folder) in
  process_episode E folder ch out cb w
    = (Raise (RuntimeError (missing_files_msg missing)), w) /\
  kind_of (RuntimeError (missing_files_msg missing)) = Some MissingFilesError /\
  missing_files_msg missing =
    "Fehlende Dateien:" +:+ Str.nl +:+
    Str.join Str.nl (map (fun m => "  - " +:+ m) missing) /\
  forall role path,
    In (role, path) (clip_set folder) -> ~ In path (fs w) ->
    In (role +:+ ".mp3") missing /\
    Str.contains ("  - " +:+ role +:+ ".mp3") (missing_files_msg missing) = true.
Proof.
  intros Htool Hne (role0 & path0 & Hin0 & Hno0) missing.
  assert (Hmiss : missing <> []).
  { intros Heq. pose proof (missing_in_spec w _ _ _ Hin0 Hno0) as Hin.
    fold missing in Hin. rewrite Heq in Hin. destruct Hin. }
  split; [apply (process_episode_missing E cb folder ch out w ffmpeg); assumption|].
  split; [reflexivity|]. split; [reflexivity|].
  intros role path Hin Hno.
  pose proof (missing_in_spec w _ _ _ Hin Hno) as Hm. fold missing in Hm.
  split; [exact Hm|].
  unfold missing_files_msg. do 2 apply contains_app_r.
  apply contains_join.
  apply (in_map (fun m => "  - " +:+ m) _ _ Hm).
Qed.

(** The tool is found; [outro] and [jingle_hinten] are missing. *)
Lemma C5_witness :
  let w0 := Double.world0 Double.incomplete in
  let E := Double.env Double.good in
  let missing := missing_in w0 (clip_set "/ep") in
  process_episode E "/ep" 7 "/out" None w0
    = (Raise (RuntimeError (missing_files_msg missing)), w0) /\
  kind_of (RuntimeError (missing_files_msg missing)) = Some MissingFilesError /\
  missing_files_msg missing =
    "Fehlende Dateien:" +:+ Str.nl +:+
    Str.join Str.nl (map (fun m => "  - " +:+ m) missing) /\
  forall role path,
    In (role, path) (clip_set "/ep") -> ~ In path (fs w0) ->
    In (role +:+ ".mp3") missing /\
    Str.contains ("  - " +:+ role +:+ ".mp3") (missing_files_msg missing) = true.
Proof.
  intros w0 E.
  apply (C5_all_missing_roles_listed E None "/ep" 7 "/out" w0 "/usr/bin/ffmpeg").
  - by_vm.
  - discriminate.
  - exists "outro", "/ep/outro.mp3". split; [cbn; tauto|].
    apply mem_false. by_vm.
Defined.

(** C5 as written fails when the tool is unresolvable too: with [outro]
    and [jingle_hinten] missing and no ffmpeg anywhere, the run fails with
    the tool-not-found error, whose message names no missing role. *)
Lemma C5_counterexample :
  let w0 := Double.world0 Double.incomplete in
  let run := process_episode (Double.env Double.no_tool) "/ep" 7 "/out" None w0 in
  ~ In "/ep/outro.mp3" (fs w0) /\ ~ In "/ep/jingle_hinten.mp3" (fs w0) /\
  exists e,
    fst run = Raise e /\
    kind_of e = Some ToolNotFoundError /\
    kind_of e <> Some MissingFilesError /\
    Str.contains "outro" (exn_msg e) = false /\
    Str.contains "jingle_hinten" (exn_msg e) = false.
Proof.
  intros w0 run.
  split; [apply mem_false; by_vm|].
  split; [apply mem_false; by_vm|].
  exists (RuntimeError tool_not_found_msg).
  split; [by_vm|]. split; [reflexivity|]. split; [discriminate|].
  split; by_vm.
Qed.


(* ================================================================== *)
(** * C6: the workspace is gone when the call returns *)




Lemma fs_rmtree (td : string) (w : World) (p : string) :
  In p (fs (rmtree td w)) <-> os_path.under td p = false /\ In p (fs w).
Proof.
  unfold rmtree. cbn [fs]. rewrite filter_In, negb_true_iff. tauto.
Qed.




(** The shape of the three commands. *)
Lemma concat_cmd_length (ffmpeg : string) (ins : list string) (outp : string)
    (q : Z) :
  List.length (concat_cmd ffmpeg ins outp q) = (13 + 2 * List.length ins)%nat.
Proof.
  unfold concat_cmd. rewrite !length_app. cbn [List.length].
  assert (H : List.length (flat_map (fun f => ["-i"; f]) ins)
              = (2 * List.length ins)%nat).
  { induction ins as [|a ins IH]; [reflexivity|].
    cbn [flat_map List.length app]. rewrite IH. lia. }
  rewrite H. lia.
Qed.

Lemma concat_cmd_last (ffmpeg : string) (ins : list string) (outp : string)
    (q : Z) :
  List.last (concat_cmd ffmpeg ins outp q) "" = outp.
Proof.
  unfold concat_cmd. rewrite !app_assoc.
  match goal with
  | |- List.last (?l ++ ?tl) _ = _ =>
      change tl with (removelast tl ++ [outp])
  end.
  rewrite app_assoc. apply last_last.
Qed.

Lemma concat_cmd_not_normalize (ffmpeg : string) (ins : list string)
    (outp : string) (q : Z) (f i o : string) (t tp lra : float) (sr c : Z) :
  concat_cmd ffmpeg ins outp q <> normalize_cmd f i o t tp lra sr c.
Proof.
  intros H. apply (f_equal (@List.length string)) in H.
  rewrite concat_cmd_length in H. cbn in H. lia.
Qed.



(* ================================================================== *)
(** * C7: a failing concatenation *)

(** C7, as the code has it.  When the concatenation process of a run exits
    with a non-zero status, the run fails with the error the specification
    calls [ConcatenationError]: a [RuntimeError] whose message is
    [ffmpeg concatenation failed:], a line feed and the captured diagnostic
    text verbatim.  The target of that process was the expected output
    path itself, outside the workspace, and the pipeline removes nothing
    but its workspace [td]: outside [td], the paths that exist when the
    call returns are exactly those the external tool left. *)
Theorem C7_concat_failure_reported (E : Env) (cb : option callback)
    (folder : string) (ch : Z) (out : string) (w : World)
    (r : result string) (w' : World)
    (ffmpeg : string) (ins : list string) (outp : string) (q : Z)
    (rc : Z) (out_c err : string) (fs_c : list string) :
  process_episode E folder ch out cb w = (r, w') ->
  In (EvRun (concat_cmd ffmpeg ins outp q) (Ok (rc, out_c, err)) fs_c)
     (events_since w w') ->
  rc <> 0 ->
  r = Raise (RuntimeError (concat_failed_msg err)) /\
  concat_failed_msg err = "ffmpeg concatenation failed:" +:+ Str.nl +:+ err /\
  Str.contains err (exn_msg (RuntimeError (concat_failed_msg err))) = true /\
  kind_of (RuntimeError (concat_failed_msg err)) = Some ConcatenationError /\
  outp = output_path_of out ch /\
  exists td,
    In (EvMkdtemp td) (events_since w w') /\
    forall p, In p (fs w') <-> os_path.under td p = false /\ In p fs_c.
Proof.
  intros H Hin Hrc. apply process_episode_run in H.
  inversion H as
    [ Htool
    | ffm Htool Hne Hmiss
    | ffm e0 ww Htool Hne Hmiss Htr Hfs Hfor
    | ffm answer fs1 e0 ww Htool Hne Hmiss Htr Hfs Hpop Hread
    | ffm answer fs1 b e0 ww Htool Hne Hmiss Htr Hfs Hpop Hread Htd
    | ffm answer fs1 b td w2 w3 rr ww Htool Hne Hmiss Htr Hfs Hpop Hread
        Hmeas Htd Hblock Hw' ]; subst.
  - unfold events_since in Hin. rewrite drop_all in Hin. destruct Hin.
  - unfold events_since in Hin. rewrite drop_all in Hin. destruct Hin.
  - rewrite (events_since_app _ _ _ Htr) in Hin.
    apply In_status_events in Hin. discriminate.
  - rewrite (events_since_app _ _ _ Htr) in Hin. split_in Hin;
      try discriminate Hin;
      try (apply In_status_events in Hin; discriminate Hin).
  - rewrite (events_since_app _ _ _ Htr) in Hin. split_in Hin;
      try discriminate Hin;
      try (apply In_status_events in Hin; discriminate Hin).
  - assert (Hnorm : forall evs, Forall (norm_event ffm b) evs ->
              ~ In (EvRun (concat_cmd ffmpeg ins outp q) (Ok (rc, out_c, err)) fs_c) evs).
    { intros evs Hall Hin'. rewrite Forall_forall in Hall.
      apply list_elem_of_In, Hall in Hin'. cbn in Hin'.
      destruct Hin' as (i & o & Hc).
      destruct (concat_cmd_not_normalize _ _ _ _ _ _ _ _ _ _ _ _ Hc). }
    inversion Hblock as
      [ evs e0 ww Htr3 Hall Hfail
      | evs e0 ww Htr3 Hall Hcalls Hfor
      | evs ans fs_c' rr ww Htr3 Hfs3 Hpopen Hall Hcalls Hr ]; subst;
      cbn [trace] in Htr3.
    + exfalso.
      assert (Hnew : events_since w (rmtree td w3) =
        (status_events cb baseline_msg ++
         [EvMeasure ffm (baseline_clip folder);
          EvRun (measure_cmd ffm (baseline_clip folder)) answer (fs w2);
          EvMkdtemp td]) ++ evs ++ [EvRmtree td]).
      { apply events_since_app. unfold rmtree. cbn [trace].
        rewrite Htr3, Htr. rewrite <- !app_assoc. reflexivity. }
      rewrite Hnew in Hin. split_in Hin;
        try discriminate Hin;
        try (apply In_status_events in Hin; discriminate Hin);
        try (eapply Hnorm; eassumption).
    + exfalso.
      assert (Hnew : events_since w (rmtree td w3) =
        (status_events cb baseline_msg ++
         [EvMeasure ffm (baseline_clip folder);
          EvRun (measure_cmd ffm (baseline_clip folder)) answer (fs w2);
          EvMkdtemp td]) ++ evs ++ status_events cb concat_msg ++ [EvRmtree td]).
      { apply events_since_app. unfold rmtree. cbn [trace].
        rewrite Htr3, Htr. rewrite <- !app_assoc. reflexivity. }
      rewrite Hnew in Hin. split_in Hin;
        try discriminate Hin;
        try (apply In_status_events in Hin; discriminate Hin);
        try (eapply Hnorm; eassumption).
    + assert (Hnew : events_since w (rmtree td w3) =
        (status_events cb baseline_msg ++
         [EvMeasure ffm (baseline_clip folder);
          EvRun (measure_cmd ffm (baseline_clip folder)) answer (fs w2);
          EvMkdtemp td]) ++ evs ++ status_events cb concat_msg ++
        [EvConcat ffm (map (norm_path td) CONCAT_ORDER)
                  (output_path_of out ch) default_mp3_quality;
         EvRun (concat_cmd ffm (map (norm_path td) CONCAT_ORDER)
                           (output_path_of out ch) default_mp3_quality)
               ans (fs w3);
         EvRmtree td]).
      { apply events_since_app. unfold rmtree. cbn [trace].
        rewrite Htr3, Htr. rewrite <- !app_assoc. reflexivity. }
      rewrite Hnew in Hin |- *.
      assert (Hev : concat_cmd ffm (map (norm_path td) CONCAT_ORDER)
                      (output_path_of out ch) default_mp3_quality
                    = concat_cmd ffmpeg ins outp q /\
                    ans = Ok (rc, out_c, err) /\ fs w3 = fs_c).
      { split_in Hin;
          try discriminate Hin;
          try (apply In_status_events in Hin; discriminate Hin);
          try (exfalso; eapply Hnorm; eassumption).
        repeat split; congruence. }
      destruct Hev as (Hc & -> & <-).
      apply (f_equal (fun c => List.last c "")) in Hc.
      rewrite !concat_cmd_last in Hc. subst outp.
      cbn [exit_check].
      destruct (rc =? 0) eqn:Hz; [apply Z.eqb_eq in Hz; contradiction|].
      split; [reflexivity|]. split; [reflexivity|].
      split; [cbn [exn_msg RuntimeError]; unfold concat_failed_msg;
              do 2 apply contains_app_r; apply contains_refl|].
      split; [reflexivity|]. split; [reflexivity|].
      exists td. split.
      * rewrite !in_app_iff. left. right. cbn. tauto.
      * intros p. apply fs_rmtree.
Qed.

(** The concatenation of the scripted tool fails with [Invalid data
    found]. *)
Lemma C7_witness :
  let w0 := Double.world0 Double.episode in
  let new := events_since w0 (snd (failing_concat false Double.episode)) in
  let err := "Invalid data found" in
  fst (failing_concat false Double.episode)
    = Raise (RuntimeError (concat_failed_msg err)) /\
  concat_failed_msg err = "ffmpeg concatenation failed:" +:+ Str.nl +:+ err /\
  Str.contains err (exn_msg (RuntimeError (concat_failed_msg err))) = true /\
  kind_of (RuntimeError (concat_failed_msg err)) = Some ConcatenationError /\
  "/out/Kapitel 7.mp3" = output_path_of "/out" 7 /\
  exists td,
    In (EvMkdtemp td) new /\
    forall p, In p (fs (snd (failing_concat false Double.episode))) <->
              os_path.under td p = false /\ In p (fs_after_event new 16).
Proof.
  intros w0 new err.
  apply (C7_concat_failure_reported (Double.env (Double.concat_fails false))
           None "/ep" 7 "/out" w0
           (fst (failing_concat false Double.episode))
           (snd (failing_concat false Double.episode))
           "/usr/bin/ffmpeg" (map (norm_path Double.workspace) CONCAT_ORDER)
           "/out/Kapitel 7.mp3" default_mp3_quality 1 "" err
           (fs_after_event new 16)).
  - by_vm.
  - apply (nth_error_In _ 16). by_vm.
  - discriminate.
Defined.

(** C7 as written fails in its last part.  The output path is the target
    of the external process itself, and the pipeline never removes it: when
    the concatenation has begun to write before it exits with status 1, or
    when an older file was at the target already, a file is at the target
    output path after the failure. *)
Lemma C7_counterexample :
  let target := "/out/Kapitel 7.mp3" in
  let stale := target :: Double.episode in
  let e := RuntimeError (concat_failed_msg "Invalid data found") in
  ~ In target Double.episode /\
  fst (failing_concat true Double.episode) = Raise e /\
  In target (fs (snd (failing_concat true Double.episode))) /\
  fst (failing_concat false stale) = Raise e /\
  In target (fs (snd (failing_concat false stale))) /\
  kind_of e = Some ConcatenationError.
Proof.
  intros target stale e.
  split; [apply mem_false; by_vm|].
  split; [by_vm|].
  split; [apply mem_In; by_vm|].
  split; [by_vm|].
  split; [apply mem_In; by_vm|].
  reflexivity.
Qed.

(* ================================================================== *)
(** * C8: the order of the first two stages *)

(** C8, as the code has it.  The orchestrator resolves the external tool
    first and validates the clip set second: a run whose tool is
    unresolvable fails with [ToolNotFoundError] whether or not clips are
    missing, and a run whose tool resolves and whose clip set has missing
    files fails with [MissingFilesError].  Neither failure starts a process
    or changes the world. *)
Theorem C8_tool_resolved_before_validation (E : Env) (cb : option callback)
    (folder : string) (ch : Z) (out : string) (w : World) :
  (fst (_which_or_bundled E (tool_name E) w) = Ok None \/
   fst (_which_or_bundled E (tool_name E) w) = Ok (Some "") ->
   process_episode E folder ch out cb w
     = (Raise (RuntimeError tool_not_found_msg), w) /\
   kind_of (RuntimeError tool_not_found_msg) = Some ToolNotFoundError) /\
  (forall ffmpeg,
     fst (_which_or_bundled E (tool_name E) w) = Ok (Some ffmpeg) ->
     ffmpeg <> "" ->
     missing_in w (clip_set folder) <> [] ->
     process_episode E folder ch out cb w
       = (Raise (RuntimeError (missing_files_msg (missing_in w (clip_set folder)))), w) /\
     kind_of (RuntimeError (missing_files_msg (missing_in w (clip_set folder))))
       = Some MissingFilesError).
Proof.
  split.
  - intros H. split; [apply process_episode_no_tool, H|reflexivity].
  - intros ffmpeg Htool Hne Hmiss.
    split; [eapply process_episode_missing; eassumption|reflexivity].
Qed.

(** Both orders of failure on the scripted tool: no tool and clips missing,
    then a tool and clips missing. *)
Lemma C8_witness :
  let w0 := Double.world0 Double.incomplete in
  (process_episode (Double.env Double.no_tool) "/ep" 3 "/out" None w0
     = (Raise (RuntimeError tool_not_found_msg), w0) /\
   kind_of (RuntimeError tool_not_found_msg) = Some ToolNotFoundError) /\
  (process_episode (Double.env Double.good) "/ep" 3 "/out" None w0
     = (Raise (RuntimeError (missing_files_msg (missing_in w0 (clip_set "/ep")))), w0) /\
   kind_of (RuntimeError (missing_files_msg (missing_in w0 (clip_set "/ep"))))
     = Some MissingFilesError).
Proof.
  intros w0. split.
  - apply (proj1 (C8_tool_resolved_before_validation
                    (Double.env Double.no_tool) None "/ep" 3 "/out" w0)).
    left. by_vm.
  - apply (proj2 (C8_tool_resolved_before_validation
                    (Double.env Double.good) None "/ep" 3 "/out" w0)
             "/usr/bin/ffmpeg").
    + by_vm.
    + discriminate.
    + assert (H : missing_in w0 (clip_set "/ep")
                  = ["outro.mp3"; "jingle_hinten.mp3"]) by by_vm.
      rewrite H. discriminate.
Defined.

(** C8 as written fails: with clips missing and the tool unresolvable, the
    run does not fail with [MissingFilesError] but with
    [ToolNotFoundError]. *)
Lemma C8_counterexample :
  let w0 := Double.world0 Double.incomplete in
  let E := Double.env Double.no_tool in
  missing_in w0 (clip_set "/ep") = ["outro.mp3"; "jingle_hinten.mp3"] /\
  fst (_which_or_bundled E (tool_name E) w0) = Ok None /\
  exists e,
    fst (process_episode E "/ep" 3 "/out" None w0) = Raise e /\
    kind_of e = Some ToolNotFoundError /\
    kind_of e <> Some MissingFilesError.
Proof.
  intros w0 E. split; [by_vm|]. split; [by_vm|].
  exists (RuntimeError tool_not_found_msg).
  split; [by_vm|]. split; [reflexivity|discriminate].
Qed.

(* ================================================================== *)
(** * C9: how failures are told apart *)

(** C9, as the code has it.  Every failure of the pipeline is either an
    exception that came from outside the program (the callback, the process
    launcher, the temporary directory, [json.loads], [dict.get] or
    [float]) or a [RuntimeError] raised by the program itself; all six
    kinds of the specification are raised as this one class, and the kind
    can be told only from the text the message starts with. *)
Theorem C9_kinds_by_message_only (E : Env) (cb : option callback)
    (folder : string) (ch : Z) (out : string) (w : World)
    (e : exn) (w' : World) :
  process_episode E folder ch out cb w = (Raise e, w') ->
  foreign E cb e \/
  (exn_class e = "RuntimeError" /\
   exists k, kind_of e = Some k /\
     match k with
     | ToolNotFoundError => e = RuntimeError tool_not_found_msg
     | MissingFilesError => exists m, e = RuntimeError (missing_files_msg m)
     | AnalysisError => exists i err, e = RuntimeError (analysis_failed_msg i err)
     | ParseError =>
         (exists i err, e = RuntimeError (no_json_msg i err)) \/
         (exists i, e = RuntimeError (invalid_loudness_msg i))
     | NormalizationError =>
         exists i err, e = RuntimeError (normalize_failed_msg i err)
     | ConcatenationError => exists err, e = RuntimeError (concat_failed_msg err)
     end).
Proof.
  intros H. apply process_episode_run in H.
  inversion H as
    [ Htool
    | ffm Htool Hne Hmiss
    | ffm e0 ww Htool Hne Hmiss Htr Hfs Hfor
    | ffm answer fs1 e0 ww Htool Hne Hmiss Htr Hfs Hpop Hread
    | ffm answer fs1 b e0 ww Htool Hne Hmiss Htr Hfs Hpop Hread Htd
    | ffm answer fs1 b td w2 w3 rr ww Htool Hne Hmiss Htr Hfs Hpop Hread
        Hmeas Htd Hblock Hw' ]; subst.
  - right. split; [reflexivity|]. exists ToolNotFoundError. split; reflexivity.
  - right. split; [reflexivity|]. exists MissingFilesError. split; [reflexivity|eauto].
  - left. exact Hfor.
  - destruct Hpop as (wm & Hpop).
    apply (read_stream_raise E cb) in Hread
      as [->|[Hj|[Hg|[Hf|[(rc & o & err & -> & _ & ->)|
          [(o & err & -> & _ & ->)| ->]]]]]].
    + left. right. left. exists (measure_cmd ffm (baseline_clip folder)), wm.
      rewrite Hpop. reflexivity.
    + left. do 3 right. left. exact Hj.
    + left. do 4 right. left. exact Hg.
    + left. do 5 right. exact Hf.
    + right. split; [reflexivity|]. exists AnalysisError. split; [reflexivity|eauto].
    + right. split; [reflexivity|]. exists ParseError. split; [reflexivity|eauto].
    + right. split; [reflexivity|]. exists ParseError. split; [reflexivity|eauto].
  - left. right. right. left. eauto.
  - inversion Hblock as
      [ evs e0 ww Htr3 Hall Hfail
      | evs e0 ww Htr3 Hall Hcalls Hfor
      | evs ans fs_c rr ww Htr3 Hfs3 Hpopen Hall Hcalls Hr ]; subst.
    + destruct Hfail as [Hfor|(i & err & ->)]; [left; exact Hfor|].
      right. split; [reflexivity|]. exists NormalizationError.
      split; [reflexivity|eauto].
    + left. exact Hfor.
    + destruct Hpopen as (wc & Hpopen).
      destruct (exit_check concat_failed_msg ans) as [[]|e0] eqn:Hx; [discriminate|].
      injection Hr as <-.
      apply exit_check_raise in Hx as [->|(rc & o & err & -> & _ & ->)].
      * left. right. left. eexists _, wc. rewrite Hpopen. reflexivity.
      * right. split; [reflexivity|]. exists ConcatenationError.
        split; [reflexivity|eauto].
Qed.

(** A failing concatenation on the scripted tool. *)
Lemma C9_witness :
  let w0 := Double.world0 Double.episode in
  let E := Double.env (Double.concat_fails false) in
  let e := RuntimeError (concat_failed_msg "Invalid data found") in
  foreign E None e \/
  (exn_class e = "RuntimeError" /\
   exists k, kind_of e = Some k /\
     match k with
     | ToolNotFoundError => e = RuntimeError tool_not_found_msg
     | MissingFilesError => exists m, e = RuntimeError (missing_files_msg m)
     | AnalysisError => exists i err, e = RuntimeError (analysis_failed_msg i err)
     | ParseError =>
         (exists i err, e = RuntimeError (no_json_msg i err)) \/
         (exists i, e = RuntimeError (invalid_loudness_msg i))
     | NormalizationError =>
         exists i err, e = RuntimeError (normalize_failed_msg i err)
     | ConcatenationError => exists err, e = RuntimeError (concat_failed_msg err)
     end).
Proof.
  intros w0 E e.
  apply (C9_kinds_by_message_only E None "/ep" 7 "/out" w0 e
           (snd (process_episode E "/ep" 7 "/out" None w0))).
  by_vm.
Defined.

(** C9 as written fails: a run without the tool and a run with clips
    missing fail with different kinds, yet the two exceptions have the same
    class, [RuntimeError]; a caller can tell them apart by message alone. *)
Lemma C9_counterexample :
  let w0 := Double.world0 Double.incomplete in
  exists e1 e2,
    fst (process_episode (Double.env Double.no_tool) "/ep" 1 "/out" None w0)
      = Raise e1 /\
    fst (process_episode (Double.env Double.good) "/ep" 1 "/out" None w0)
      = Raise e2 /\
    kind_of e1 = Some ToolNotFoundError /\
    kind_of e2 = Some MissingFilesError /\
    exn_class e1 = exn_class e2 /\
    exn_msg e1 <> exn_msg e2.
Proof.
  intros w0.
  exists (RuntimeError tool_not_found_msg),
         (RuntimeError (missing_files_msg ["outro.mp3"; "jingle_hinten.mp3"])).
  split; [by_vm|]. split; [by_vm|].
  repeat split; try reflexivity. discriminate.
Qed.

(* ================================================================== *)
(** * C10: what the loudness filter shows of its targets *)

Lemma all_digits_app (a b : string) :
  all_digits (a +:+ b) = all_digits a && all_digits b.
Proof.
  induction a as [|c a IH]; [reflexivity|].
  rewrite append_cons. cbn [all_digits]. rewrite IH, andb_assoc. reflexivity.
Qed.

Lemma digit_char_is_digit (n : N) : is_digit (Float.digit_char n) = true.
Proof.
  unfold Float.digit_char, pretty_N_char.
  destruct n as [|p]; [reflexivity|].
  do 4 (try destruct p as [p|p|]); reflexivity.
Qed.

Lemma digits_fixed_length (d : nat) (n : N) :
  String.length (Float.digits_fixed d n) = d.
Proof.
  revert n. induction d as [|d IH]; intros n; [reflexivity|].
  cbn [Float.digits_fixed]. rewrite length_append, IH. cbn. lia.
Qed.

Lemma digits_fixed_digits (d : nat) (n : N) :
  all_digits (Float.digits_fixed d n) = true.
Proof.
  revert n. induction d as [|d IH]; intros n; [reflexivity|].
  cbn [Float.digits_fixed]. rewrite all_digits_app, IH.
  cbn [all_digits]. rewrite digit_char_is_digit. reflexivity.
Qed.

Lemma pretty_N_go_digits (x : N) :
  forall acc, all_digits acc = true -> (acc <> "" \/ (0 < x)%N) ->
    all_digits (pretty_N_go x acc) = true /\ pretty_N_go x acc <> "".
Proof.
  induction (N.lt_wf_0 x) as [x _ IH]. intros acc Hacc Hne.
  destruct (N.eq_dec x 0%N) as [->|Hx].
  - rewrite pretty_N_go_0. split; [exact Hacc|].
    destruct Hne as [Hne|Hlt]; [exact Hne|lia].
  - rewrite pretty_N_go_step by lia. apply IH.
    + apply N.div_lt; lia.
    + cbn [all_digits]. rewrite Hacc.
      fold (Float.digit_char (x `mod` 10)%N). rewrite digit_char_is_digit.
      reflexivity.
    + left. discriminate.
Qed.

Lemma pretty_N_digits (n : N) :
  all_digits (pretty n) = true /\ pretty n <> "".
Proof.
  unfold pretty, pretty_N. destruct (decide (n = 0%N)) as [->|Hn].
  - split; [reflexivity|discriminate].
  - apply pretty_N_go_digits; [reflexivity|right; lia].
Qed.

(** A finite float prints as a numeral with exactly [d] decimals. *)
Lemma format_f_fixed_point (d : nat) (x : float) :
  Float.is_finite x = true -> fixed_point d (Float.format_f d x).
Proof.
  intros Hfin. unfold Float.format_f.
  assert (Hr : exists neg n, Float.round_to d x = Float.RFix neg n).
  { destruct x as [s|s| |s m e]; try discriminate; cbn [Float.round_to];
      [eauto|destruct e; eauto]. }
  destruct Hr as (neg & n & ->). cbn [Float.render].
  destruct (pretty_N_digits (n / 10 ^ N.of_nat d)) as [Hd Hne].
  exists (if neg then "-" else ""), (pretty (n / 10 ^ N.of_nat d)%N),
         (Float.digits_fixed d (n `mod` 10 ^ N.of_nat d)).
  split; [destruct d; reflexivity|].
  split; [destruct neg; auto|].
  split; [exact Hne|]. split; [exact Hd|].
  split; [apply digits_fixed_length|apply digits_fixed_digits].
Qed.

(** The digits of a numeral decide its number. *)
Lemma digit_char_inj (a b : N) :
  (a < 10)%N -> (b < 10)%N ->
  Float.digit_char a = Float.digit_char b -> a = b.
Proof.
  intros Ha Hb H.
  assert (Hcases : forall x : N, (x < 10)%N ->
            x = 0%N \/ x = 1%N \/ x = 2%N \/ x = 3%N \/ x = 4%N \/
            x = 5%N \/ x = 6%N \/ x = 7%N \/ x = 8%N \/ x = 9%N) by (intros; lia).
  destruct (Hcases a Ha) as [->|[->|[->|[->|[->|[->|[->|[->|[->| ->]]]]]]]]];
    destruct (Hcases b Hb) as [->|[->|[->|[->|[->|[->|[->|[->|[->| ->]]]]]]]]];
    try reflexivity; discriminate H.
Qed.

Lemma digits_fixed_inj (d : nat) (n m : N) :
  (n < 10 ^ N.of_nat d)%N -> (m < 10 ^ N.of_nat d)%N ->
  Float.digits_fixed d n = Float.digits_fixed d m -> n = m.
Proof.
  revert n m. induction d as [|d IH]; intros n m Hn Hm H.
  - cbn in Hn, Hm. lia.
  - cbn [Float.digits_fixed] in H.
    apply append_inj_suffix in H as [Hq Hr]; [|reflexivity].
    injection Hr as Hr.
    rewrite Nat2N.inj_succ, N.pow_succ_r' in Hn, Hm.
    apply digit_char_inj in Hr; try (apply N.mod_lt; lia).
    apply IH in Hq;
      try (apply N.Div0.div_lt_upper_bound; lia).
    rewrite (N.div_mod' n 10), (N.div_mod' m 10), Hq, Hr. reflexivity.
Qed.

Lemma digits_fixed_last (d : nat) (n : N) :
  exists s c, Float.digits_fixed (S d) n = s +:+ String c "" /\
              is_digit c = true.
Proof.
  cbn [Float.digits_fixed]. eexists _, _. split; [reflexivity|].
  apply digit_char_is_digit.
Qed.

(** A numeral with decimals is none of [nan], [inf] and [-inf]. *)
Lemma render_numeral_not_word (d : nat) (neg : bool) (n : N) (word pre : string)
    (c : ascii) :
  word = pre +:+ String c "" -> is_digit c = false ->
  Float.render (S d) (Float.RFix neg n) <> word.
Proof.
  intros -> Hc H. cbn [Float.render] in H.
  destruct (digits_fixed_last d (n `mod` 10 ^ N.of_nat (S d))) as (s & c' & Hs & Hc').
  rewrite Hs in H. rewrite <- !append_assoc in H.
  apply append_inj_suffix in H as [_ H]; [|reflexivity].
  injection H as ->. congruence.
Qed.

Lemma pretty_N_head (q : N) :
  exists c s, pretty q = String c s /\ is_digit c = true.
Proof.
  destruct (pretty_N_digits q) as [Hd Hne].
  destruct (pretty q) as [|c s]; [contradiction|].
  cbn [all_digits] in Hd. apply andb_true_iff in Hd as [Hc _]. eauto.
Qed.

(** Printing with decimals loses nothing of the rounded value. *)
Lemma render_inj (d : nat) (a b : Float.rounded) :
  Float.render (S d) a = Float.render (S d) b -> a = b.
Proof.
  assert (Hn : forall neg n,
            Float.render (S d) (Float.RFix neg n) <> "nan").
  { intros. apply (render_numeral_not_word d neg n "nan" "na" "n"); reflexivity. }
  assert (Hi : forall neg n,
            Float.render (S d) (Float.RFix neg n) <> "inf").
  { intros. apply (render_numeral_not_word d neg n "inf" "in" "f"); reflexivity. }
  assert (Hm : forall neg n,
            Float.render (S d) (Float.RFix neg n) <> "-inf").
  { intros. apply (render_numeral_not_word d neg n "-inf" "-in" "f"); reflexivity. }
  destruct a as [|sa|na a], b as [|sb|nb b]; intros H.
  - reflexivity.
  - destruct sb; discriminate H.
  - symmetry in H. destruct (Hn _ _ H).
  - destruct sa; discriminate H.
  - destruct sa, sb; try reflexivity; discriminate H.
  - symmetry in H. destruct sa; [destruct (Hm _ _ H)|destruct (Hi _ _ H)].
  - destruct (Hn _ _ H).
  - destruct sb; [destruct (Hm _ _ H)|destruct (Hi _ _ H)].
  - cbn [Float.render] in H.
    set (p := (10 ^ N.of_nat (S d))%N) in *.
    assert (Hp : (0 < p)%N) by (unfold p; apply N.neq_0_lt_0, N.pow_nonzero; lia).
    rewrite <- !append_assoc in H.
    apply append_inj_suffix in H as [Hhead Htail];
      [|rewrite !digits_fixed_length; reflexivity].
    apply append_inj_suffix in Hhead as [Hhead _]; [|reflexivity].
    apply digits_fixed_inj in Htail; try (apply N.mod_lt; lia).
    assert (Hq : na = nb /\ (a / p = b / p)%N).
    { destruct (pretty_N_head (a / p)) as (ca & ra & Ha & Hca).
      destruct (pretty_N_head (b / p)) as (cb & rb & Hb & Hcb).
      destruct na, nb.
      - apply append_inj_prefix in Hhead.
        split; [reflexivity|]. apply pretty_N_inj, Hhead.
      - exfalso. rewrite Hb in Hhead. injection Hhead as <- _. discriminate.
      - exfalso. rewrite Ha in Hhead. injection Hhead as -> _. discriminate.
      - split; [reflexivity|]. apply pretty_N_inj, Hhead. }
    destruct Hq as [-> Hq].
    rewrite (N.div_mod' a p), (N.div_mod' b p), Hq, Htail. reflexivity.
Qed.

Lemma filter_inj (t t' tp lra : float) :
  loudnorm_filter t' tp lra = loudnorm_filter t tp lra ->
  Float.round_to 2 t' = Float.round_to 2 t.
Proof.
  unfold loudnorm_filter. intros H.
  apply append_inj_prefix in H.
  apply append_inj_suffix in H as [H _]; [|reflexivity].
  apply (render_inj 1), H.
Qed.

(** C10, as the code has it.  The process [normalize_to_target_i] starts
    carries, after [-af], the filter [loudnorm=I=<t>:TP=<tp>:LRA=<lra>].
    A finite target loudness [t] is written with exactly two decimals, a
    finite true-peak ceiling [tp] with one and a finite loudness range
    [lra] with none (an optional sign, digits, and that many digits after
    the point); a value that is not finite is written [inf], [-inf] or
    [nan].  Two targets give the same command exactly when they are the
    same once rounded to two decimals, the sign of a zero result
    included, although the call itself receives the float as it is. *)
Theorem C10_filter_shows_rounded_targets (E : Env)
    (ffmpeg infile outfile : string) (t tp lra : float) (sr ch : Z)
    (w : World) :
  let cmd := normalize_cmd ffmpeg infile outfile t tp lra sr ch in
  let w' := snd (normalize_to_target_i E ffmpeg infile outfile t tp lra sr ch w) in
  commands (events_since w w') = [cmd] /\
  normalize_calls (events_since w w') = [(infile, outfile, t)] /\
  nth 7 cmd "" = "-af" /\
  nth 8 cmd "" =
    "loudnorm=I=" +:+ Float.format_f 2 t +:+
    ":TP=" +:+ Float.format_f 1 tp +:+
    ":LRA=" +:+ Float.format_f 0 lra /\
  (Float.is_finite t = true -> fixed_point 2 (Float.format_f 2 t)) /\
  (Float.is_finite tp = true -> fixed_point 1 (Float.format_f 1 tp)) /\
  (Float.is_finite lra = true -> fixed_point 0 (Float.format_f 0 lra)) /\
  (Float.is_finite t = false -> Float.format_f 2 t = nonfinite_text t) /\
  (forall t', normalize_cmd ffmpeg infile outfile t' tp lra sr ch = cmd <->
              Float.round_to 2 t' = Float.round_to 2 t).
Proof.
  intros cmd w'.
  assert (Hnew : events_since w w' =
            [EvNormalize ffmpeg infile outfile t tp lra sr ch;
             EvRun cmd
               (fst (popen E cmd
                  (logged w (EvNormalize ffmpeg infile outfile t tp lra sr ch))))
               (snd (popen E cmd
                  (logged w (EvNormalize ffmpeg infile outfile t tp lra sr ch))))]).
  { apply events_since_app. unfold w'. rewrite normalize_eq. cbn [snd].
    rewrite trace_after_run. cbn [logged trace]. rewrite <- app_assoc.
    reflexivity. }
  rewrite Hnew.
  split; [reflexivity|]. split; [reflexivity|].
  split; [reflexivity|]. split; [reflexivity|].
  split; [apply format_f_fixed_point|].
  split; [apply format_f_fixed_point|].
  split; [apply format_f_fixed_point|].
  split.
  { intros Hfin. destruct t as [s|[|]| |s m e]; try discriminate; reflexivity. }
  intros t'. split.
  - intros Hcmd. apply (f_equal (fun c => nth 8 c "")) in Hcmd.
    apply (filter_inj t t' tp lra). exact Hcmd.
  - intros Hround. unfold cmd, normalize_cmd, loudnorm_filter, Float.format_f.
    rewrite Hround. reflexivity.
Qed.

(** Two targets, [-23.456] and [-23.46], that round alike. *)
Lemma C10_witness :
  let t := S754_finite true 6602277053725147 (-48) in
  let t' := S754_finite true 6603402953631990 (-48) in
  let cmd_of target :=
    normalize_cmd "/usr/bin/ffmpeg" "/ep/intro.mp3" "/tmp/intro_norm.wav"
                  target default_true_peak default_lra 48000 2 in
  t' <> t /\
  cmd_of t' = cmd_of t /\
  nth 8 (cmd_of t) "" = "loudnorm=I=-23.46:TP=-1.5:LRA=11" /\
  fixed_point 2 (Float.format_f 2 t) /\
  fixed_point 1 (Float.format_f 1 default_true_peak) /\
  fixed_point 0 (Float.format_f 0 default_lra).
Proof.
  intros t t' cmd_of.
  destruct (C10_filter_shows_rounded_targets (Double.env Double.good)
              "/usr/bin/ffmpeg" "/ep/intro.mp3" "/tmp/intro_norm.wav"
              t default_true_peak default_lra 48000 2
              (Double.world0 Double.episode))
    as (_ & _ & _ & Hf & H2 & H1 & H0 & _ & Heq).
  split; [discriminate|].
  split; [apply Heq; by_vm|].
  split; [by_vm|].
  split; [apply H2; reflexivity|].
  split; [apply H1; reflexivity|apply H0; reflexivity].
Defined.

Lemma not_fixed_point_inf : ~ fixed_point 2 "-inf".
Proof.
  intros (sign & int & frac & Heq & _ & _ & _ & Hlen & Hdig).
  change "-inf" with ("-i" +:+ "nf") in Heq.
  rewrite <- !append_assoc in Heq.
  apply append_inj_suffix in Heq as [_ Heq]; [|symmetry; exact Hlen].
  subst frac. discriminate Hdig.
Qed.

(** C10 as written fails twice.  A target that is not finite is not
    written with two decimals: for the loudness [-inf], which the
    analysis of a silent clip reports, the filter reads [I=-inf].  And
    two targets that agree as numbers once rounded to two decimals can
    give different commands: [1/1024] and [-1/1024] both round to zero,
    and are written [0.00] and [-0.00]. *)
Lemma C10_counterexample :
  let cmd_of target :=
    normalize_cmd "/usr/bin/ffmpeg" "/ep/intro.mp3" "/tmp/intro_norm.wav"
                  target default_true_peak default_lra 48000 2 in
  let t := Float.of_scaled 1 (-10) in
  let t' := Float.of_scaled (-1) (-10) in
  nth 8 (cmd_of (S754_infinity true)) "" = "loudnorm=I=-inf:TP=-1.5:LRA=11" /\
  ~ fixed_point 2 (Float.format_f 2 (S754_infinity true)) /\
  rounded_number (Float.round_to 2 t) = Some 0 /\
  rounded_number (Float.round_to 2 t') = Some 0 /\
  nth 8 (cmd_of t) "" = "loudnorm=I=0.00:TP=-1.5:LRA=11" /\
  nth 8 (cmd_of t') "" = "loudnorm=I=-0.00:TP=-1.5:LRA=11" /\
  cmd_of t <> cmd_of t'.
Proof.
  intros cmd_of t t'. subst cmd_of t t'.
  split; [by_vm|]. split; [exact not_fixed_point_inf|].
  split; [by_vm|]. split; [by_vm|].
  split; [by_vm|]. split; [by_vm|].
  intros H. apply (f_equal (fun c => nth 8 c "")) in H.
  vm_compute in H. discriminate H.
Qed.

(* ================================================================== *)
(** * More on the brace pattern *)

(** Text after an opening brace that holds a closing brace ends a match. *)
Lemma findall_inside_nonempty (s acc : string) :
  Str.has_char "}" s = true -> findall_scan (Some acc) s <> [].
Proof.
  revert acc. induction s as [|c s IH]; intros acc H; [discriminate|].
  cbn [findall_scan]. destruct (Ascii.eqb c "}") eqn:Hc; [discriminate|].
  apply IH. cbn [Str.has_char] in H. rewrite Hc in H. exact H.
Qed.

Lemma has_char_app (c : ascii) (a b : string) :
  Str.has_char c (a +:+ b) = Str.has_char c a || Str.has_char c b.
Proof.
  induction a as [|x a IH]; [reflexivity|].
  rewrite append_cons. cbn [Str.has_char]. rewrite IH, orb_assoc. reflexivity.
Qed.

Lemma findall_outside_nonempty (a t : string) :
  Str.has_char "}" t = true ->
  findall_scan None (a +:+ String "{" t) <> [].
Proof.
  intros Ht. induction a as [|c a IH].
  - cbn. apply findall_inside_nonempty, Ht.
  - rewrite append_cons. cbn [findall_scan].
    destruct (Ascii.eqb c "{"); [|exact IH].
    apply findall_inside_nonempty.
    rewrite has_char_app. cbn [Str.has_char]. rewrite Ht.
    rewrite !orb_true_r. reflexivity.
Qed.

(** X1.  The pattern finds a match exactly when some opening brace of the
    text is followed, anywhere later, by a closing brace. *)
Theorem findall_braces_nonempty_iff (s : string) :
  findall_braces s <> [] <->
  exists a b c, s = a +:+ "{" +:+ b +:+ "}" +:+ c.
Proof.
  split.
  - intros Hne. destruct (findall_step s) as [Hnil|(pre & body & rest & Hs & _)].
    + contradiction.
    + exists pre, body, rest. exact Hs.
  - intros (a & b & c & ->). apply findall_outside_nonempty.
    rewrite has_char_app. cbn. apply orb_true_r.
Qed.

(** X2.  Every match is a piece of the text that starts with an opening
    brace and ends at the first closing brace after it: no match holds a
    closing brace inside, so a JSON object with an object nested in it is
    never matched whole. *)
Theorem findall_braces_matches (s : string) :
  Forall (fun m =>
            Str.contains m s = true /\
            exists body, m = "{" +:+ body +:+ "}" /\
                         Str.has_char "}" body = false)
         (findall_braces s).
Proof.
  remember (String.length s) as n eqn:Hn. revert s Hn.
  induction n as [n IH] using lt_wf_ind. intros s Hn.
  destruct (findall_step s) as [Hnil|(pre & body & rest & Hs & Hp & Hb & Heq)].
  { rewrite Hnil. constructor. }
  rewrite Heq. constructor.
  - split; [|eauto].
    rewrite Hs. apply contains_app_r.
    replace ("{" +:+ body +:+ String "}" rest)
      with (("{" +:+ body +:+ "}") +:+ rest).
    + apply contains_app_l, contains_refl.
    + rewrite !append_assoc. reflexivity.
  - assert (Hlen : (String.length rest < n)%nat).
    { subst n s. rewrite !length_append. cbn. lia. }
    specialize (IH _ Hlen rest eq_refl).
    eapply Forall_impl; [exact IH|].
    intros m [Hc Hshape]. split; [|exact Hshape].
    rewrite Hs. apply contains_app_r.
    change ("{" +:+ body +:+ String "}" rest)
      with (String "{" (body +:+ String "}" rest)).
    replace (String "{" (body +:+ String "}" rest))
      with (("{" +:+ body +:+ "}") +:+ rest).
    + apply contains_app_r, Hc.
    + rewrite !append_assoc. reflexivity.
Qed.

(* ================================================================== *)
(** * Paths with a common tail *)

(** [os.path.join] of a relative name puts it after the directory. *)
Lemma join_relative (a b : string) :
  Str.startswith "/" b = false ->
  exists pre, os_path.join a b = pre +:+ b /\
              forall b', Str.startswith "/" b' = false ->
                         os_path.join a b' = pre +:+ b'.
Proof.
  intros Hb. unfold os_path.join.
  destruct (Str.eqb a "" || Str.endswith_char "/" a).
  - exists a. rewrite Hb. split; [reflexivity|]. intros b' ->. reflexivity.
  - exists (a +:+ "/"). rewrite Hb, <- append_assoc. split; [reflexivity|].
    intros b' ->. rewrite <- append_assoc. reflexivity.
Qed.

(* ================================================================== *)
(** * The concatenation command *)

Lemma inputs_of_flat_map (ins tail : list string) :
  inputs_of tail = [] ->
  inputs_of (flat_map (fun f => ["-i"; f]) ins ++ tail) = ins.
Proof.
  intros Ht. induction ins as [|f ins IH]; [exact Ht|].
  cbn [flat_map app inputs_of]. change (Str.eqb "-i" "-i") with true.
  cbn iota. rewrite IH. reflexivity.
Qed.

Lemma length_flat_map_inputs (ins : list string) :
  List.length (flat_map (fun f => ["-i"; f]) ins) = (2 * List.length ins)%nat.
Proof. induction ins as [|f ins IH]; cbn in *; lia. Qed.

Lemma stream_label_inj (i j : nat) : stream_label i = stream_label j -> i = j.
Proof.
  unfold stream_label. intros H.
  assert (Hp : pretty i +:+ ":a]" = pretty j +:+ ":a]") by (injection H; auto).
  apply append_inj_suffix in Hp as [Hp _]; [|reflexivity].
  apply pretty_nat_inj, Hp.
Qed.

(** X3.  The command of the concatenation names the input files with one
    [-i] each, in the order given and with repeated files repeated; its
    filter graph has one stream label per input, each once, and the count
    [n] of the [concat] filter is the number of inputs.  An empty list of
    inputs is not refused: the command then has no [-i] and [n=0]. *)
Theorem concat_cmd_inputs (ffmpeg : string) (ins : list string)
    (outp : string) (q : Z) :
  let cmd := concat_cmd ffmpeg ins outp q in
  let n := List.length ins in
  take 4 cmd = [ffmpeg; "-hide_banner"; "-nostdin"; "-y"] /\
  inputs_of (drop 4 cmd) = ins /\
  drop (4 + 2 * n) cmd =
    ["-filter_complex";
     Str.concat (map stream_label (seq 0 n)) +:+
       "concat=n=" +:+ pretty n +:+ ":v=0:a=1[out]";
     "-map"; "[out]"; "-c:a"; "libmp3lame"; "-q:a"; pretty q; outp] /\
  NoDup (map stream_label (seq 0 n)) /\
  List.length (map stream_label (seq 0 n)) = n.
Proof.
  cbv zeta. unfold concat_cmd. repeat split.
  - cbn [app drop]. apply inputs_of_flat_map. reflexivity.
  - change (?a :: ?b :: ?c :: ?d :: ?l ++ ?t) with ([a; b; c; d] ++ (l ++ t)).
    rewrite <- (length_flat_map_inputs ins).
    change 4%nat with (List.length [ffmpeg; "-hide_banner"; "-nostdin"; "-y"]).
    rewrite app_assoc, <- length_app. rewrite drop_app_length. reflexivity.
  - apply NoDup_fmap_2; [intros i j; apply stream_label_inj|].
    apply NoDup_ListNoDup, seq_NoDup.
  - rewrite length_map, length_seq. reflexivity.
Qed.

(* ================================================================== *)
(** * The files of a run *)

Lemma roles_relative (r x : string) :
  In r roles -> Str.startswith "/" (r +:+ x) = false.
Proof. intros H. unfold roles in H. split_in H; subst r; reflexivity. Qed.

Lemma clip_set_roles (folder : string) (item : string * string) :
  In item (clip_set folder) ->
  In (fst item) roles /\
  snd item = os_path.join folder (fst item +:+ ".mp3").
Proof.
  intros H. unfold clip_set in H.
  split_in H; subst item; (split; [|reflexivity]);
    apply (nth_error_In _ 0) + apply (nth_error_In _ 1)
    + apply (nth_error_In _ 2) + apply (nth_error_In _ 3)
    + apply (nth_error_In _ 4) + apply (nth_error_In _ 5); reflexivity.
Qed.

Lemma all_digits_last (s : string) :
  all_digits s = true -> s <> "" ->
  exists s' c, s = s' +:+ String c "" /\ is_digit c = true.
Proof.
  induction s as [|a s IH]; intros Hd Hne; [contradiction|].
  cbn [all_digits] in Hd. apply andb_true_iff in Hd as [Ha Hs].
  destruct s as [|b s].
  - exists "", a. split; [reflexivity|exact Ha].
  - destruct (IH Hs) as (s' & c & Heq & Hc); [discriminate|].
    exists (String a s'), c. rewrite append_cons, <- Heq. auto.
Qed.

Lemma pretty_Z_last (z : Z) :
  exists s c, pretty z = s +:+ String c "" /\ is_digit c = true.
Proof.
  destruct z as [|p|p].
  - exists "", "0"%char. split; reflexivity.
  - destruct (pretty_N_digits (Npos p)) as [Hd Hne].
    apply all_digits_last; assumption.
  - destruct (pretty_N_digits (Npos p)) as [Hd Hne].
    destruct (all_digits_last _ Hd Hne) as (s & c & Heq & Hc).
    exists ("-" +:+ s), c. split; [|exact Hc].
    change (pretty (Zneg p)) with ("-" +:+ pretty (Npos p)).
    rewrite Heq, append_assoc. reflexivity.
Qed.

Lemma roles_last (r : string) :
  In r roles -> exists r' c, r = r' +:+ String c "" /\ is_digit c = false.
Proof.
  intros H. unfold roles in H. split_in H; subst r.
  - exists "intr", "o"%char. split; reflexivity.
  - exists "vora", "b"%char. split; reflexivity.
  - exists "kapite", "l"%char. split; reflexivity.
  - exists "outr", "o"%char. split; reflexivity.
  - exists "jingle_vorn", "e"%char. split; reflexivity.
  - exists "jingle_hinte", "n"%char. split; reflexivity.
Qed.

(** X4.  The six files the normalizations of a run write into the
    workspace have six different paths, and none of these paths is the
    path of one of the six clips of the episode, whatever the workspace
    and the episode folder are: no normalization writes over the output
    of another or over a clip. *)
Theorem normalized_files_apart (td folder : string) :
  NoDup (map (fun item => norm_path td (fst item)) (clip_set folder)) /\
  forall r item, In r roles -> In item (clip_set folder) ->
                 norm_path td r <> snd item.
Proof.
  split.
  - destruct (join_relative td ("intro" +:+ "_norm.wav") eq_refl)
      as (pre & _ & Hpre).
    assert (Heq : map (fun item => norm_path td (fst item)) (clip_set folder)
                  = map (fun r => pre +:+ r) (map (fun r => r +:+ "_norm.wav") roles)).
    { unfold norm_path, clip_set, roles. cbn [map fst].
      rewrite !Hpre by reflexivity. reflexivity. }
    rewrite Heq. apply NoDup_fmap_2.
    + intros x y. apply append_inj_prefix.
    + apply NoDup_ListNoDup. unfold roles. cbn [map].
      repeat (constructor; [cbn; intuition discriminate|]). constructor.
  - intros r item Hr Hitem Heq.
    apply clip_set_roles in Hitem as [Hrole Hsnd]. rewrite Hsnd in Heq.
    unfold norm_path in Heq.
    destruct (join_relative td (r +:+ "_norm.wav") (roles_relative _ _ Hr))
      as (pre & Hj & _).
    destruct (join_relative folder (fst item +:+ ".mp3")
                (roles_relative _ _ Hrole)) as (pre' & Hj' & _).
    rewrite Hj, Hj' in Heq.
    change "_norm.wav" with ("_norm" +:+ ".wav") in Heq.
    rewrite <- !append_assoc in Heq.
    apply append_inj_suffix in Heq as [_ Heq]; [discriminate|reflexivity].
Qed.

(** X5.  The path of the output file is never the path of one of the six
    clips, not even when the output folder is the episode folder itself,
    and never the path of a normalized file: the concatenation, which is
    told to overwrite its target, cannot overwrite a clip. *)
Theorem output_file_apart (folder out : string) (ch : Z) (td : string) :
  (forall item, In item (clip_set folder) ->
                output_path_of out ch <> snd item) /\
  (forall r, In r roles -> output_path_of out ch <> norm_path td r).
Proof.
  unfold output_path_of.
  destruct (join_relative out ("Kapitel " +:+ pretty ch +:+ ".mp3") eq_refl)
    as (pre & Hout & _).
  rewrite Hout.
  split.
  - intros item Hitem Heq.
    apply clip_set_roles in Hitem as [Hrole Hsnd]. rewrite Hsnd in Heq.
    destruct (join_relative folder (fst item +:+ ".mp3")
                (roles_relative _ _ Hrole)) as (pre' & Hj' & _).
    rewrite Hj' in Heq.
    destruct (pretty_Z_last ch) as (s & c & Hp & Hc).
    destruct (roles_last _ Hrole) as (r' & l & Hr' & Hl).
    rewrite Hp, Hr' in Heq.
    rewrite <- !append_assoc in Heq.
    apply append_inj_suffix in Heq as [Heq _]; [|reflexivity].
    apply append_inj_suffix in Heq as [_ Heq]; [|reflexivity].
    congruence.
  - intros r Hr Heq. unfold norm_path in Heq.
    destruct (join_relative td (r +:+ "_norm.wav") (roles_relative _ _ Hr))
      as (pre' & Hj' & _).
    rewrite Hj' in Heq.
    change "_norm.wav" with ("_norm" +:+ ".wav") in Heq.
    rewrite <- !append_assoc in Heq.
    apply append_inj_suffix in Heq as [_ Heq]; [discriminate|reflexivity].
Qed.

(* ================================================================== *)
(** * The log of a run, step by step *)

Section Logs.

Variable E : Env.

Lemma normalize_all_loop (cb : option callback) (ffmpeg td : string)
    (b : float) (items : list (string * string)) :
  forall (nm : list (string * string)) (w : World)
         (r : result (list (string * string))) (w' : World),
  normalize_all E cb ffmpeg td b items nm w = (r, w') ->
  exists evs,
    trace w' = trace w ++ evs /\
    loop_run cb ffmpeg td b items evs
      (match r with Ok _ => None | Raise e => Some e end) /\
    (forall nm', r = Ok nm' -> nm' = normalized_after td items nm).
Proof.
  induction items as [|[name path] rest IH]; intros nm w r w' H.
  - cbn in H. injection H as <- <-. exists []. rewrite app_nil_r.
    split; [reflexivity|]. split; [constructor|]. intros nm' [= <-]. reflexivity.
  - cbn [normalize_all] in H. unfold bind at 1 in H.
    fold (normalize_msg name) in H.
    destruct (status cb _ w) as [[[]|e] w1] eqn:Hs;
      pose proof Hs as Hs'; apply status_inv in Hs' as (Hfs & Htr & Hr).
    + unfold bind at 1 in H. rewrite normalize_eq in H.
      fold (norm_path td name) in H.
      set (ev := EvNormalize _ _ _ _ _ _ _ _) in H.
      set (cmd := normalize_cmd _ _ _ _ _ _ _ _) in H.
      destruct (exit_check _ _) as [[]|e] eqn:Hx.
      * apply IH in H as (evs & Htr' & Hloop & Hnm).
        rewrite trace_after_run in Htr'. cbn [logged trace] in Htr'.
        apply exit_check_ok in Hx as (o & err & Hx).
        exists (turn_events cb ffmpeg td b (name, path) (Ok (0, o, err))
                  (snd (popen E cmd (logged w1 ev))) ++ evs).
        split.
        { rewrite Htr', Htr, Hx. unfold turn_events. cbn [fst snd].
          rewrite <- !app_assoc. reflexivity. }
        split; [apply loop_turn, Hloop|].
        intros nm' Hr'. apply Hnm in Hr'. exact Hr'.
      * injection H as <- <-.
        exists (turn_events cb ffmpeg td b (name, path)
                  (fst (popen E cmd (logged w1 ev)))
                  (snd (popen E cmd (logged w1 ev)))).
        rewrite trace_after_run. cbn [logged trace].
        split.
        { rewrite Htr. unfold turn_events. cbn [fst snd].
          rewrite <- !app_assoc. reflexivity. }
        split; [apply loop_process_failed, Hx|]. discriminate.
    + injection H as <- <-. destruct Hr as (f & -> & Hf).
      exists [EvStatus (normalize_msg name)].
      split; [exact Htr|].
      split; [eapply (loop_callback_raised _ _ _ _ (name, path)); eauto|].
      discriminate.
Qed.

Lemma workspace_block_end (cb : option callback) (ffmpeg folder : string)
    (b : float) (out : string) (ch : Z) (td : string) (w : World)
    (r : result string) (w' : World) :
  workspace_block E cb ffmpeg (clip_set folder) b out ch td w = (r, w') ->
  exists evs stop post,
    trace w' = trace w ++ evs ++ post /\
    loop_run cb ffmpeg td b (clip_set folder) evs stop /\
    block_end cb ffmpeg td out ch stop post r.
Proof.
  unfold workspace_block. unfold bind at 1 2 3 4 5 6. unfold dict_getitem.
  cbn [clip_set dict_lookup Str.eqb String.eqb Ascii.eqb Bool.eqb].
  unfold ret at 1 2 3 4 5 6. fold (clip_set folder).
  unfold bind at 1.
  destruct (normalize_all _ _ _ _ _ _ _ _) as [[nm|e] w1] eqn:Hn;
    apply normalize_all_loop in Hn as (evs & Htr & Hloop & Hnm).
  2:{ intros [= <- <-]. exists evs, (Some e), [].
      rewrite app_nil_r. repeat split; [exact Htr|exact Hloop|constructor]. }
  rewrite (Hnm nm eq_refl).
  unfold bind at 1. rewrite resolve_order_eq.
  unfold bind at 1.
  destruct (status cb _ w1) as [[[]|e] w2] eqn:Hs;
    pose proof Hs as Hs'; apply status_inv in Hs' as (Hfs & Htr2 & Hr).
  2:{ intros [= <- <-]. destruct Hr as (f & -> & Hf).
      exists evs, None, [EvStatus concat_msg].
      split; [rewrite Htr2, Htr, <- app_assoc; reflexivity|].
      split; [exact Hloop|]. eapply end_callback_raised; eauto. }
  unfold bind at 1. rewrite concatenate_eq.
  fold (output_path_of out ch).
  set (ev := EvConcat _ _ _ _). set (cmd := concat_cmd _ _ _ _).
  intros H.
  assert (Hw : w' = after_run E cmd (logged w2 ev)).
  { destruct (exit_check _ _) as [[]|?]; injection H as <- <-; reflexivity. }
  exists evs, None,
    (concat_events cb ffmpeg td out ch (fst (popen E cmd (logged w2 ev)))
                   (snd (popen E cmd (logged w2 ev)))).
  split.
  { rewrite Hw, trace_after_run. cbn [logged trace].
    rewrite Htr2, Htr. unfold concat_events. rewrite <- !app_assoc.
    reflexivity. }
  split; [exact Hloop|].
  destruct (exit_check _ _) as [[]|e] eqn:Hx; injection H as <- _.
  - apply exit_check_ok in Hx as (o & err & ->). apply end_returned.
  - apply end_concat_failed, Hx.
Qed.

Lemma read_stream_ok (infile : string)
    (answer : result (Z * string * string)) (b : float) :
  read_stream E infile answer = Ok b ->
  exists out err, answer = Ok (0, out, err).
Proof.
  destruct answer as [[[rc out] err]|e]; cbn; [|discriminate].
  destruct (rc =? 0) eqn:Hrc; [|discriminate].
  apply Z.eqb_eq in Hrc. subst. eauto.
Qed.

Lemma process_episode_log (cb : option callback) (folder : string) (ch : Z)
    (out : string) (w : World) (r : result string) (w' : World) :
  process_episode E folder ch out cb w = (r, w') ->
  run_log E cb folder ch out w r (events_since w w').
Proof.
  rewrite process_episode_eq.
  assert (Hnil : forall w0 : World, events_since w0 w0 = []).
  { intros w0. unfold events_since. apply drop_all. }
  destruct (resolve_tool E (tool_name E) w) as [ffmpeg|] eqn:Htool.
  2:{ intros [= <- <-]. rewrite Hnil. apply log_tool_not_found.
      rewrite Htool. exact I. }
  destruct ffmpeg as [|c ff].
  { intros [= <- <-]. rewrite Hnil. apply log_tool_not_found.
    rewrite Htool. exact I. }
  set (ffmpeg := String c ff) in *.
  destruct (missing_in w (clip_set folder)) as [|m ms] eqn:Hmiss.
  2:{ intros [= <- <-]. rewrite Hnil, <- Hmiss.
      eapply log_missing_files; eauto. rewrite Hmiss. discriminate. }
  destruct (status cb baseline_msg w) as [[[]|e] w1] eqn:Hs;
    pose proof Hs as Hs'; apply status_inv in Hs' as (Hfs & Htr & Hr).
  2:{ intros [= <- <-]. destruct Hr as (f & -> & Hf).
      rewrite (events_since_app _ _ _ Htr).
      eapply log_callback_raised; eauto. }
  destruct (measure_integrated_loudness _ _ _ _) as [rm w2] eqn:Hm.
  rewrite measure_eq in Hm.
  fold (baseline_clip folder) in Hm.
  set (jv := baseline_clip folder) in *.
  set (ev := EvMeasure ffmpeg jv) in *.
  set (cmd := measure_cmd ffmpeg jv) in *.
  injection Hm as Hrm Hw2.
  assert (Htr2 : trace w2 = trace w ++
            analysis_events cb ffmpeg folder
              (fst (popen E cmd (logged w1 ev)))
              (snd (popen E cmd (logged w1 ev)))).
  { rewrite <- Hw2, trace_after_run. cbn [logged trace].
    rewrite Htr. unfold analysis_events. rewrite <- !app_assoc. reflexivity. }
  destruct rm as [b|e].
  2:{ intros [= <- <-]. rewrite (events_since_app _ _ _ Htr2).
      eapply log_analysis_failed; eauto. }
  destruct (read_stream_ok _ _ _ Hrm) as (out_a & err_a & Hans).
  rewrite Hans in Htr2, Hrm.
  unfold with_TemporaryDirectory.
  destruct (mkdtemp E "podcast_" w2) as [td|e] eqn:Htd.
  2:{ intros [= <- <-]. rewrite (events_since_app _ _ _ Htr2).
      eapply log_mkdtemp_failed; eauto. }
  destruct (workspace_block _ _ _ _ _ _ _ _ _) as [rb w3] eqn:Hb.
  intros [= <- <-].
  apply workspace_block_end in Hb as (evs & stop & post & Htr3 & Hloop & Hend).
  cbn [trace] in Htr3.
  assert (Hnew : events_since w (rmtree td w3) =
    analysis_events cb ffmpeg folder (Ok (0, out_a, err_a))
      (snd (popen E cmd (logged w1 ev))) ++
    [EvMkdtemp td] ++ evs ++ post ++ [EvRmtree td]).
  { apply events_since_app. unfold rmtree. cbn [trace].
    rewrite Htr3, Htr2. rewrite <- !app_assoc. reflexivity. }
  rewrite Hnew. eapply log_workspace; eauto.
Qed.

End Logs.

(* ================================================================== *)
(** * What the loop leaves in the log *)

Lemma statuses_status_events (cb : option callback) (msg : string) :
  statuses (status_events cb msg) = match cb with
                                    | None => []
                                    | Some _ => [msg]
                                    end.
Proof. destruct cb; reflexivity. Qed.

Lemma answers_status_events (cb : option callback) (msg : string) :
  answers (status_events cb msg) = [].
Proof. destruct cb; reflexivity. Qed.

Lemma loop_run_norm_events (cb : option callback) (ffmpeg td : string)
    (b : float) (items : list (string * string)) (evs : list Event)
    (stop : option exn) :
  loop_run cb ffmpeg td b items evs stop -> Forall (norm_event ffmpeg b) evs.
Proof.
  assert (Hturn : forall item a g,
            Forall (norm_event ffmpeg b) (turn_events cb ffmpeg td b item a g)).
  { intros item a g. unfold turn_events. apply Forall_app. split.
    - destruct cb; repeat constructor.
    - constructor; [cbn; tauto|]. constructor; [|constructor].
      cbn. unfold clip_cmd. eauto. }
  induction 1 as [|item rest o err g evs stop _ IH|item rest a g e _
                  |item rest f w0 e _ _].
  - constructor.
  - apply Forall_app. split; [apply Hturn|exact IH].
  - apply Hturn.
  - repeat constructor.
Qed.

(** A loop that was not stopped ran one process per clip, in order, and
    each exited with status 0. *)
Lemma loop_run_done (cb : option callback) (ffmpeg td : string) (b : float)
    (items : list (string * string)) (evs : list Event) :
  loop_run cb ffmpeg td b items evs None ->
  commands evs = map (clip_cmd ffmpeg td b) items /\
  Forall (fun a => exists o e, a = Ok (0, o, e)) (answers evs) /\
  statuses evs =
    flat_map (fun item => statuses (status_events cb (normalize_msg (fst item))))
             items.
Proof.
  remember None as stop eqn:Hstop. intros H.
  induction H as [|item rest o err g evs stop _ IH|item rest a g e _
                  |item rest f w0 e _ _]; try discriminate.
  - repeat split; constructor.
  - destruct (IH Hstop) as (Hc & Ha & Hs).
    destruct (status_events_silent cb (normalize_msg (fst item)))
      as (_ & _ & _ & Hs4).
    unfold turn_events. repeat split.
    + unfold commands in *. rewrite !flat_map_app, Hs4, Hc. reflexivity.
    + unfold answers in *. rewrite !flat_map_app.
      fold (answers (status_events cb (normalize_msg (fst item)))).
      rewrite answers_status_events. cbn [flat_map app].
      constructor; [eauto|exact Ha].
    + unfold statuses in *. rewrite !flat_map_app, Hs. cbn [flat_map app].
      rewrite <- app_assoc. reflexivity.
Qed.

(** The notifications of a loop, stopped or not, are an initial part of
    those of a full loop. *)
Lemma loop_run_statuses (cb : option callback) (ffmpeg td : string)
    (b : float) (items : list (string * string)) (evs : list Event)
    (stop : option exn) :
  loop_run cb ffmpeg td b items evs stop ->
  exists rest,
    flat_map (fun item => statuses (status_events cb (normalize_msg (fst item))))
             items = statuses evs ++ rest.
Proof.
  induction 1 as [|item rest o err g evs stop _ IH|item rest a g e _
                  |item rest f w0 e Hcb _].
  - exists []. reflexivity.
  - destruct IH as (rest' & IH). exists rest'.
    unfold turn_events, statuses in *. rewrite !flat_map_app.
    cbn [flat_map app]. rewrite IH, <- !app_assoc. reflexivity.
  - exists (flat_map (fun item => statuses (status_events cb
                                 (normalize_msg (fst item)))) rest).
    unfold turn_events, statuses. rewrite !flat_map_app.
    cbn [flat_map app]. rewrite app_nil_r. reflexivity.
  - subst cb. eexists. cbn. reflexivity.
Qed.

(** A process of the loop that exits with a non-zero status is the last
    event of the loop and decides how it ends. *)
Lemma loop_run_failure (cb : option callback) (ffmpeg td : string) (b : float)
    (items : list (string * string)) (evs : list Event) (stop : option exn)
    (cmd : list string) (rc : Z) (o err : string) (g : list string) :
  loop_run cb ffmpeg td b items evs stop ->
  In (EvRun cmd (Ok (rc, o, err)) g) evs -> rc <> 0 ->
  exists done item rest pre,
    items = done ++ item :: rest /\
    cmd = clip_cmd ffmpeg td b item /\
    stop = Some (RuntimeError (normalize_failed_msg (snd item) err)) /\
    evs = pre ++ [EvRun cmd (Ok (rc, o, err)) g] /\
    normalize_calls evs = calls_for td b (done ++ [item]).
Proof.
  intros H Hin Hrc.
  assert (Hst : forall m, normalize_calls (status_events cb m) = []).
  { intros m. apply status_events_silent. }
  induction H as [|item rest o' err' g' evs stop _ IH|item rest a g' e Hx
                  |item rest f w0 e _ _].
  - destruct Hin.
  - unfold turn_events in Hin. split_in Hin;
      try (apply In_status_events in Hin; discriminate Hin);
      try discriminate Hin.
    + injection Hin as _ Hz _ _ _. congruence.
    + destruct (IH Hin) as (done & it & rest' & pre & -> & Hc & Hs & He & Hn).
      exists (item :: done), it, rest',
        (turn_events cb ffmpeg td b item (Ok (0, o', err')) g' ++ pre).
      repeat split; try assumption.
      * rewrite He at 1. rewrite <- app_assoc. reflexivity.
      * unfold turn_events, normalize_calls in *.
        rewrite !flat_map_app. fold (normalize_calls (status_events cb (normalize_msg (fst item)))).
        rewrite Hst, Hn. reflexivity.
  - unfold turn_events in Hin. split_in Hin;
      try (apply In_status_events in Hin; discriminate Hin);
      try discriminate Hin.
    injection Hin as <- -> <-.
    exists [], item, rest,
      (status_events cb (normalize_msg (fst item)) ++
       [EvNormalize ffmpeg (snd item) (norm_path td (fst item)) b
          default_true_peak default_lra default_sample_rate default_channels]).
    cbn [exit_check] in Hx.
    destruct (rc =? 0) eqn:Hz; [apply Z.eqb_eq in Hz; contradiction|].
    injection Hx as <-.
    repeat split.
    + unfold turn_events. rewrite <- app_assoc. reflexivity.
    + unfold turn_events, normalize_calls. rewrite !flat_map_app.
      fold (normalize_calls (status_events cb (normalize_msg (fst item)))).
      rewrite Hst. reflexivity.
  - split_in Hin; discriminate Hin.
Qed.

(* ================================================================== *)
(** * Runs that return, runs that stop *)

Ltac no_event H :=
  split_in H;
  try discriminate H;
  try (apply In_status_events in H; discriminate H).

Ltac push_flat_map :=
  repeat first [rewrite !flat_map_app | progress cbn [flat_map app]].

Lemma length_answers (t : list Event) :
  List.length (answers t) = List.length (commands t).
Proof.
  induction t as [|ev t IH]; [reflexivity|].
  destruct ev; cbn; auto.
Qed.

(** X6.  A run returns the output path only after exactly eight processes:
    the analysis of [jingle_vorne], the normalization of the six clips in
    the order of the clip set, and the concatenation writing to the path
    returned, every one started from the same tool and every one ended
    with exit status 0. *)
Theorem returning_run_processes (E : Env) (cb : option callback)
    (folder : string) (ch : Z) (out : string) (w : World)
    (p : string) (w' : World) :
  process_episode E folder ch out cb w = (Ok p, w') ->
  let new := events_since w w' in
  exists (ffmpeg : string) (b : float) (td : string),
    commands new =
      measure_cmd ffmpeg (baseline_clip folder)
      :: map (clip_cmd ffmpeg td b) (clip_set folder)
      ++ [concat_cmd ffmpeg (map (norm_path td) CONCAT_ORDER) p
                     default_mp3_quality] /\
    Forall (fun a => exists o e, a = Ok (0, o, e)) (answers new) /\
    List.length (answers new) = 8%nat.
Proof.
  intros H new. subst new. apply process_episode_log in H.
  remember (events_since w w') as new eqn:Hn. clear Hn.
  inversion H as [ | | | | |
    ffmpeg out_a err_a fs_a b td evs stop post r Htool Hread Hloop Hend Hr Hnew].
  inversion Hend as [ | | | out_c err_c fs_c Hstop Hpost Hp].
  subst.
  destruct (loop_run_done _ _ _ _ _ _ Hloop) as (Hc & Ha & _).
  destruct (status_events_silent cb baseline_msg) as (_ & _ & _ & Hs4).
  destruct (status_events_silent cb concat_msg) as (_ & _ & _ & Ht4).
  match goal with
  | |- exists f b t, commands ?l = _ /\ _ =>
      assert (Hcmds : commands l =
        measure_cmd ffmpeg (baseline_clip folder)
        :: map (clip_cmd ffmpeg td b) (clip_set folder)
        ++ [concat_cmd ffmpeg (map (norm_path td) CONCAT_ORDER)
                       (output_path_of out ch) default_mp3_quality])
  end.
  { unfold analysis_events, concat_events, commands in *.
    push_flat_map. rewrite Hs4, Ht4, Hc. reflexivity. }
  exists ffmpeg, b, td. split; [exact Hcmds|]. split.
  - unfold analysis_events, concat_events, answers in *.
    push_flat_map.
    fold (answers (status_events cb baseline_msg)).
    fold (answers (status_events cb concat_msg)).
    rewrite !answers_status_events. cbn [flat_map app].
    constructor; [eauto|]. apply Forall_app. split; [exact Ha|].
    constructor; [eauto|constructor].
  - rewrite length_answers, Hcmds. reflexivity.
Qed.

(** A run of the scripted tool that returns. *)
Lemma returning_run_witness :
  let w0 := Double.world0 Double.episode in
  let run := process_episode (Double.env Double.good) "/ep" 7 "/out" None w0 in
  exists (ffmpeg : string) (b : float) (td : string),
    commands (events_since w0 (snd run)) =
      measure_cmd ffmpeg (baseline_clip "/ep")
      :: map (clip_cmd ffmpeg td b) (clip_set "/ep")
      ++ [concat_cmd ffmpeg (map (norm_path td) CONCAT_ORDER)
                     "/out/Kapitel 7.mp3" default_mp3_quality] /\
    Forall (fun a => exists o e, a = Ok (0, o, e))
           (answers (events_since w0 (snd run))) /\
    List.length (answers (events_since w0 (snd run))) = 8%nat.
Proof.
  intros w0 run.
  apply (returning_run_processes (Double.env Double.good) None
           "/ep" 7 "/out" w0 "/out/Kapitel 7.mp3" (snd run)).
  by_vm.
Defined.

Lemma kind_of_normalize_failed (i err : string) :
  kind_of (RuntimeError (normalize_failed_msg i err)) = Some NormalizationError.
Proof. reflexivity. Qed.

Lemma kind_of_analysis_failed (i err : string) :
  kind_of (RuntimeError (analysis_failed_msg i err)) = Some AnalysisError.
Proof. reflexivity. Qed.

(** X7.  When the normalization process of a clip exits with a non-zero
    status, the run stops there: it fails with the error the specification
    calls [NormalizationError], a [RuntimeError] whose message names the
    clip and holds the captured diagnostic text verbatim; the clips before
    it in the clip set were normalized and none after it is, the
    concatenator is never called, and the only event after the failed
    process is the removal of the workspace. *)
Theorem normalize_failure_stops_run (E : Env) (cb : option callback)
    (folder : string) (ch : Z) (out : string) (w : World)
    (r : result string) (w' : World)
    (ffmpeg i o : string) (t tp lra : float) (sr c : Z)
    (rc : Z) (out_n err : string) (fs_n : list string) :
  process_episode E folder ch out cb w = (r, w') ->
  In (EvRun (normalize_cmd ffmpeg i o t tp lra sr c) (Ok (rc, out_n, err)) fs_n)
     (events_since w w') ->
  rc <> 0 ->
  r = Raise (RuntimeError (normalize_failed_msg i err)) /\
  kind_of (RuntimeError (normalize_failed_msg i err)) = Some NormalizationError /\
  Str.contains err (normalize_failed_msg i err) = true /\
  concat_calls (events_since w w') = [] /\
  exists done item rest b td pre,
    clip_set folder = done ++ item :: rest /\
    i = snd item /\
    normalize_calls (events_since w w') = calls_for td b (done ++ [item]) /\
    events_since w w' =
      pre ++ [EvRun (normalize_cmd ffmpeg i o t tp lra sr c)
                    (Ok (rc, out_n, err)) fs_n;
              EvRmtree td].
Proof.
  intros H Hin Hrc. apply process_episode_log in H.
  remember (events_since w w') as new eqn:Hn. clear Hn.
  inversion H as
    [ Htool Hr Hnew
    | ffm Htool Hmiss Hr Hnew
    | ffm f e Htool Hcb Hf Hr Hnew
    | ffm answer fs_a e Htool Hread Hr Hnew
    | ffm out_a err_a fs_a b w2 e Htool Hread Htd Hr Hnew
    | ffm out_a err_a fs_a b td evs stop post r0 Htool Hread Hloop Hend Hr Hnew ];
    subst.
  - destruct Hin.
  - destruct Hin.
  - no_event Hin.
  - unfold analysis_events in Hin. no_event Hin.
  - unfold analysis_events in Hin. no_event Hin.
  - assert (Hin' : In (EvRun (normalize_cmd ffmpeg i o t tp lra sr c)
                             (Ok (rc, out_n, err)) fs_n) evs).
    { unfold analysis_events in Hin.
      apply in_app_or in Hin as [Hin|Hin];
        [no_event Hin|].
      apply in_app_or in Hin as [Hin|Hin]; [no_event Hin|].
      apply in_app_or in Hin as [Hin|Hin]; [exact Hin|].
      apply in_app_or in Hin as [Hin|Hin]; [|no_event Hin].
      exfalso. inversion Hend; subst; unfold concat_events in Hin;
        no_event Hin; injection Hin as Hc _ _;
        exact (concat_cmd_not_normalize _ _ _ _ _ _ _ _ _ _ _ _ Hc). }
    destruct (loop_run_failure _ _ _ _ _ _ _ _ _ _ _ _ Hloop Hin' Hrc)
      as (done & item & rest & pre & Hitems & Hcmd & Hstop & Hevs & Hcalls).
    assert (Hi : i = snd item).
    { unfold clip_cmd, normalize_cmd in Hcmd. injection Hcmd. auto. }
    subst stop. inversion Hend as [e He Hpost Hr0 | | | ]. subst.
    remember (pre ++ [EvRun (normalize_cmd ffmpeg (snd item) o t tp lra sr c)
                            (Ok (rc, out_n, err)) fs_n]) as evs eqn:Hevs.
    split; [reflexivity|]. split; [reflexivity|].
    split.
    { unfold normalize_failed_msg. do 4 apply contains_app_r.
      apply contains_refl. }
    destruct (status_events_silent cb baseline_msg) as (_ & Hs2 & Hs3 & _).
    destruct (norm_events_calls _ _ _ (loop_run_norm_events _ _ _ _ _ _ _ Hloop))
      as (_ & Hc3 & _).
    split.
    { unfold analysis_events, concat_calls in *.
      push_flat_map. rewrite Hs3, Hc3. reflexivity. }
    exists done, item, rest, b, td,
      (analysis_events cb ffm folder (Ok (0, out_a, err_a)) fs_a ++
       [EvMkdtemp td] ++ pre).
    split; [exact Hitems|]. split; [reflexivity|]. split.
    + unfold analysis_events, normalize_calls in *.
      push_flat_map. rewrite Hs2, Hcalls. cbn [flat_map app].
      rewrite app_nil_r. reflexivity.
    + rewrite Hevs. cbn [app]. rewrite <- !app_assoc. reflexivity.
Qed.

(** The third normalization of the scripted tool fails. *)
Lemma normalize_failure_witness :
  let w0 := Double.world0 Double.episode in
  let new := events_since w0 (snd failing_normalize) in
  let err := "Invalid data found" in
  fst failing_normalize
    = Raise (RuntimeError (normalize_failed_msg "/ep/kapitel.mp3" err)) /\
  kind_of (RuntimeError (normalize_failed_msg "/ep/kapitel.mp3" err))
    = Some NormalizationError /\
  Str.contains err (normalize_failed_msg "/ep/kapitel.mp3" err) = true /\
  concat_calls new = [] /\
  exists done item rest b td pre,
    clip_set "/ep" = done ++ item :: rest /\
    "/ep/kapitel.mp3" = snd item /\
    normalize_calls new = calls_for td b (done ++ [item]) /\
    new =
      pre ++ [EvRun (clip_cmd "/usr/bin/ffmpeg" Double.workspace
                              Double.minus_23_54
                              ("kapitel", "/ep/kapitel.mp3"))
                    (Ok (1, "", err)) (fs_after_event new 8);
              EvRmtree td].
Proof.
  intros w0 new err.
  apply (normalize_failure_stops_run (Double.env Double.normalize_fails)
           None "/ep" 7 "/out" w0
           (fst failing_normalize) (snd failing_normalize)
           "/usr/bin/ffmpeg" "/ep/kapitel.mp3"
           (norm_path Double.workspace "kapitel") Double.minus_23_54
           default_true_peak default_lra default_sample_rate default_channels
           1 "" err (fs_after_event new 8)).
  - by_vm.
  - apply (nth_error_In _ 8). by_vm.
  - discriminate.
Defined.

(** X8.  When the analysis process exits with a non-zero status, the run
    fails with the error the specification calls [AnalysisError]: a
    [RuntimeError] whose message names the clip [jingle_vorne] and holds
    the captured diagnostic text verbatim.  The diagnostic text is not
    searched for a block, no workspace is created, no clip is normalized,
    and the analysis is the only process of the run. *)
Theorem analysis_failure_stops_run (E : Env) (cb : option callback)
    (folder : string) (ch : Z) (out : string) (w : World)
    (r : result string) (w' : World)
    (ffmpeg infile : string) (rc : Z) (out_a err : string)
    (fs_a : list string) :
  process_episode E folder ch out cb w = (r, w') ->
  In (EvRun (measure_cmd ffmpeg infile) (Ok (rc, out_a, err)) fs_a)
     (events_since w w') ->
  rc <> 0 ->
  infile = os_path.join folder "jingle_vorne.mp3" /\
  r = Raise (RuntimeError (analysis_failed_msg infile err)) /\
  kind_of (RuntimeError (analysis_failed_msg infile err)) = Some AnalysisError /\
  Str.contains err (analysis_failed_msg infile err) = true /\
  commands (events_since w w') = [measure_cmd ffmpeg infile] /\
  normalize_calls (events_since w w') = [] /\
  forall td, ~ In (EvMkdtemp td) (events_since w w').
Proof.
  intros H Hin Hrc. apply process_episode_log in H.
  remember (events_since w w') as new eqn:Hn. clear Hn.
  destruct (status_events_silent cb baseline_msg) as (_ & Hs2 & _ & Hs4).
  inversion H as
    [ Htool Hr Hnew
    | ffm Htool Hmiss Hr Hnew
    | ffm f e Htool Hcb Hf Hr Hnew
    | ffm answer fs1 e Htool Hread Hr Hnew
    | ffm out1 err1 fs1 b w2 e Htool Hread Htd Hr Hnew
    | ffm out1 err1 fs1 b td evs stop post r0 Htool Hread Hloop Hend Hr Hnew ];
    subst.
  - destruct Hin.
  - destruct Hin.
  - no_event Hin.
  - unfold analysis_events in Hin |- *. no_event Hin.
    injection Hin as ? ? ? ?; subst.
    cbn [read_stream] in Hread.
    destruct (rc =? 0) eqn:Hz; [apply Z.eqb_eq in Hz; contradiction|].
    injection Hread as <-.
    split; [reflexivity|]. split; [reflexivity|]. split; [reflexivity|].
    split.
    { unfold analysis_failed_msg. do 4 apply contains_app_r.
      apply contains_refl. }
    split; [unfold commands in *; push_flat_map; rewrite Hs4; reflexivity|].
    split; [unfold normalize_calls in *; push_flat_map; rewrite Hs2;
            reflexivity|].
    intros td Htd. no_event Htd.
  - unfold analysis_events in Hin. no_event Hin.
    injection Hin as _ _ Hz _ _. congruence.
  - exfalso. unfold analysis_events in Hin.
    apply in_app_or in Hin as [Hin|Hin].
    { no_event Hin. injection Hin as _ _ Hz _ _. congruence. }
    apply in_app_or in Hin as [Hin|Hin]; [no_event Hin|].
    apply in_app_or in Hin as [Hin|Hin].
    { eapply norm_event_not_analysis;
        [eapply loop_run_norm_events; eassumption|eassumption]. }
    apply in_app_or in Hin as [Hin|Hin]; [|no_event Hin].
    inversion Hend; subst; unfold concat_events in Hin; no_event Hin.
Qed.

(** The analysis of the scripted tool exits with status 1. *)
Lemma analysis_failure_witness :
  let w0 := Double.world0 Double.episode in
  let new := events_since w0 (snd failing_analysis) in
  let infile := "/ep/jingle_vorne.mp3" in
  let err := "jingle_vorne.mp3: Invalid data found" in
  infile = os_path.join "/ep" "jingle_vorne.mp3" /\
  fst failing_analysis = Raise (RuntimeError (analysis_failed_msg infile err)) /\
  kind_of (RuntimeError (analysis_failed_msg infile err)) = Some AnalysisError /\
  Str.contains err (analysis_failed_msg infile err) = true /\
  commands new = [measure_cmd "/usr/bin/ffmpeg" infile] /\
  normalize_calls new = [] /\
  forall td, ~ In (EvMkdtemp td) new.
Proof.
  intros w0 new infile err.
  apply (analysis_failure_stops_run (Double.env Cases.analysis_fails)
           None "/ep" 7 "/out" w0
           (fst failing_analysis) (snd failing_analysis)
           "/usr/bin/ffmpeg" infile 1 "" err Double.episode).
  - by_vm.
  - apply (nth_error_In _ 1). by_vm.
  - discriminate.
Defined.

(* ================================================================== *)
(** * Notifications, the tool, and a loudness that is not finite *)

(** X9.  The progress callback is told the steps in a fixed order: the
    baseline measurement, the six clips in the order of the clip set, the
    concatenation.  The notifications of any run, failed or not, are an
    initial part of this sequence; a run that returns has made all eight;
    without a callback there is none. *)
Theorem notifications_in_order (E : Env) (cb : option callback)
    (folder : string) (ch : Z) (out : string) (w : World)
    (r : result string) (w' : World) :
  process_episode E folder ch out cb w = (r, w') ->
  (cb = None -> statuses (events_since w w') = []) /\
  (exists rest, all_notifications = statuses (events_since w w') ++ rest) /\
  (forall p f, r = Ok p -> cb = Some f ->
               statuses (events_since w w') = all_notifications).
Proof.
  intros H. apply process_episode_log in H.
  remember (events_since w w') as new eqn:Hn. clear Hn.
  inversion H as
    [ Htool Hr Hnew
    | ffm Htool Hmiss Hr Hnew
    | ffm f e Htool Hcb Hf Hr Hnew
    | ffm answer fs1 e Htool Hread Hr Hnew
    | ffm out1 err1 fs1 b w2 e Htool Hread Htd Hr Hnew
    | ffm out1 err1 fs1 b td evs stop post r0 Htool Hread Hloop Hend Hr Hnew ];
    subst.
  - split; [reflexivity|]. split; [eexists; reflexivity|]. discriminate.
  - split; [reflexivity|]. split; [eexists; reflexivity|]. discriminate.
  - split; [discriminate|]. split; [eexists; reflexivity|]. discriminate.
  - destruct cb; (split; [try discriminate; reflexivity|]);
      (split; [eexists; reflexivity|]); discriminate.
  - destruct cb; (split; [try discriminate; reflexivity|]);
      (split; [eexists; reflexivity|]); discriminate.
  - assert (Hst : statuses
        (analysis_events cb ffm folder (Ok (0, out1, err1)) fs1 ++
         [EvMkdtemp td] ++ evs ++ post ++ [EvRmtree td])
        = statuses (status_events cb baseline_msg) ++ statuses evs ++
          statuses post).
    { unfold analysis_events, statuses. push_flat_map.
      rewrite !app_nil_r. reflexivity. }
    rewrite Hst. clear Hst.
    destruct (loop_run_statuses _ _ _ _ _ _ _ Hloop) as (rest & Hpre).
    destruct cb as [f|].
    + cbn in Hpre. split; [discriminate|].
      inversion Hend as
        [ e He Hpost Hr0
        | f0 w0 e Hcb Hf He Hpost Hr0
        | answer fs_c e Hx He Hpost Hr0
        | out_c err_c fs_c He Hpost Hr0 ]; subst.
      * split; [|discriminate].
        exists (rest ++ [concat_msg]). cbn [statuses flat_map app].
        rewrite app_nil_r. unfold all_notifications.
        rewrite <- app_assoc, (app_assoc (statuses evs)), <- Hpre.
        reflexivity.
      * destruct (loop_run_done _ _ _ _ _ _ Hloop) as (_ & _ & Hs).
        rewrite Hs. split; [exists []; reflexivity|]. discriminate.
      * destruct (loop_run_done _ _ _ _ _ _ Hloop) as (_ & _ & Hs).
        rewrite Hs. split; [exists []; reflexivity|]. discriminate.
      * destruct (loop_run_done _ _ _ _ _ _ Hloop) as (_ & _ & Hs).
        rewrite Hs. split; [exists []; reflexivity|]. reflexivity.
    + cbn in Hpre. symmetry in Hpre. apply app_eq_nil in Hpre as [Hevs _].
      rewrite Hevs.
      assert (Hpost : statuses post = []).
      { inversion Hend; subst; try reflexivity. discriminate. }
      rewrite Hpost. split; [reflexivity|].
      split; [eexists; reflexivity|]. discriminate.
Qed.

(** A run of the scripted tool with a callback that lets every
    notification pass. *)
Lemma notifications_witness :
  let w0 := Double.world0 Double.episode in
  let run := process_episode (Double.env Double.good) "/ep" 7 "/out"
               (Some Cases.quiet) w0 in
  statuses (events_since w0 (snd run)) = all_notifications.
Proof.
  intros w0 run.
  destruct (notifications_in_order (Double.env Double.good) (Some Cases.quiet)
              "/ep" 7 "/out" w0 (fst run) (snd run)
              ltac:(apply surjective_pairing)) as (_ & _ & H).
  apply (H "/out/Kapitel 7.mp3" Cases.quiet); [by_vm|reflexivity].
Defined.

(** X10.  An exception of the progress callback is not caught.  When the
    callback raises on the first notification, the run ends with that very
    exception before any process is started: the notification is the only
    event of the run, and no path is created or removed. *)
Theorem callback_exception_ends_run (E : Env) (f : callback)
    (folder : string) (ch : Z) (out : string) (w : World)
    (ffmpeg : string) (e : exn) :
  fst (_which_or_bundled E (tool_name E) w) = Ok (Some ffmpeg) ->
  ffmpeg <> "" ->
  missing_in w (clip_set folder) = [] ->
  f baseline_msg w = Some e ->
  let run := process_episode E folder ch out (Some f) w in
  fst run = Raise e /\
  events_since w (snd run) = [EvStatus baseline_msg] /\
  commands (events_since w (snd run)) = [] /\
  fs (snd run) = fs w.
Proof.
  intros Htool Hne Hmiss Hf run. subst run.
  rewrite which_eq in Htool. cbn [fst] in Htool. injection Htool as Htool.
  rewrite process_episode_eq, Htool, Hmiss.
  destruct ffmpeg as [|c ff]; [contradiction|].
  unfold status. rewrite Hf. cbn [fst snd fs].
  assert (Hev : events_since w (mkWorld (fs w) (trace w ++ [EvStatus baseline_msg]))
                = [EvStatus baseline_msg]).
  { apply events_since_app. reflexivity. }
  rewrite Hev. repeat split.
Qed.

(** A callback that gives up at the first notification. *)
Lemma callback_exception_witness :
  let w0 := Double.world0 Double.episode in
  let run := process_episode (Double.env Double.good) "/ep" 7 "/out"
               (Some Cases.cancel) w0 in
  fst run = Raise Cases.cancelled /\
  events_since w0 (snd run) = [EvStatus baseline_msg] /\
  commands (events_since w0 (snd run)) = [] /\
  fs (snd run) = fs w0.
Proof.
  intros w0 run.
  apply (callback_exception_ends_run (Double.env Double.good) Cases.cancel
           "/ep" 7 "/out" w0 "/usr/bin/ffmpeg" Cases.cancelled).
  - by_vm.
  - discriminate.
  - by_vm.
  - reflexivity.
Defined.

Lemma in_commands (t : list Event) (cmd : list string) :
  In cmd (commands t) -> exists a g, In (EvRun cmd a g) t.
Proof.
  induction t as [|ev t IH]; [intros []|].
  destruct ev; cbn; try (intros H; destruct (IH H) as (a & g & Hin); eauto).
  intros [<-|H]; [eauto|]. destruct (IH H) as (a & g & Hin); eauto.
Qed.

(** X11.  The tool is looked up once, before anything else, and every
    process of the run is started from the path that lookup gave.  The
    lookup prefers the bundled file: when [bin/<name>] exists under the
    resource base, every process is started from it, whatever the search
    path holds. *)
Theorem processes_use_resolved_tool (E : Env) (cb : option callback)
    (folder : string) (ch : Z) (out : string) (w : World)
    (r : result string) (w' : World) (cmd : list string) :
  process_episode E folder ch out cb w = (r, w') ->
  In cmd (commands (events_since w w')) ->
  _which_or_bundled E (tool_name E) w = (Ok (Some (hd "" cmd)), w) /\
  (In (bundled_tool E (tool_name E)) (fs w) ->
   hd "" cmd = bundled_tool E (tool_name E)).
Proof.
  intros H Hin. apply process_episode_log in H.
  apply in_commands in Hin as (a & g & Hin).
  remember (events_since w w') as new eqn:Hn. clear Hn.
  assert (Hgoal : forall ffm,
            resolve_tool E (tool_name E) w = Some ffm -> hd "" cmd = ffm ->
            _which_or_bundled E (tool_name E) w = (Ok (Some (hd "" cmd)), w) /\
            (In (bundled_tool E (tool_name E)) (fs w) ->
             hd "" cmd = bundled_tool E (tool_name E))).
  { intros ffm Htool Hhd. rewrite which_eq, Htool, Hhd. split; [reflexivity|].
    intros Hb. apply mem_In in Hb. unfold resolve_tool in Htool.
    fold (bundled_tool E (tool_name E)) in Htool. rewrite Hb in Htool.
    congruence. }
  inversion H as
    [ Htool Hr Hnew
    | ffm Htool Hmiss Hr Hnew
    | ffm f e Htool Hcb Hf Hr Hnew
    | ffm answer fs1 e Htool Hread Hr Hnew
    | ffm out1 err1 fs1 b w2 e Htool Hread Htd Hr Hnew
    | ffm out1 err1 fs1 b td evs stop post r0 Htool Hread Hloop Hend Hr Hnew ];
    subst.
  - destruct Hin.
  - destruct Hin.
  - no_event Hin.
  - apply (Hgoal ffm Htool). unfold analysis_events in Hin. no_event Hin.
    injection Hin as Hc _ _. subst cmd. reflexivity.
  - apply (Hgoal ffm Htool). unfold analysis_events in Hin. no_event Hin.
    injection Hin as Hc _ _. subst cmd. reflexivity.
  - apply (Hgoal ffm Htool). unfold analysis_events in Hin.
    apply in_app_or in Hin as [Hin|Hin].
    { no_event Hin. injection Hin as Hc _ _. subst cmd. reflexivity. }
    apply in_app_or in Hin as [Hin|Hin]; [no_event Hin|].
    apply in_app_or in Hin as [Hin|Hin].
    { apply loop_run_norm_events in Hloop. rewrite Forall_forall in Hloop.
      apply list_elem_of_In, Hloop in Hin. cbn in Hin.
      destruct Hin as (i & o & ->). reflexivity. }
    apply in_app_or in Hin as [Hin|Hin]; [|no_event Hin].
    inversion Hend; subst; unfold concat_events in Hin; no_event Hin;
      injection Hin as Hc _ _; subst cmd; reflexivity.
Qed.

(** A bundled tool is used although another one is on the search path. *)
Lemma resolved_tool_witness :
  let w0 := Double.world0 Cases.bundled in
  let run := process_episode (Double.env Double.good) "/ep" 7 "/out" None w0 in
  let cmd := measure_cmd "/home/anna/bin/ffmpeg" "/ep/jingle_vorne.mp3" in
  shutil_which (Double.env Double.good) "ffmpeg" w0 = Some "/usr/bin/ffmpeg" /\
  _which_or_bundled (Double.env Double.good) "ffmpeg" w0
    = (Ok (Some "/home/anna/bin/ffmpeg"), w0) /\
  hd "" cmd = "/home/anna/bin/ffmpeg".
Proof.
  intros w0 run cmd.
  destruct (processes_use_resolved_tool (Double.env Double.good) None
              "/ep" 7 "/out" w0 (fst run) (snd run) cmd
              ltac:(apply surjective_pairing)
              ltac:(apply (nth_error_In _ 0); by_vm)) as [H1 H2].
  split; [reflexivity|]. split; [exact H1|].
  apply H2. apply (nth_error_In _ 0). reflexivity.
Defined.

(** X12.  The only loudness text the analyzer rejects is [nan]: any other
    text that [float] reads is returned as it is, with no check that the
    value is finite.  A text read as an infinity, or as a NaN under
    another spelling, becomes the baseline, and the filter of a
    normalization to it reads [I=-inf], [I=inf] or [I=nan]. *)
Theorem nonfinite_loudness_accepted (E : Env) (ffmpeg infile : string)
    (w : World) (out err : string) (fs_a : list string)
    (blocks : list string) (b : string) (kv : list (string * pyval))
    (s : string) (f : float) :
  popen E (measure_cmd ffmpeg infile) (logged w (EvMeasure ffmpeg infile))
    = (Ok (0, out, err), fs_a) ->
  findall_braces err = blocks ++ [b] ->
  json_loads E b = Ok (PyDict kv) ->
  dict_lookup kv "input_i" = Some (PyStr s) ->
  Str.lower s <> "nan" ->
  float_of_str E s = Some f ->
  fst (measure_integrated_loudness E ffmpeg infile w) = Ok f /\
  (Float.is_finite f = false ->
   forall tp lra,
     loudnorm_filter f tp lra =
       "loudnorm=I=" +:+ nonfinite_text f +:+
       ":TP=" +:+ Float.format_f 1 tp +:+ ":LRA=" +:+ Float.format_f 0 lra).
Proof.
  intros Hrun Hblocks Hj Hkv Hnan Hf. split.
  - rewrite measure_eq. cbn [fst]. rewrite Hrun. cbn [fst read_stream Z.eqb].
    rewrite Hblocks. unfold last_item. rewrite last_snoc.
    unfold read_block. rewrite Hj. cbn [py_get]. rewrite Hkv.
    cbn [is_None py_str orb].
    destruct (Str.eqb (Str.lower s) "nan") eqn:Heq.
    + apply String.eqb_eq in Heq. contradiction.
    + cbn [py_float]. rewrite Hf. reflexivity.
  - intros Hfin tp lra. unfold loudnorm_filter.
    destruct f as [sg|[|]| |sg m e]; try discriminate; reflexivity.
Qed.

(** The analysis of a silent jingle prints [-inf]. *)
Lemma nonfinite_loudness_witness :
  fst (measure_integrated_loudness (Double.env digital_silence)
         "/usr/bin/ffmpeg" "/ep/jingle_vorne.mp3"
         (Double.world0 Double.episode))
    = Ok (S754_infinity true) /\
  loudnorm_filter (S754_infinity true) default_true_peak default_lra
    = "loudnorm=I=-inf:TP=-1.5:LRA=11".
Proof.
  destruct (nonfinite_loudness_accepted (Double.env digital_silence)
              "/usr/bin/ffmpeg" "/ep/jingle_vorne.mp3"
              (Double.world0 Double.episode) ""
              (Double.stderr_of "-inf") Double.episode
              [] (Double.block_of "-inf")
              [("input_i", PyStr "-inf"); ("input_tp", PyStr "-7.96");
               ("target_offset", PyStr "0.04")]
              "-inf" (S754_infinity true)
              ltac:(by_vm) ltac:(by_vm) ltac:(by_vm) ltac:(reflexivity)
              ltac:(discriminate) ltac:(by_vm)) as [H1 H2].
  split; [exact H1|].
  rewrite (H2 eq_refl). by_vm.
Defined.

(* ================================================================== *)
(** * The files a run leaves alone *)

Lemma resolve_order_world (nm : list (string * string)) (order : list string)
    (w : World) (r : result (list string)) (w' : World) :
  resolve_order nm order w = (r, w') -> w' = w.
Proof.
  revert r. induction order as [|n l IH]; intros r H; cbn in H.
  - injection H as _ <-. reflexivity.
  - unfold bind in H. destruct (dict_lookup nm n).
    + unfold ret in H at 1.
      destruct (resolve_order nm l w) as [[x|e'] w0] eqn:Hl.
      * injection H as _ <-. eapply IH. reflexivity.
      * injection H as _ <-. eapply IH. reflexivity.
    + injection H as _ <-. reflexivity.
Qed.

Section Files.

Variable E : Env.
Hypothesis Hkeep : tool_keeps_files E.

Lemma after_run_keeps (cmd : list string) (w : World) (ev : Event) (p : string) :
  In p (fs w) -> In p (fs (after_run E cmd (logged w ev))).
Proof. intros H. rewrite fs_after_run. apply Hkeep. exact H. Qed.

Lemma normalize_all_keeps (cb : option callback) (ffmpeg td : string)
    (b : float) (items : list (string * string)) :
  forall (nm : list (string * string)) (w : World)
         (r : result (list (string * string))) (w' : World) (p : string),
  normalize_all E cb ffmpeg td b items nm w = (r, w') ->
  In p (fs w) -> In p (fs w').
Proof.
  induction items as [|[name path] rest IH]; intros nm w r w' p H Hp.
  - cbn in H. injection H as <- <-. exact Hp.
  - cbn [normalize_all] in H. unfold bind at 1 in H.
    destruct (status cb _ w) as [[[]|e] w1] eqn:Hs;
      apply status_inv in Hs as (Hfs & _ & _).
    + unfold bind at 1 in H. rewrite normalize_eq in H.
      destruct (exit_check _ _) as [[]|e].
      * eapply IH; [exact H|]. apply after_run_keeps. rewrite Hfs. exact Hp.
      * injection H as <- <-. apply after_run_keeps. rewrite Hfs. exact Hp.
    + injection H as <- <-. rewrite Hfs. exact Hp.
Qed.

Lemma workspace_block_keeps (cb : option callback) (ffmpeg folder : string)
    (b : float) (out : string) (ch : Z) (td : string) (w : World)
    (r : result string) (w' : World) (p : string) :
  workspace_block E cb ffmpeg (clip_set folder) b out ch td w = (r, w') ->
  In p (fs w) -> In p (fs w').
Proof.
  unfold workspace_block. unfold bind at 1 2 3 4 5 6. unfold dict_getitem.
  cbn [clip_set dict_lookup Str.eqb String.eqb Ascii.eqb Bool.eqb].
  unfold ret at 1 2 3 4 5 6. fold (clip_set folder).
  unfold bind at 1.
  destruct (normalize_all _ _ _ _ _ _ _ _) as [[nm|e] w1] eqn:Hn.
  2:{ intros [= <- <-] Hp. eapply normalize_all_keeps; eauto. }
  intros H Hp. apply (normalize_all_keeps _ _ _ _ _ _ _ _ _ p Hn) in Hp.
  revert H. unfold bind at 1.
  destruct (resolve_order nm CONCAT_ORDER w1) as [[cf|e] w1'] eqn:Hro;
    apply resolve_order_world in Hro; subst w1'.
  2:{ intros [= <- <-]. exact Hp. }
  unfold bind at 1.
  destruct (status cb _ w1) as [[[]|e] w2] eqn:Hs;
    apply status_inv in Hs as (Hfs & _ & _).
  2:{ intros [= <- <-]. rewrite Hfs. exact Hp. }
  unfold bind at 1. rewrite concatenate_eq.
  destruct (exit_check _ _) as [[]|e]; intros [= <- <-];
    apply after_run_keeps; rewrite Hfs; exact Hp.
Qed.

(** X17.  A run removes nothing but its workspace.  With an external
    tool that removes no path, every path that existed before the run and
    does not lie in the workspace the run created still exists after it,
    however the run ends: the clips of the episode folder survive. *)
Theorem run_keeps_files (cb : option callback) (folder : string) (ch : Z)
    (out : string) (w : World) (r : result string) (w' : World) (p : string) :
  process_episode E folder ch out cb w = (r, w') ->
  In p (fs w) ->
  (forall td, In (EvMkdtemp td) (events_since w w') ->
              os_path.under td p = false) ->
  In p (fs w').
Proof.
  rewrite process_episode_eq.
  destruct (resolve_tool E (tool_name E) w) as [[|c ff]|];
    try (intros [= <- <-] Hp _; exact Hp).
  destruct (missing_in w (clip_set folder)) as [|m ms];
    try (intros [= <- <-] Hp _; exact Hp).
  destruct (status cb baseline_msg w) as [[[]|e] w1] eqn:Hs;
    apply status_inv in Hs as (Hfs & Htr & _).
  2:{ intros [= <- <-] Hp _. rewrite Hfs. exact Hp. }
  rewrite measure_eq.
  set (ev := EvMeasure _ _). set (cmd := measure_cmd _ _).
  destruct (read_stream _ _ _) as [b|e].
  2:{ intros [= <- <-] Hp _. apply after_run_keeps. rewrite Hfs. exact Hp. }
  unfold with_TemporaryDirectory.
  set (w2 := after_run E cmd (logged w1 ev)).
  destruct (mkdtemp E "podcast_" w2) as [td|e].
  2:{ intros [= <- <-] Hp _. apply after_run_keeps. rewrite Hfs. exact Hp. }
  destruct (workspace_block _ _ _ _ _ _ _ _ _) as [rb w3] eqn:Hb.
  intros [= <- <-] Hp Hout.
  apply fs_rmtree. split.
  - apply Hout.
    destruct (workspace_block_end _ _ _ _ _ _ _ _ _ _ _ Hb)
      as (evs & stop & post & Htr3 & _).
    cbn [trace] in Htr3.
    assert (Hnew : events_since w (rmtree td w3) =
      (status_events cb baseline_msg ++
       [ev; EvRun cmd (fst (popen E cmd (logged w1 ev)))
                      (snd (popen E cmd (logged w1 ev)))]) ++
      EvMkdtemp td :: evs ++ post ++ [EvRmtree td]).
    { apply events_since_app. unfold rmtree. cbn [trace].
      rewrite Htr3. unfold w2. rewrite trace_after_run. cbn [logged trace].
      rewrite Htr. rewrite <- !app_assoc. reflexivity. }
    rewrite Hnew. apply in_or_app. right. left. reflexivity.
  - eapply workspace_block_keeps; [exact Hb|]. cbn [fs]. right.
    apply after_run_keeps. rewrite Hfs. exact Hp.
Qed.

End Files.

Lemma Double_tool_keeps (sc : Double.Script) :
  tool_keeps_files (Double.env sc).
Proof.
  intros cmd w p Hp. cbn [popen Double.env]. unfold Double.tool.
  destruct (Str.eqb (nth 3 cmd "") "-i"); [exact Hp|].
  destruct (Str.eqb (nth 6 cmd "") "-vn"); cbn [snd].
  - destruct (Double.exit_ok _); [right|]; exact Hp.
  - destruct (Double.exit_ok _ || Double.sc_partial sc); [right|]; exact Hp.
Qed.

(** The clips are still there after a run whose normalization failed. *)
Lemma run_keeps_files_witness :
  In "/ep/kapitel.mp3" (fs (snd failing_normalize)).
Proof.
  apply (run_keeps_files (Double.env Double.normalize_fails)
           (Double_tool_keeps Double.normalize_fails)
           None "/ep" 7 "/out" (Double.world0 Double.episode)
           (fst failing_normalize) (snd failing_normalize)).
  - apply surjective_pairing.
  - apply (nth_error_In _ 3). reflexivity.
  - intros td Htd.
    assert (Hall : Forall (fun ev => match ev with
                                     | EvMkdtemp d => d = Double.workspace
                                     | _ => True
                                     end)
                          (events_since (Double.world0 Double.episode)
                                        (snd failing_normalize))).
    { vm_compute. repeat constructor. }
    rewrite Forall_forall in Hall. apply list_elem_of_In, Hall in Htd.
    subst td. reflexivity.
Defined.

(* ================================================================== *)
(** * The window *)

Lemma join_nonempty (a b : string) :
  b <> "" -> Str.eqb (os_path.join a b) "" = false.
Proof.
  intros Hb. unfold os_path.join.
  destruct b as [|c b]; [contradiction|].
  destruct (Str.startswith "/" (String c b)); [reflexivity|].
  destruct (Str.eqb a "" || Str.endswith_char "/" a);
    destruct a as [|x a]; reflexivity.
Qed.

Lemma EPISODE_FILES_roles :
  EPISODE_FILES = map (fun r => r +:+ ".mp3") roles.
Proof. reflexivity. Qed.

Lemma clip_set_map (folder : string) :
  clip_set folder =
    map (fun r => (r, os_path.join folder (r +:+ ".mp3"))) roles.
Proof. reflexivity. Qed.

Lemma append_nonempty (a b : string) : b <> "" -> a +:+ b <> "".
Proof.
  intros Hb H. apply (f_equal String.length) in H.
  rewrite length_append in H. destruct b; [contradiction|].
  cbn in H. lia.
Qed.

Section WindowFacts.

Variable E : Env.
Variable strip : string -> string.
Variable isdir : string -> World -> bool.
Variable is_Exception : exn -> bool.

Lemma export_missing_eq (folder : string) (names acc : list string) (w : World) :
  export_missing folder names acc w =
    acc ++ List.filter
             (fun f => negb (Str.mem (os_path.join folder f) (fs w))) names.
Proof.
  revert acc. induction names as [|f names IH]; intros acc.
  - cbn. rewrite app_nil_r. reflexivity.
  - cbn [export_missing List.filter]. rewrite IH.
    destruct (Str.mem _ _); cbn [negb]; rewrite <- ?app_assoc; reflexivity.
Qed.

Lemma sort_files_eq (folder : string) (names found missing : list string)
    (w : World) :
  sort_files folder names found missing w =
    (found ++ map (fun f => "✓ " +:+ f)
                (List.filter (fun f => Str.mem (os_path.join folder f) (fs w))
                             names),
     missing ++ map (fun f => "✗ " +:+ f)
                  (List.filter
                     (fun f => negb (Str.mem (os_path.join folder f) (fs w)))
                     names)).
Proof.
  revert found missing. induction names as [|f names IH]; intros found missing.
  - cbn. rewrite !app_nil_r. reflexivity.
  - cbn [sort_files List.filter].
    destruct (Str.mem _ _); rewrite IH; cbn [negb map];
      rewrite <- ?app_assoc; reflexivity.
Qed.

(** The files the window misses are those the pipeline misses. *)
Lemma missing_files_agree (folder : string) (w : World) :
  List.filter (fun f => negb (Str.mem (os_path.join folder f) (fs w)))
              EPISODE_FILES
  = missing_in w (clip_set folder).
Proof.
  rewrite EPISODE_FILES_roles, clip_set_map. unfold missing_in.
  induction roles as [|r rs IH]; [reflexivity|].
  cbn [map List.filter]. unfold is_missing at 1. cbn [fst snd].
  rewrite join_nonempty by (apply append_nonempty; discriminate).
  cbn [orb]. destruct (Str.mem _ _); cbn [negb map fst]; rewrite IH; reflexivity.
Qed.

(** X13.  [on_export] checks the folder and the six files itself before it
    calls the pipeline.  When the folder text is empty or no directory, or
    a clip is missing, it shows one error box and does nothing else: no
    process is started and the button is not touched.  The files its box
    lists are exactly those the validation of the pipeline would report,
    in the same order. *)
Theorem export_checks_first (episode output : string) (ch : Z) (w : World) :
  let folder := strip episode in
  folder = "" \/ isdir folder w = false \/ missing_in w (clip_set folder) <> [] ->
  exists text,
    on_export E strip isdir is_Exception episode output ch w
      = ([Critical "Fehler" text], Ok tt, w) /\
    (folder <> "" -> isdir folder w = true ->
     text = export_missing_msg (missing_in w (clip_set folder))).
Proof.
  intros folder H. unfold on_export. fold folder.
  destruct (Str.eqb folder "") eqn:He.
  { eexists. split; [reflexivity|]. intros Hne.
    apply String.eqb_eq in He. contradiction. }
  destruct (isdir folder w) eqn:Hd; cbn [orb negb].
  2:{ eexists. split; [reflexivity|]. discriminate. }
  rewrite export_missing_eq, missing_files_agree. cbn [app].
  destruct H as [H|[H|H]];
    [apply String.eqb_neq in He; contradiction|discriminate|].
  destruct (missing_in w (clip_set folder)) as [|m ms]; [contradiction|].
  eexists. split; reflexivity.
Qed.


Lemma enabled_after_statuses (l : list string) (st : bool) :
  export_enabled_after st (map SetStatus l) = st.
Proof. revert st. induction l as [|m l IH]; intros st; [reflexivity|apply IH]. Qed.

Lemma status_after_statuses (l : list string) (tail : list GuiAction)
    (st : string) (b : bool) (msg : string) :
  status_after st ([SetExportEnabled b] ++ map SetStatus l ++
                   SetStatus msg :: tail)
  = status_after msg tail.
Proof.
  unfold status_after. rewrite !fold_left_app. cbn [fold_left].
  reflexivity.
Qed.

Lemma dialogs_statuses (l : list string) : dialogs (map SetStatus l) = [].
Proof. induction l as [|m l IH]; [reflexivity|exact IH]. Qed.

Lemma dialogs_export (a : GuiAction) (l : list string)
    (tail : list GuiAction) :
  dialogs ([a] ++ map SetStatus l ++ tail) = dialogs [a] ++ dialogs tail.
Proof.
  unfold dialogs. rewrite !List.filter_app.
  fold (dialogs (map SetStatus l)). rewrite dialogs_statuses. reflexivity.
Qed.

(** X14.  [on_export] never leaves the export button disabled: whatever
    the pipeline does, the last thing the handler does after disabling the
    button is to enable it again, also when an exception that is no
    [Exception] passes through.  A call that ends normally has shown
    exactly one message box; an exception of the pipeline leaves the
    handler only if it is no [Exception], and then no box is shown. *)
Theorem export_button_and_boxes (episode output : string) (ch : Z) (w : World)
    (acts : list GuiAction) (r : result unit) (w' : World) :
  on_export E strip isdir is_Exception episode output ch w = (acts, r, w') ->
  (forall before, In (SetExportEnabled false) acts ->
                  export_enabled_after before acts = true) /\
  export_enabled_after true acts = true /\
  match r with
  | Ok _ => exists box, dialogs acts = [box]
  | Raise e => is_Exception e = false /\ dialogs acts = []
  end.
Proof.
  unfold on_export.
  destruct (Str.eqb (strip episode) "" || negb (isdir (strip episode) w)).
  { intros [= <- <- <-]. split; [intros b [H|[]]; discriminate H|].
    split; [reflexivity|]. eexists. reflexivity. }
  destruct (export_missing _ _ _ _) as [|m ms].
  2:{ intros [= <- <- <-]. split; [intros b [H|[]]; discriminate H|].
      split; [reflexivity|]. eexists. reflexivity. }
  destruct (process_episode _ _ _ _ _ _) as [[p|e] w2].
  - intros [= <- <- <-].
    assert (Hen : forall b, export_enabled_after b
              ([SetExportEnabled false] ++
               map SetStatus (statuses (events_since w w2)) ++
               [SetStatus ("Fertig: " +:+ p);
                Information "Erfolg" ("Export erstellt:" +:+ Str.nl +:+ p);
                SetExportEnabled true]) = true).
    { intros b. unfold export_enabled_after. rewrite !fold_left_app.
      reflexivity. }
    split; [intros b _; apply Hen|]. split; [apply Hen|].
    eexists. etransitivity; [apply dialogs_export|reflexivity].
  - destruct (is_Exception e) eqn:Hex; intros [= <- <- <-].
    + assert (Hen : forall b, export_enabled_after b
              ([SetExportEnabled false] ++
               map SetStatus (statuses (events_since w w2)) ++
               [Critical "Fehler" (exn_msg e);
                SetStatus ("Fehler: " +:+ exn_msg e);
                SetExportEnabled true]) = true).
      { intros b. unfold export_enabled_after. rewrite !fold_left_app.
        reflexivity. }
      split; [intros b _; apply Hen|]. split; [apply Hen|].
      eexists. etransitivity; [apply dialogs_export|reflexivity].
    + assert (Hen : forall b, export_enabled_after b
              ([SetExportEnabled false] ++
               map SetStatus (statuses (events_since w w2)) ++
               [SetExportEnabled true]) = true).
      { intros b. unfold export_enabled_after. rewrite !fold_left_app.
        reflexivity. }
      split; [intros b _; apply Hen|]. split; [apply Hen|].
      split; [exact Hex|].
      etransitivity; [apply dialogs_export|reflexivity].
Qed.

(** X15.  When an export succeeds, the box and the status line name the
    file [Kapitel <n>.mp3] in the output folder, and in the episode folder
    when the text of the output folder is empty once stripped: the
    episode folder is the default target. *)
Theorem export_success_report (episode output : string) (ch : Z) (w : World)
    (acts : list GuiAction) (r : result unit) (w' : World)
    (title text : string) :
  on_export E strip isdir is_Exception episode output ch w = (acts, r, w') ->
  In (Information title text) acts ->
  let target := if Str.eqb (strip output) "" then strip episode
                else strip output in
  let path := output_path_of target ch in
  title = "Erfolg" /\
  text = "Export erstellt:" +:+ Str.nl +:+ path /\
  (forall before, status_after before acts = "Fertig: " +:+ path) /\
  r = Ok tt /\
  fst (process_episode E (strip episode) ch target (Some set_status) w)
    = Ok path.
Proof.
  intros H Hin target path. unfold on_export in H. fold target in H.
  assert (Hno : forall l, ~ In (Information title text) (map SetStatus l)).
  { intros l Hl. apply in_map_iff in Hl as (m & Hm & _). discriminate. }
  destruct (Str.eqb (strip episode) "" || negb (isdir (strip episode) w)).
  { injection H as <- <- <-. destruct Hin as [Hin|[]]; discriminate. }
  destruct (export_missing _ _ _ _) as [|m ms].
  2:{ injection H as <- <- <-. destruct Hin as [Hin|[]]; discriminate. }
  destruct (process_episode _ _ _ _ _ _) as [[p|e] w2] eqn:Hrun.
  - injection H as <- <- <-.
    pose proof Hrun as Hp.
    apply process_episode_ok_inv in Hp
      as (_ & _ & _ & _ & _ & _ & _ & _ & _ & _ & _ & _ & Hp & _).
    fold path in Hp. subst p.
    destruct Hin as [Hin|Hin]; [discriminate|].
    apply in_app_or in Hin as [Hin|Hin]; [destruct (Hno _ Hin)|].
    destruct Hin as [Hin|[Hin|[Hin|[]]]]; try discriminate.
    injection Hin as <- <-.
    repeat split. intros before. apply status_after_statuses.
  - exfalso. destruct (is_Exception e); injection H as <- <- <-;
      (destruct Hin as [Hin|Hin]; [discriminate|]);
      (apply in_app_or in Hin as [Hin|Hin]; [destruct (Hno _ Hin)|]);
      no_event Hin.
Qed.

(** X16.  The file status of the window is green exactly when the folder
    text, stripped, names a directory in which none of the six clips is
    missing, and that is exactly when an export in the same world gets
    past its own checks and disables the button to run the pipeline. *)
Theorem file_status_agrees_with_export (episode : string) (w : World) :
  let folder := strip episode in
  let ready := folder <> "" /\ isdir folder w = true /\
               missing_in w (clip_set folder) = [] in
  ((exists text, validate_files strip isdir episode w
                 = SetFileStatus text "color: #0a0;") <-> ready) /\
  (forall output ch,
     hd_error (fst (fst (on_export E strip isdir is_Exception
                                    episode output ch w)))
       = Some (SetExportEnabled false) <-> ready).
Proof.
  intros folder ready. subst ready. split.
  - unfold validate_files. fold folder.
    destruct (Str.eqb folder "") eqn:He.
    { apply String.eqb_eq in He. split.
      - intros (text & H). discriminate.
      - intros (Hne & _). contradiction. }
    apply String.eqb_neq in He.
    destruct (isdir folder w) eqn:Hd; cbn [orb negb].
    2:{ split; [intros (text & H); discriminate|intros (_ & H & _); discriminate]. }
    rewrite sort_files_eq, missing_files_agree. cbn [app].
    destruct (missing_in w (clip_set folder)) as [|m ms]; cbn [map].
    + split; [auto|]. intros _. eexists. reflexivity.
    + split; [intros (text & H); discriminate|intros (_ & _ & H); discriminate].
  - intros output ch. unfold on_export. fold folder.
    destruct (Str.eqb folder "") eqn:He.
    { apply String.eqb_eq in He. split.
      - discriminate.
      - intros (Hne & _). contradiction. }
    apply String.eqb_neq in He.
    destruct (isdir folder w) eqn:Hd; cbn [orb negb].
    2:{ split; [discriminate|intros (_ & H & _); discriminate]. }
    rewrite export_missing_eq, missing_files_agree. cbn [app].
    destruct (missing_in w (clip_set folder)) as [|m ms].
    + split; [auto|]. intros _.
      destruct (process_episode _ _ _ _ _ _) as [[p|e] w2];
        [reflexivity|]. destruct (is_Exception e); reflexivity.
    + split; [discriminate|intros (_ & _ & H); discriminate].
Qed.

End WindowFacts.

Lemma triple_eta {A B C} (x : A * B * C) :
  x = (fst (fst x), snd (fst x), snd x).
Proof. destruct x as [[a b] c]. reflexivity. Qed.

(** A folder without two of the clips. *)
Lemma export_checks_witness :
  on_export (Double.env Double.good) Desk.strip Desk.isdir Desk.is_Exception
            "/ep" "" 7 (Double.world0 Double.incomplete)
  = ([Critical "Fehler"
        (export_missing_msg ["outro.mp3"; "jingle_hinten.mp3"])],
     Ok tt, Double.world0 Double.incomplete).
Proof.
  destruct (export_checks_first (Double.env Double.good)
              Desk.strip Desk.isdir Desk.is_Exception
              "/ep" "" 7 (Double.world0 Double.incomplete))
    as (text & H1 & H2).
  { right. right. vm_compute. discriminate. }
  rewrite H1, H2; [by_vm|discriminate|by_vm].
Defined.

(** An export that succeeds and one whose pipeline fails. *)
Lemma export_button_witness :
  export_enabled_after true
    (fst (fst (on_export (Double.env Double.good)
                 Desk.strip Desk.isdir Desk.is_Exception "/ep" "" 7
                 (Double.world0 Double.episode)))) = true /\
  export_enabled_after true
    (fst (fst (on_export (Double.env Double.normalize_fails)
                 Desk.strip Desk.isdir Desk.is_Exception "/ep" "" 7
                 (Double.world0 Double.episode)))) = true.
Proof.
  pose proof (export_button_and_boxes (Double.env Double.good)
             Desk.strip Desk.isdir Desk.is_Exception "/ep" "" 7
             (Double.world0 Double.episode) _ _ _
             (triple_eta (on_export (Double.env Double.good)
                 Desk.strip Desk.isdir Desk.is_Exception "/ep" "" 7
                 (Double.world0 Double.episode)))) as H1.
  pose proof (export_button_and_boxes (Double.env Double.normalize_fails)
             Desk.strip Desk.isdir Desk.is_Exception "/ep" "" 7
             (Double.world0 Double.episode) _ _ _
             (triple_eta (on_export (Double.env Double.normalize_fails)
                 Desk.strip Desk.isdir Desk.is_Exception "/ep" "" 7
                 (Double.world0 Double.episode)))) as H2.
  exact (conj (proj1 (proj2 H1)) (proj1 (proj2 H2))).
Defined.

(** An export with no output folder given. *)
Lemma export_success_witness :
  status_after ""
    (fst (fst (on_export (Double.env Double.good)
                 Desk.strip Desk.isdir Desk.is_Exception "/ep" "" 7
                 (Double.world0 Double.episode))))
  = "Fertig: " +:+ output_path_of "/ep" 7.
Proof.
  assert (Hin : In (Information "Erfolg"
                      ("Export erstellt:" +:+ Str.nl +:+ "/ep/Kapitel 7.mp3"))
                   (fst (fst (on_export (Double.env Double.good)
                      Desk.strip Desk.isdir Desk.is_Exception "/ep" "" 7
                      (Double.world0 Double.episode))))).
  { apply (nth_error_In _ 10). by_vm. }
  pose proof (export_success_report (Double.env Double.good)
           Desk.strip Desk.isdir Desk.is_Exception "/ep" "" 7
           (Double.world0 Double.episode) _ _ _
           "Erfolg" ("Export erstellt:" +:+ Str.nl +:+ "/ep/Kapitel 7.mp3")
           (triple_eta (on_export (Double.env Double.good)
                 Desk.strip Desk.isdir Desk.is_Exception "/ep" "" 7
                 (Double.world0 Double.episode))) Hin) as H.
  exact (proj1 (proj2 (proj2 H)) "").
Defined.

(* ================================================================== *)
(** * Processes that cannot be started, directories that cannot be made *)

Lemma loop_run_launch_failure (cb : option callback) (ffmpeg td : string)
    (b : float) (items : list (string * string)) (evs : list Event)
    (stop : option exn) (cmd : list string) (e : exn) (g : list string) :
  loop_run cb ffmpeg td b items evs stop ->
  In (EvRun cmd (Raise e) g) evs ->
  stop = Some e /\ exists pre, evs = pre ++ [EvRun cmd (Raise e) g].
Proof.
  intros H Hin.
  induction H as [|item rest o' err' g' evs stop _ IH|item rest a g' e0 Hx
                  |item rest f w0 e0 _ _].
  - destruct Hin.
  - unfold turn_events in Hin. split_in Hin;
      try (apply In_status_events in Hin; discriminate Hin);
      try discriminate Hin.
    destruct (IH Hin) as (Hs & pre & He). split; [exact Hs|].
    exists (turn_events cb ffmpeg td b item (Ok (0, o', err')) g' ++ pre).
    rewrite He at 1. rewrite <- app_assoc. reflexivity.
  - unfold turn_events in Hin. split_in Hin;
      try (apply In_status_events in Hin; discriminate Hin);
      try discriminate Hin.
    injection Hin as Hc Ha Hg. subst a g'. cbn [exit_check] in Hx.
    injection Hx as <-. split; [reflexivity|].
    exists (status_events cb (normalize_msg (fst item)) ++
            [EvNormalize ffmpeg (snd item) (norm_path td (fst item)) b
               default_true_peak default_lra default_sample_rate
               default_channels]).
    unfold turn_events. rewrite Hc, <- app_assoc. reflexivity.
  - split_in Hin; discriminate Hin.
Qed.

(** X18.  When a process of a run cannot be started, the exception of the
    launcher is not wrapped: the run ends with that very exception,
    whichever step it was, and no further process is started; all that
    can follow in the log is the removal of the workspace. *)
Theorem launch_failure_passes_through (E : Env) (cb : option callback)
    (folder : string) (ch : Z) (out : string) (w : World)
    (r : result string) (w' : World)
    (cmd : list string) (e : exn) (g : list string) :
  process_episode E folder ch out cb w = (r, w') ->
  In (EvRun cmd (Raise e) g) (events_since w w') ->
  r = Raise e /\
  exists pre post,
    events_since w w' = pre ++ [EvRun cmd (Raise e) g] ++ post /\
    (post = [] \/ exists td, post = [EvRmtree td]).
Proof.
  intros H Hin. apply process_episode_log in H.
  remember (events_since w w') as new eqn:Hn. clear Hn.
  inversion H as
    [ Htool Hr Hnew
    | ffm Htool Hmiss Hr Hnew
    | ffm f e0 Htool Hcb Hf Hr Hnew
    | ffm answer fs1 e0 Htool Hread Hr Hnew
    | ffm out1 err1 fs1 b w2 e0 Htool Hread Htd Hr Hnew
    | ffm out1 err1 fs1 b td evs stop post r0 Htool Hread Hloop Hend Hr Hnew ];
    subst.
  - destruct Hin.
  - destruct Hin.
  - no_event Hin.
  - unfold analysis_events in Hin |- *. no_event Hin.
    injection Hin as ? ? ?; subst. cbn [read_stream] in Hread.
    injection Hread as <-. split; [reflexivity|].
    exists (status_events cb baseline_msg ++
            [EvMeasure ffm (baseline_clip folder)]), [].
    split; [rewrite <- !app_assoc; reflexivity|]. left. reflexivity.
  - unfold analysis_events in Hin. no_event Hin.
  - unfold analysis_events in Hin.
    apply in_app_or in Hin as [Hin|Hin]; [no_event Hin|].
    apply in_app_or in Hin as [Hin|Hin]; [no_event Hin|].
    apply in_app_or in Hin as [Hin|Hin].
    + destruct (loop_run_launch_failure _ _ _ _ _ _ _ _ _ _ Hloop Hin)
        as (Hstop & pre & Hevs).
      subst stop. inversion Hend as [e1 He Hpost Hr0 | | | ]. subst.
      split; [reflexivity|].
      exists (analysis_events cb ffm folder (Ok (0, out1, err1)) fs1 ++
              [EvMkdtemp td] ++ pre), [EvRmtree td].
      split; [|right; eauto].
      unfold analysis_events. rewrite <- !app_assoc. reflexivity.
    + apply in_app_or in Hin as [Hin|Hin]; [|no_event Hin].
      inversion Hend as
        [ e1 He Hpost Hr0
        | f0 w0 e1 Hcb Hf He Hpost Hr0
        | answer fs_c e1 Hx He Hpost Hr0
        | out_c err_c fs_c He Hpost Hr0 ]; subst;
        unfold concat_events in Hin; no_event Hin.
      injection Hin as Hc Ha Hg. subst answer fs_c cmd. cbn [exit_check] in Hx.
      injection Hx as <-. split; [reflexivity|].
      exists (analysis_events cb ffm folder (Ok (0, out1, err1)) fs1 ++
              [EvMkdtemp td] ++ evs ++ status_events cb concat_msg ++
              [EvConcat ffm (map (norm_path td) CONCAT_ORDER)
                        (output_path_of out ch) default_mp3_quality]),
             [EvRmtree td].
      split; [|right; eauto].
      unfold analysis_events, concat_events.
      rewrite <- !app_assoc. reflexivity.
Qed.

(** The tool of the scripted run cannot be executed. *)
Lemma launch_failure_witness :
  fst failing_launch = Raise Faults.denied /\
  exists pre post,
    events_since (Double.world0 Double.episode) (snd failing_launch)
      = pre ++ [EvRun (measure_cmd "/usr/bin/ffmpeg" "/ep/jingle_vorne.mp3")
                      (Raise Faults.denied) Double.episode] ++ post /\
    (post = [] \/ exists td, post = [EvRmtree td]).
Proof.
  apply (launch_failure_passes_through (Double.env Faults.no_exec) None
           "/ep" 7 "/out" (Double.world0 Double.episode)
           (fst failing_launch) (snd failing_launch)).
  - apply surjective_pairing.
  - apply (nth_error_In _ 1). by_vm.
Defined.

(** X19.  Without a temporary directory there is no work: when the
    directory cannot be created, no run returns a path, no clip is
    normalized, nothing is concatenated and nothing is removed; a run
    whose analysis gave a loudness fails with the exception of the
    directory, passed through as it is. *)
Theorem no_workspace_no_work (E : Env) (cb : option callback)
    (folder : string) (ch : Z) (out : string) (w : World)
    (r : result string) (w' : World) (e0 : exn) :
  (forall prefix w0, mkdtemp E prefix w0 = Raise e0) ->
  process_episode E folder ch out cb w = (r, w') ->
  (exists e, r = Raise e) /\
  normalize_calls (events_since w w') = [] /\
  concat_calls (events_since w w') = [] /\
  (forall td, ~ In (EvMkdtemp td) (events_since w w') /\
              ~ In (EvRmtree td) (events_since w w')) /\
  (forall ffmpeg infile answer g b,
     In (EvRun (measure_cmd ffmpeg infile) answer g) (events_since w w') ->
     read_stream E infile answer = Ok b -> r = Raise e0).
Proof.
  intros Hno H. apply process_episode_run in H.
  destruct (status_events_silent cb baseline_msg) as (_ & Hs2 & Hs3 & _).
  inversion H as
    [ Htool
    | ffm Htool Hne Hmiss
    | ffm e ww Htool Hne Hmiss Htr Hfs Hfor
    | ffm answer fs1 e ww Htool Hne Hmiss Htr Hfs Hpop Hread
    | ffm answer fs1 b e ww Htool Hne Hmiss Htr Hfs Hpop Hread Htd
    | ffm answer fs1 b td w2 w3 rr ww Htool Hne Hmiss Htr Hfs Hpop Hread
        Hmeas Htd Hblock Hw' ]; subst.
  - unfold events_since. rewrite drop_all.
    split; [eauto|]. split; [reflexivity|]. split; [reflexivity|].
    split; [intros td; split; intros []|]. intros ? ? ? ? ? [].
  - unfold events_since. rewrite drop_all.
    split; [eauto|]. split; [reflexivity|]. split; [reflexivity|].
    split; [intros td; split; intros []|]. intros ? ? ? ? ? [].
  - rewrite (events_since_app _ _ _ Htr).
    split; [eauto|]. split; [exact Hs2|]. split; [exact Hs3|].
    split; [intros td; split; intros Hin; no_event Hin|].
    intros ? ? ? ? ? Hin. no_event Hin.
  - rewrite (events_since_app _ _ _ Htr).
    split; [eauto|].
    split; [unfold normalize_calls in *; push_flat_map; rewrite Hs2;
            reflexivity|].
    split; [unfold concat_calls in *; push_flat_map; rewrite Hs3;
            reflexivity|].
    split; [intros td; split; intros Hin; no_event Hin|].
    intros f i a g b Hin Hb. no_event Hin.
    injection Hin as ? ? ? ?; subst. congruence.
  - rewrite (events_since_app _ _ _ Htr).
    rewrite Hno in Htd. injection Htd as <-.
    split; [eauto|].
    split; [unfold normalize_calls in *; push_flat_map; rewrite Hs2;
            reflexivity|].
    split; [unfold concat_calls in *; push_flat_map; rewrite Hs3;
            reflexivity|].
    split; [intros td; split; intros Hin; no_event Hin|].
    reflexivity.
  - rewrite Hno in Htd. discriminate.
Qed.

(** A run on a full disk. *)
Lemma no_workspace_witness :
  fst failing_mkdtemp = Raise Faults.disk_full /\
  normalize_calls (events_since (Double.world0 Double.episode)
                                (snd failing_mkdtemp)) = [].
Proof.
  pose proof (no_workspace_no_work Faults.no_tmp None "/ep" 7 "/out"
                (Double.world0 Double.episode)
                (fst failing_mkdtemp) (snd failing_mkdtemp) Faults.disk_full
                (fun _ _ => eq_refl)
                (surjective_pairing failing_mkdtemp)) as (_ & H2 & _ & _ & H5).
  split; [|exact H2].
  apply (H5 "/usr/bin/ffmpeg" "/ep/jingle_vorne.mp3"
            (Ok (0, "", Double.stderr_of "-23.54")) Double.episode
            Double.minus_23_54).
  - apply (nth_error_In _ 1). by_vm.
  - by_vm.
Defined.
